(** * Verification of the voice-agent coordination core (agent.py)

    The development embeds the Python program shallowly:
    - Python [str] values are sequences of Unicode code points;
    - the process-wide dictionary [consultation_state], the asyncio tasks
      and the coroutines of [Assistant] and [FixedConversationManager] are
      an explicit state ([World]) with one transition per resumption of a
      coroutine (from one suspension point to the next);
    - the collaborators outside the program (the speech sink, the HTTP
      backend, the clock, the random source, the dialogue layer) supply
      their answers as the arguments of the events.

    Times are integers counting milliseconds of [loop.time()].

    A transition runs one coroutine from its resumption to its next
    suspension, as the event loop does; which coroutine resumes next,
    among those that can, is left open, so that what is proved of every
    run holds for the order the event loop chooses. A timer does not
    fire before it is due. The backend task can be cancelled from
    outside the program (the program has handlers for it); the
    cancellation of a tool call itself and the end of the session (the
    [finally] of [entrypoint]) are not part of the model.

    The helpers and the small tools of agent.py (the phone of the
    caller's identity, the greetings, the replies to a greeting and to
    impatience) are embedded as functions, and the silence monitor of
    the earlier variant, agent_20250716.py, as a state machine of its
    own. *)

From Stdlib Require Import ZArith NArith List Bool Lia String Ascii.
From stdpp Require Import base option list gmap strings.

Set Default Proof Using "Type".

(** ** Python strings *)

Abbreviation pystr := (list N).

(** String constants are written as UTF-8 literals and decoded to code
    points. *)
Fixpoint utf8_decode (bs : list N) : pystr :=
  match bs with
  | [] => []
  | b0 :: r0 =>
    if (b0 <? 128)%N then b0 :: utf8_decode r0
    else match r0 with
    | [] => []
    | b1 :: r1 =>
      if (b0 <? 224)%N then ((b0 - 192) * 64 + (b1 - 128))%N :: utf8_decode r1
      else match r1 with
      | [] => []
      | b2 :: r2 =>
        if (b0 <? 240)%N
        then ((b0 - 224) * 4096 + (b1 - 128) * 64 + (b2 - 128))%N :: utf8_decode r2
        else match r2 with
        | [] => []
        | b3 :: r3 =>
          ((b0 - 240) * 262144 + (b1 - 128) * 4096 + (b2 - 128) * 64 + (b3 - 128))%N
            :: utf8_decode r3
        end
      end
    end
  end.

Definition py (s : string) : pystr :=
  utf8_decode (map N_of_ascii (list_ascii_of_string s)).
Arguments py : simpl never.

(** [str.isspace] for one code point, which is also the class [\s] of
    [re] on [str] patterns. *)
Definition is_space (c : N) : bool :=
  ((9 <=? c) && (c <=? 13) || (28 <=? c) && (c <=? 32) || (c =? 133) || (c =? 160)
   || (c =? 5760) || (8192 <=? c) && (c <=? 8202) || (c =? 8232) || (c =? 8233)
   || (c =? 8239) || (c =? 8287) || (c =? 12288))%N.

Fixpoint lstrip (s : pystr) : pystr :=
  match s with
  | c :: r => if is_space c then lstrip r else s
  | [] => []
  end.

Definition rstrip (s : pystr) : pystr := rev (lstrip (rev s)).

(** [s.strip()] *)
Definition strip (s : pystr) : pystr := rstrip (lstrip s).

Definition pystr_eqb (a b : pystr) : bool := bool_decide (a = b).

(** [s.startswith(p)] *)
Fixpoint startswith (s p : pystr) {struct p} : bool :=
  match p, s with
  | [], _ => true
  | _ :: _, [] => false
  | a :: p', b :: s' => (a =? b)%N && startswith s' p'
  end.

(** [sub in s] *)
Fixpoint contains (sub s : pystr) : bool :=
  startswith s sub ||
  match s with
  | [] => false
  | _ :: r => contains sub r
  end.

(** [s.replace(old, new)]: the occurrences of [old] are taken from left
    to right and do not overlap; [skip] counts the code points of an
    occurrence that are still to be dropped. *)
Fixpoint replace_from (old new : pystr) (skip : nat) (s : pystr) : pystr :=
  match s with
  | [] => []
  | c :: r =>
    match skip with
    | S k => replace_from old new k r
    | O =>
      if startswith s old
      then new ++ replace_from old new (length old - 1) r
      else c :: replace_from old new 0 r
    end
  end.

Definition replace (s old new : pystr) : pystr :=
  match old with
  | [] => new ++ flat_map (fun c => c :: new) s
  | _ :: _ => replace_from old new 0 s
  end.

(** [sep.join(l)] *)
Fixpoint join (sep : pystr) (l : list pystr) : pystr :=
  match l with
  | [] => []
  | [x] => x
  | x :: r => x ++ sep ++ join sep r
  end.

(** Truth value of an optional string: [None] and [""] are false. *)
Definition truthy (o : option pystr) : bool :=
  match o with
  | Some (_ :: _) => true
  | _ => false
  end.

Definition ascii_lower (c : N) : N :=
  if ((65 <=? c) && (c <=? 90))%N then (c + 32)%N else c.

(** Strings of ASCII code points. *)
Definition ascii_only (s : pystr) : Prop := Forall (fun c => (c < 128)%N) s.

(** The tables of the Unicode database that Python consults are not part
    of the program: the decimal value of a code point ([\d] in [re],
    [int]) and [str.lower]. They are a parameter, fixed on ASCII. *)
Class PyUnicode := {
  uni_decimal : N -> option N;
  uni_lower : pystr -> pystr;
  uni_decimal_ascii : forall c, (c < 128)%N ->
    uni_decimal c = if ((48 <=? c) && (c <=? 57))%N then Some (c - 48)%N else None;
  uni_lower_ascii : forall s, Forall (fun c => (c < 128)%N) s ->
    uni_lower s = map ascii_lower s
}.

Definition ascii_decimal (c : N) : option N :=
  if ((48 <=? c) && (c <=? 57))%N then Some (c - 48)%N else None.

(** The table that knows ASCII only. *)
Definition ascii_unicode : PyUnicode := {|
  uni_decimal := ascii_decimal;
  uni_lower := map ascii_lower;
  uni_decimal_ascii := fun _ _ => eq_refl;
  uni_lower_ascii := fun _ _ => eq_refl
|}.

(** ** Exceptions and results *)

(** The exceptions the program distinguishes. [OtherException] stands for
    any other subclass of [Exception], named for the record. *)
Inductive PyExn :=
  | CancelledError
  | TimeoutException
  | HTTPStatusError (status : Z)
  | OtherException (name : string).

Inductive PyResult (A : Type) :=
  | Returned (a : A)
  | Raised (e : PyExn).
Arguments Returned {A} a.
Arguments Raised {A} e.

Definition Time := Z.

(** ** Input validation: [normalize_phone] *)

Definition msg_phone_missing : pystr :=
  py "Por favor, proporciona un número de celular válido.".
Definition msg_phone_invalid : pystr :=
  py "El número de celular no es válido. Debe tener 9 dígitos, por ejemplo, +51987654321.".

(** The class [[\s\-\(\)]] of the first pattern of [normalize_phone]. *)
Definition phone_noise (c : N) : bool :=
  (is_space c || (c =? 45) || (c =? 40) || (c =? 41))%N.

(** [re.sub(r'[...]+', '', s)]: every maximal run of code points of the
    class is deleted, which deletes every code point of the class. *)
Definition re_sub_delete (cls : N -> bool) (s : pystr) : pystr :=
  filter (fun c => cls c = false) s.

Section Validation.
Context {U : PyUnicode}.

Definition is_decimal (c : N) : bool :=
  match uni_decimal c with Some _ => true | None => false end.

(** [\d{n}] at the head of [s]: the rest of [s] when it matches. *)
Fixpoint re_digits (n : nat) (s : pystr) : option pystr :=
  match n with
  | O => Some s
  | S k =>
    match s with
    | c :: r => if is_decimal c then re_digits k r else None
    | [] => None
    end
  end.

(** [$] without [re.MULTILINE]: the end of the string, or just before a
    newline that ends it. *)
Definition re_at_end (s : pystr) : bool :=
  match s with
  | [] => true
  | [c] => (c =? 10)%N
  | _ => false
  end.

(** [re.match(r'^\+51\d{9}$', phone)] *)
Definition re_match_phone (phone : pystr) : bool :=
  match phone with
  | 43%N :: 53%N :: 49%N :: r =>
    match re_digits 9 r with
    | Some rest => re_at_end rest
    | None => false
    end
  | _ => false
  end.

Definition normalize_phone (phone : option pystr) : option pystr * option pystr :=
  if negb (truthy phone) then (None, Some msg_phone_missing)
  else
    let phone1 := re_sub_delete phone_noise (strip (default [] phone)) in
    let phone2 := if negb (startswith phone1 (py "+")) then py "+51" ++ phone1 else phone1 in
    if re_match_phone phone2 then (Some phone2, None)
    else (None, Some msg_phone_invalid).

End Validation.

(** ** Input validation: [parse_relative_date] *)

(** A calendar date, as [datetime.date] has it. *)
Record Date := mkDate { d_year : Z; d_month : Z; d_day : Z }.

Definition is_leap (y : Z) : bool :=
  ((y mod 4 =? 0) && (negb (y mod 100 =? 0) || (y mod 400 =? 0)))%Z.

Definition days_in_month (y m : Z) : Z :=
  if (m =? 2)%Z then (if is_leap y then 29 else 28)%Z
  else if ((m =? 4) || (m =? 6) || (m =? 9) || (m =? 11))%Z then 30%Z
  else 31%Z.

(** The dates [datetime.date(y, m, d)] accepts. *)
Definition valid_date (d : Date) : bool :=
  ((1 <=? d_year d) && (d_year d <=? 9999) && (1 <=? d_month d) && (d_month d <=? 12)
   && (1 <=? d_day d) && (d_day d <=? days_in_month (d_year d) (d_month d)))%Z.

Definition days_before_year (y : Z) : Z :=
  ((y - 1) * 365 + (y - 1) / 4 - (y - 1) / 100 + (y - 1) / 400)%Z.

Definition days_before_month (y m : Z) : Z :=
  (nth (Z.to_nat (m - 1)) [0; 31; 59; 90; 120; 151; 181; 212; 243; 273; 304; 334] 0
   + (if (2 <? m) && is_leap y then 1 else 0))%Z.

Definition toordinal (d : Date) : Z :=
  (days_before_year (d_year d) + days_before_month (d_year d) (d_month d) + d_day d)%Z.

(** [date.weekday()]: 0 is Monday, 6 is Sunday. *)
Definition weekday (d : Date) : Z := ((toordinal d + 6) mod 7)%Z.

(** [a.date() < b.date()] *)
Definition date_ltb (a b : Date) : bool :=
  ((d_year a <? d_year b)
   || (d_year a =? d_year b)
      && ((d_month a <? d_month b)
          || (d_month a =? d_month b) && (d_day a <? d_day b)))%Z.

(** [today + timedelta(days=1)]; [None] is the [OverflowError] past the
    last representable date. *)
Definition tomorrow_of (d : Date) : option Date :=
  if (d_day d <? days_in_month (d_year d) (d_month d))%Z
  then Some (mkDate (d_year d) (d_month d) (d_day d + 1))
  else if (d_month d <? 12)%Z then Some (mkDate (d_year d) (d_month d + 1) 1)
  else if (d_year d <? 9999)%Z then Some (mkDate (d_year d + 1) 1 1)
  else None.

Definition digit_char (z : Z) : N := (48 + Z.to_N z)%N.

Definition pad2 (z : Z) : pystr := [digit_char (z / 10); digit_char (z mod 10)]%Z.

Definition pad4 (z : Z) : pystr :=
  [digit_char (z / 1000); digit_char (z / 100 mod 10);
   digit_char (z / 10 mod 10); digit_char (z mod 10)]%Z.

(** [d.strftime("%d/%m/%Y")] *)
Definition strftime_dmy (d : Date) : pystr :=
  pad2 (d_day d) ++ py "/" ++ pad2 (d_month d) ++ py "/" ++ pad4 (d_year d).

(** [d.strftime('%A')] in the C locale. *)
Definition weekday_name (wd : Z) : pystr :=
  nth (Z.to_nat wd)
    [py "Monday"; py "Tuesday"; py "Wednesday"; py "Thursday"; py "Friday";
     py "Saturday"; py "Sunday"] [].

Definition days_map : list (pystr * Z) :=
  [(py "lunes", 0); (py "martes", 1); (py "miércoles", 2); (py "miercoles", 2);
   (py "jueves", 3); (py "viernes", 4); (py "sábado", 5); (py "sabado", 5);
   (py "domingo", 6)]%Z.

Definition days_map_get (k : pystr) : option Z :=
  snd <$> find (fun p => pystr_eqb (fst p) k) days_map.

Definition msg_date_missing : pystr := py "Por favor, proporciona la fecha de la cita.".
Definition msg_date_past : pystr :=
  py "La fecha no puede ser anterior a hoy. Por favor, especifica una fecha válida.".
Definition msg_date_format : pystr :=
  py "No entendí la fecha. Por favor, usa el formato día/mes/año, como 05/08/2025, o di 'mañana'.".

(** The code points of a date written by [strftime]: digits and slashes. *)
Definition dateish (c : N) : Prop := (47 <= c <= 57)%N.

Section Dates.
Context {U : PyUnicode}.

(** An explicit class [[lo-hi]] of ASCII digits: the digit's value. *)
Definition class_digit (lo hi : N) (c : N) : option Z :=
  if ((lo <=? c) && (c <=? hi))%N then Some (Z.of_N (c - 48)) else None.

(** [\d] with the value [int] gives the digit. *)
Definition any_digit (c : N) : option Z := Z.of_N <$> uni_decimal c.

Definition one_of {A} (o : option A) : list A :=
  match o with Some a => [a] | None => [] end.

(** The directives of [datetime.strptime], as the regular expressions of
    the standard library spell them; each gives its matches at the head
    of [s] in the order the alternatives are tried.
    [%d] is [3[0-1]|[1-2]\d|0[1-9]|[1-9]| [1-9]]. *)
Definition strptime_day (s : pystr) : list (Z * pystr) :=
  match s with
  | a :: r =>
    match r with
    | b :: r' =>
      one_of (if (a =? 51)%N then v ← class_digit 48 49 b; Some (30 + v, r')%Z else None)
      ++ one_of (x ← class_digit 49 50 a; v ← any_digit b; Some (10 * x + v, r')%Z)
      ++ one_of (if (a =? 48)%N then v ← class_digit 49 57 b; Some (v, r') else None)
    | [] => []
    end
    ++ one_of (v ← class_digit 49 57 a; Some (v, r))
    ++ match r with
       | b :: r' => one_of (if (a =? 32)%N then v ← class_digit 49 57 b; Some (v, r') else None)
       | [] => []
       end
  | [] => []
  end.

(** [%m] is [1[0-2]|0[1-9]|[1-9]]. *)
Definition strptime_month (s : pystr) : list (Z * pystr) :=
  match s with
  | a :: r =>
    match r with
    | b :: r' =>
      one_of (if (a =? 49)%N then v ← class_digit 48 50 b; Some (10 + v, r')%Z else None)
      ++ one_of (if (a =? 48)%N then v ← class_digit 49 57 b; Some (v, r') else None)
    | [] => []
    end
    ++ one_of (v ← class_digit 49 57 a; Some (v, r))
  | [] => []
  end.

(** [%Y] is [\d\d\d\d]. *)
Definition strptime_year (s : pystr) : list (Z * pystr) :=
  match s with
  | a :: b :: c :: d :: r =>
    one_of (va ← any_digit a; vb ← any_digit b; vc ← any_digit c; vd ← any_digit d;
            Some (1000 * va + 100 * vb + 10 * vc + vd, r)%Z)
  | _ => []
  end.

Definition expect (c : N) (s : pystr) : list pystr :=
  match s with
  | x :: r => if (x =? c)%N then [r] else []
  | [] => []
  end.

(** The literal [/] after a directive. *)
Definition then_slash (l : list (Z * pystr)) : list (Z * pystr) :=
  '(v, s1) ← l; s2 ← expect 47 s1; [(v, s2)].

(** All the ways ["%d/%m/%Y"] matches a prefix of [s], first one first. *)
Definition strptime_dmy_matches (s : pystr) : list (Date * pystr) :=
  '(d, s2) ← then_slash (strptime_day s);
  '(m, s4) ← then_slash (strptime_month s2);
  '(y, s5) ← strptime_year s4;
  [(mkDate y m d, s5)].

(** [datetime.strptime(s, "%d/%m/%Y")]; [None] is its [ValueError]: no
    match, unconverted data after the first match, or a day the month
    does not have. *)
Definition strptime_dmy (s : pystr) : option Date :=
  match strptime_dmy_matches s with
  | (d, []) :: _ => if valid_date d then Some d else None
  | _ => None
  end.

(** The check of an optional [day_reference] against the weekday [wd] of
    the date: the normalised reference when it names another day. *)
Definition day_reference_mismatch (day_reference : option pystr) (wd : Z) : option pystr :=
  if truthy day_reference then
    let dr := strip (uni_lower (default [] day_reference)) in
    match days_map_get dr with
    | Some i => if negb (i =? wd)%Z then Some dr else None
    | None => None
    end
  else None.

Definition msg_tomorrow_mismatch (tomorrow : Date) (dr : pystr) : pystr :=
  py "Mañana es " ++ uni_lower (weekday_name (weekday tomorrow)) ++ py ", no " ++ dr
  ++ py ". Por favor, especifica una fecha válida.".

Definition msg_date_mismatch (date_input : pystr) (d : Date) (dr : pystr) : pystr :=
  py "La fecha " ++ date_input ++ py " es un " ++ uni_lower (weekday_name (weekday d))
  ++ py ", no " ++ dr ++ py ". Por favor, especifica una fecha válida.".

(** [today] is the date of [datetime.now(lima_tz)]. *)
Definition parse_relative_date (today : Date) (date_input day_reference : option pystr)
  : PyResult (option pystr * option pystr) :=
  if negb (truthy date_input) then Returned (None, Some msg_date_missing)
  else
    let date_input := strip (uni_lower (default [] date_input)) in
    if contains (py "mañana") date_input || contains (py "manana") date_input then
      match tomorrow_of today with
      | None => Raised (OtherException "OverflowError")
      | Some tomorrow =>
        match day_reference_mismatch day_reference (weekday tomorrow) with
        | Some dr => Returned (None, Some (msg_tomorrow_mismatch tomorrow dr))
        | None => Returned (Some (strftime_dmy tomorrow), None)
        end
      end
    else
      match strptime_dmy date_input with
      | Some parsed_date =>
        if date_ltb parsed_date today then Returned (None, Some msg_date_past)
        else
          match day_reference_mismatch day_reference (weekday parsed_date) with
          | Some dr => Returned (None, Some (msg_date_mismatch date_input parsed_date dr))
          | None => Returned (Some (strftime_dmy parsed_date), None)
          end
      | None => Returned (None, Some msg_date_format)
      end.

End Dates.

(** ** The two operations and their utterances *)

Inductive OpType := Rag | Appointment.

Inductive Stage := Initial | Processing | Patience.

#[export] Instance OpType_eq_dec : EqDecision OpType.
Proof. solve_decision. Defined.
#[export] Instance Stage_eq_dec : EqDecision Stage.
Proof. solve_decision. Defined.

Definition msg_default_answer : pystr := py "No encontré una respuesta clara a tu consulta.".

(** The utterance returned when the webhook URL is not configured. *)
Definition msg_config (op : OpType) : pystr :=
  match op with
  | Rag => py "Lo siento, hay un problema de configuración que me impide buscar la información."
  | Appointment => py "Lo siento, hay un problema de configuración que me impide agendar la cita."
  end.

(** The utterances of the [except] clauses around the awaited task. *)
Definition msg_superseded (op : OpType) : pystr :=
  match op with
  | Rag => py "He recibido tu nueva pregunta, déjame procesarla."
  | Appointment => py "He recibido una nueva solicitud, déjame procesarla."
  end.

Definition msg_timeout (op : OpType) : pystr :=
  match op with
  | Rag => py "La consulta está tardando más de lo esperado. ¿Podrías repetir tu pregunta o ser más específico?"
  | Appointment => py "El proceso de agendamiento está tomando más tiempo del esperado. ¿Podrías intentar de nuevo?"
  end.

Definition msg_http (op : OpType) : pystr :=
  match op with
  | Rag => py "No pude conectarme con el sistema de información en este momento. ¿Puedo ayudarte con algo más?"
  | Appointment => py "No pude conectar con el sistema de agendamiento. ¿Puedo ayudarte con algo más?"
  end.

Definition msg_unexpected (op : OpType) : pystr :=
  match op with
  | Rag => py "Ocurrió un error al procesar tu solicitud. ¿Podrías intentar reformular tu pregunta?"
  | Appointment => py "Ocurrió un error al agendar tu cita. ¿Podrías intentar de nuevo o especificar otra fecha?"
  end.

Definition msg_scheduled (name date time : pystr) : pystr :=
  py "¡Cita agendada exitosamente para " ++ name ++ py " el " ++ date ++ py " a las " ++ time
  ++ py "! Recibirás una confirmación pronto. ¿En qué más puedo ayudarte?".

Definition msg_not_scheduled (name : pystr) : pystr :=
  py "Lo siento, no se pudo agendar la cita para " ++ name
  ++ py ". ¿Podrías intentar con otra fecha u hora?".

Definition msg_missing_data (missing : list pystr) : pystr :=
  py "Por favor, proporciona los siguientes datos para agendar la cita: "
  ++ join (py ", ") missing ++ py ".".

Definition msg_confirmation (name date time : pystr) : pystr :=
  py "Entiendo, quieres una cita para " ++ name ++ py " el " ++ date ++ py " a las " ++ time
  ++ py ". ¿Es correcto?".

Definition appointment_query (name date time : pystr) : pystr :=
  py "Agendar cita para " ++ name ++ py " el " ++ date ++ py " a las " ++ time.

Definition msg_check_in : pystr := py "¿Hay algo más en lo que pueda ayudarte?".

(** The pools of [controlled_feedback]. *)
Definition feedback_pool (op : OpType) (st : Stage) : list pystr :=
  match op, st with
  | Rag, Initial =>
    [py "Consultando la información, un momento por favor...";
     py "Buscando los detalles para ti, espera un segundo...";
     py "Procesando tu consulta, dame un momento..."]
  | Rag, Processing =>
    [py "Un momento más, estoy procesando tu consulta...";
     py "Ya casi tengo la respuesta, espera un poco por favor...";
     py "Seguimos buscando la información, gracias por esperar..."]
  | Rag, Patience =>
    [py "Aún estoy buscando la información, gracias por tu paciencia...";
     py "La respuesta está en camino, te agradezco la espera...";
     py "Seguimos procesando, un poco más y te respondo..."]
  | Appointment, Initial =>
    [py "Procesando tu solicitud de cita, un momento por favor...";
     py "Agendando tu cita con el gerente comercial, espera un segundo...";
     py "Verificando la disponibilidad, dame un momento..."]
  | Appointment, Processing =>
    [py "Un momento más, estoy confirmando la cita...";
     py "Ya casi terminamos de agendar, gracias por esperar...";
     py "Procesando los detalles de tu cita, un segundo más..."]
  | Appointment, Patience =>
    [py "Aún estoy coordinando la cita, gracias por tu paciencia...";
     py "La cita está en proceso, te agradezco la espera...";
     py "Seguimos trabajando en tu solicitud, un poco más y listo..."]
  end.

(** [random.choice(pool)]: the random source supplies [pick]. *)
Definition random_choice (pick : nat) (pool : list pystr) : pystr :=
  nth (pick mod length pool) pool [].

(** ** The backend coroutines [perform_query] and [perform_scheduling] *)

#[warnings="-register-all"]
Inductive json :=
  | JNull
  | JBool (b : bool)
  | JNum (z : Z)
  | JStr (s : pystr)
  | JArr (l : list json)
  | JObj (m : gmap pystr json).

(** What [client.post] gives: a response with its status and its body
    ([None] when the body is not JSON), or one of the two failures the
    program tells apart. *)
Inductive HttpReply :=
  | HttpResponse (status : Z) (body : option json)
  | HttpTimeout
  | HttpFailure (name : string).

(** [current_participant_info] *)
Record CallerInfo := {
  participant_id : option pystr;
  phone_number : option pystr;
  session_id : option pystr
}.

Inductive Payload :=
  | RagPayload (question : pystr) (caller_info : CallerInfo)
  | AppointmentPayload (caller_info : CallerInfo) (name phone date time reason : pystr).

(** The coroutine a backend task runs, with the variables it closes
    over. *)
Inductive BackendCoro :=
  | PerformQuery
  | PerformScheduling (name phone date time : pystr) (reason : option pystr).

Definition coro_op (co : BackendCoro) : OpType :=
  match co with
  | PerformQuery => Rag
  | PerformScheduling _ _ _ _ _ => Appointment
  end.

(** The part of the coroutine before [client.post]: the result when it
    ends there, or the payload it posts. [url] is the environment
    variable, [current_query] the entry of [consultation_state]. *)
Definition backend_begin (co : BackendCoro) (url : option pystr)
    (current_query : option pystr) (info : CallerInfo) : PyResult pystr + Payload :=
  if negb (truthy url) then inl (Returned (msg_config (coro_op co)))
  else
    match co with
    | PerformQuery =>
      match current_query with
      | Some q => inr (RagPayload (strip q) info)
      | None => inl (Raised (OtherException "AttributeError"))
      end
    | PerformScheduling name phone date time reason =>
      inr (AppointmentPayload info (strip name) (strip phone) (strip date) (strip time)
             (if truthy reason then strip (default [] reason)
              else py "Cita con gerente comercial"))
    end.

(** [response.raise_for_status()] passes the 2xx codes. *)
Definition is_success (status : Z) : bool := ((200 <=? status) && (status <=? 299))%Z.

(** [answer.replace("**", "").replace("*", "").replace("📞", "").strip()] *)
Definition clean_answer (answer : pystr) : pystr :=
  strip (replace (replace (replace answer (py "**") []) (py "*") []) (py "📞") []).

(** The answer as the words of the specification have it: every
    asterisk and every telephone sign taken out. *)
Definition without_marks (answer : pystr) : pystr :=
  filter (fun c => c <> 128222%N) (filter (fun c => c <> 42%N) answer).

(** The end of [perform_query], on the parsed body. *)
Definition query_answer (data : json) : PyResult pystr :=
  match data with
  | JObj m =>
    match default (JStr msg_default_answer) (m !! py "answer") with
    | JStr answer => Returned (clean_answer answer)
    | _ => Raised (OtherException "AttributeError")
    end
  | _ => Raised (OtherException "AttributeError")
  end.

(** The end of [perform_scheduling], on the parsed body. *)
Definition scheduling_answer (name date time : pystr) (data : json) : PyResult pystr :=
  match data with
  | JObj m =>
    match m !! py "status" with
    | Some (JStr s) =>
      if pystr_eqb s (py "success") then Returned (msg_scheduled name date time)
      else Returned (msg_not_scheduled name)
    | _ => Returned (msg_not_scheduled name)
    end
  | _ => Raised (OtherException "AttributeError")
  end.

(** The part of the coroutine after [client.post]. *)
Definition backend_finish (co : BackendCoro) (reply : HttpReply) : PyResult pystr :=
  match reply with
  | HttpTimeout => Raised TimeoutException
  | HttpFailure name => Raised (OtherException name)
  | HttpResponse status body =>
    if negb (is_success status) then Raised (HTTPStatusError status)
    else
      match body with
      | None => Raised (OtherException "JSONDecodeError")
      | Some data =>
        match co with
        | PerformQuery => query_answer data
        | PerformScheduling name _ date time _ => scheduling_answer name date time data
        end
      end
  end.

(** ** The shared state *)

(** The dictionary [consultation_state]. The two task handles are indices
    into the pools of backend tasks and of feedback tasks. *)
Record CState := {
  is_active : bool;
  current_query : option pystr;
  operation_type : option OpType;
  start_time : option Time;
  task : option nat;
  feedback_task : option nat;
  feedback_sent : list Stage;
  last_completed : option Time
}.

(** The dictionary as the module creates it. *)
Definition idle_state (completed : option Time) : CState := {|
  is_active := false;
  current_query := None;
  operation_type := None;
  start_time := None;
  task := None;
  feedback_task := None;
  feedback_sent := [];
  last_completed := completed
|}.

(** A backend task: created, suspended in [client.post], or done. *)
Inductive BStatus :=
  | BCreated (co : BackendCoro)
  | BPosting (co : BackendCoro) (p : Payload)
  | BDone (r : PyResult pystr).

Definition backend_done (b : BStatus) : bool :=
  match b with BDone _ => true | _ => false end.

(** Where a feedback task ([controlled_feedback]) is suspended: not yet
    run, in the [asyncio.sleep] before a stage, in [say] of a stage. *)
Inductive TickerPc :=
  | TkCreated
  | TkSleep (st : Stage) (deadline : Time)
  | TkSay (st : Stage)
  | TkDone.
Arguments TkSleep st deadline%_Z.

(** [tk_cancel] records a [cancel()] the task has not yet received. *)
Record Ticker := {
  tk_op : OpType;
  tk_start : option Time;
  tk_pc : TickerPc;
  tk_cancel : bool
}.

Definition ticker_done (tk : Ticker) : bool :=
  match tk_pc tk with TkDone => true | _ => false end.

(** The arguments of a tool call once validated. *)
Inductive SubmitArgs :=
  | QueryArgs (question : pystr)
  | ScheduleArgs (name phone date time : pystr) (reason : option pystr).

Definition args_op (a : SubmitArgs) : OpType :=
  match a with
  | QueryArgs _ => Rag
  | ScheduleArgs _ _ _ _ _ => Appointment
  end.

Definition args_query (a : SubmitArgs) : pystr :=
  match a with
  | QueryArgs question => question
  | ScheduleArgs name _ date time _ => appointment_query name date time
  end.

Definition args_coro (a : SubmitArgs) : BackendCoro :=
  match a with
  | QueryArgs _ => PerformQuery
  | ScheduleArgs name phone date time reason => PerformScheduling name phone date time reason
  end.

(** Where a call of [query_knowledge_base] or [schedule_appointment] is:
    in [say] of the confirmation, awaiting the task of the operation it
    found active, awaiting the task it created, in [finally] awaiting the
    feedback task it cancelled (with the value it is about to return), or
    finished. *)
Inductive CStatus :=
  | CConfirming (a : SubmitArgs)
  | CJoined (a : SubmitArgs) (t : nat)
  | CAwaiting (a : SubmitArgs) (t : nat)
  | CCleaning (f : nat) (ret : pystr)
  | CFinished (r : PyResult pystr).

(** The state of [FixedConversationManager]. *)
Inductive MonitorPc :=
  | MonCreated
  | MonSleeping (deadline : Time)
  | MonSaying (current_time : Time)
  | MonStopped.
Arguments MonSleeping deadline%_Z.
Arguments MonSaying current_time%_Z.

Record Monitor := {
  last_user_activity : Time;
  last_agent_response : option Time;
  silence_warnings : Z;
  max_silence_warnings : Z;
  mon_is_active : bool;
  mon_pc : MonitorPc
}.

(** What the speech sink was asked to say, and by whom. *)
Inductive Speaker :=
  | ByTicker (f : nat) (st : Stage)
  | ByMonitor
  | ByTool (c : nat).

Record Utterance := { u_time : Time; u_by : Speaker; u_text : pystr }.

Record World := {
  now : Time;
  session : bool;
  participant : CallerInfo;
  cs : CState;
  backends : list BStatus;
  tickers : list Ticker;
  callers : list CStatus;
  mon : Monitor;
  spoken : list Utterance;
  posts : list (nat * Payload)
}.

Definition with_now (t : Time) (w : World) : World :=
  {| now := t; session := session w; participant := participant w; cs := cs w;
     backends := backends w; tickers := tickers w; callers := callers w; mon := mon w;
     spoken := spoken w; posts := posts w |}.

Definition with_cs (s : CState) (w : World) : World :=
  {| now := now w; session := session w; participant := participant w; cs := s;
     backends := backends w; tickers := tickers w; callers := callers w; mon := mon w;
     spoken := spoken w; posts := posts w |}.

Definition with_backends (l : list BStatus) (w : World) : World :=
  {| now := now w; session := session w; participant := participant w; cs := cs w;
     backends := l; tickers := tickers w; callers := callers w; mon := mon w;
     spoken := spoken w; posts := posts w |}.

Definition with_tickers (l : list Ticker) (w : World) : World :=
  {| now := now w; session := session w; participant := participant w; cs := cs w;
     backends := backends w; tickers := l; callers := callers w; mon := mon w;
     spoken := spoken w; posts := posts w |}.

Definition with_callers (l : list CStatus) (w : World) : World :=
  {| now := now w; session := session w; participant := participant w; cs := cs w;
     backends := backends w; tickers := tickers w; callers := l; mon := mon w;
     spoken := spoken w; posts := posts w |}.

Definition with_mon (m : Monitor) (w : World) : World :=
  {| now := now w; session := session w; participant := participant w; cs := cs w;
     backends := backends w; tickers := tickers w; callers := callers w; mon := m;
     spoken := spoken w; posts := posts w |}.

(** [active_session.say(text)] is called. *)
Definition say (by_ : Speaker) (text : pystr) (w : World) : World :=
  {| now := now w; session := session w; participant := participant w; cs := cs w;
     backends := backends w; tickers := tickers w; callers := callers w; mon := mon w;
     spoken := spoken w ++ [{| u_time := now w; u_by := by_; u_text := text |}];
     posts := posts w |}.

(** [client.post(url, json=p)] is called by the backend task [b]. *)
Definition post (b : nat) (p : Payload) (w : World) : World :=
  {| now := now w; session := session w; participant := participant w; cs := cs w;
     backends := backends w; tickers := tickers w; callers := callers w; mon := mon w;
     spoken := spoken w; posts := posts w ++ [(b, p)] |}.

Definition set_caller (c : nat) (st : CStatus) (w : World) : World :=
  with_callers (<[c := st]> (callers w)) w.

Definition set_ticker (f : nat) (tk : Ticker) (w : World) : World :=
  with_tickers (<[f := tk]> (tickers w)) w.

Definition set_backend (b : nat) (st : BStatus) (w : World) : World :=
  with_backends (<[b := st]> (backends w)) w.

(** ** The feedback task [controlled_feedback] *)

Inductive TickerAct :=
  | ActSleep (st : Stage) (d : Time)
  | ActSay (st : Stage) (msg : pystr)
  | ActExit.
Arguments ActSleep st d%_Z.

(** What comes after the stage [st], spoken or skipped: the sleep before
    the next stage; after the second stage and after every patience
    stage, the test of [while consultation_state["is_active"]]. *)
Definition after_stage (active : bool) (st : Stage) : TickerAct :=
  match st with
  | Initial => ActSleep Processing 6000%Z
  | Processing | Patience => if active then ActSleep Patience 8000%Z else ActExit
  end.

(** The sleep before the stage [st] has elapsed. The patience stage
    computes [current_time - consultation_start] before it speaks, a
    [TypeError] that ends the task when the start time was [None]. *)
Definition stage_due (active sess : bool) (op : OpType) (start : option Time)
    (pick : nat) (st : Stage) : TickerAct :=
  if active && sess then
    match st, start with
    | Patience, None => ActExit
    | _, _ => ActSay st (random_choice pick (feedback_pool op st))
    end
  else after_stage active st.

Definition ticker_act (f : nat) (tk : Ticker) (act : TickerAct) (w : World) : World :=
  match act with
  | ActSleep st d =>
    set_ticker f {| tk_op := tk_op tk; tk_start := tk_start tk;
                    tk_pc := TkSleep st (now w + d)%Z; tk_cancel := false |} w
  | ActSay st msg =>
    say (ByTicker f st) msg
      (set_ticker f {| tk_op := tk_op tk; tk_start := tk_start tk;
                       tk_pc := TkSay st; tk_cancel := false |} w)
  | ActExit =>
    set_ticker f {| tk_op := tk_op tk; tk_start := tk_start tk;
                    tk_pc := TkDone; tk_cancel := false |} w
  end.

Definition append_feedback_sent (st : Stage) (s : CState) : CState :=
  {| is_active := is_active s; current_query := current_query s;
     operation_type := operation_type s; start_time := start_time s; task := task s;
     feedback_task := feedback_task s; feedback_sent := feedback_sent s ++ [st];
     last_completed := last_completed s |}.

(** The feedback task [f] resumes: its sleep has elapsed or its [say]
    has ended ([say_ok] tells whether [say] returned or raised); [pick]
    is the draw of [random.choice]. A task that was sent [cancel()]
    receives [CancelledError] instead and ends. *)
Definition ticker_resume (f : nat) (say_ok : bool) (pick : nat) (w : World) : option World :=
  tk ← tickers w !! f;
  match tk_pc tk with
  | TkDone => None
  | pc =>
    if tk_cancel tk then Some (ticker_act f tk ActExit w)
    else
      match pc with
      | TkCreated =>
        Some (ticker_act f {| tk_op := tk_op tk; tk_start := start_time (cs w);
                              tk_pc := TkCreated; tk_cancel := false |}
                (ActSleep Initial 3000%Z) w)
      | TkSleep st deadline =>
        if (now w <? deadline)%Z then None
        else Some (ticker_act f tk
                     (stage_due (is_active (cs w)) (session w) (tk_op tk) (tk_start tk) pick st) w)
      | TkSay st =>
        if say_ok then
          let w1 := with_cs (append_feedback_sent st (cs w)) w in
          Some (ticker_act f tk (after_stage (is_active (cs w)) st) w1)
        else Some (ticker_act f tk ActExit w)
      | TkDone => None
      end
  end.

(** [task.cancel()] on a feedback task. *)
Definition cancel_ticker (f : nat) (w : World) : World :=
  match tickers w !! f with
  | Some tk =>
    if ticker_done tk then w
    else set_ticker f {| tk_op := tk_op tk; tk_start := tk_start tk; tk_pc := tk_pc tk;
                         tk_cancel := true |} w
  | None => w
  end.

(** [consultation_state["feedback_task"] and not
    consultation_state["feedback_task"].done()]: the handle, when so. *)
Definition running_feedback (w : World) : option nat :=
  match feedback_task (cs w) with
  | Some f =>
    match tickers w !! f with
    | Some tk => if ticker_done tk then None else Some f
    | None => None
    end
  | None => None
  end.

(** ** The tools [query_knowledge_base] and [schedule_appointment] *)

(** From [consultation_state.update({"is_active": True, ...})] to the
    [await] of the task just created: no suspension in between. *)
Definition start_operation (a : SubmitArgs) (w : World) : World * CStatus :=
  let f := length (tickers w) in
  let b := length (backends w) in
  (with_backends (backends w ++ [BCreated (args_coro a)])
     (with_tickers (tickers w ++ [{| tk_op := args_op a; tk_start := None;
                                     tk_pc := TkCreated; tk_cancel := false |}])
        (with_cs {| is_active := true;
                    current_query := Some (args_query a);
                    operation_type := Some (args_op a);
                    start_time := Some (now w);
                    task := Some b;
                    feedback_task := Some f;
                    feedback_sent := [];
                    last_completed := last_completed (cs w) |} w)),
   CAwaiting a b).

(** [result = await consultation_state["task"]; return result] inside
    [try ... except asyncio.CancelledError], once the task is done: a
    value is returned, a cancellation falls through to a new operation,
    any other exception leaves the tool. *)
Definition join_outcome (a : SubmitArgs) (r : PyResult pystr) (w : World) : World * CStatus :=
  match r with
  | Returned v => (w, CFinished (Returned v))
  | Raised CancelledError => start_operation a w
  | Raised e => (w, CFinished (Raised e))
  end.

Definition supersede (a : SubmitArgs) (s : CState) : CState :=
  {| is_active := is_active s; current_query := Some (args_query a);
     operation_type := Some (args_op a); start_time := start_time s; task := task s;
     feedback_task := feedback_task s; feedback_sent := feedback_sent s;
     last_completed := last_completed s |}.

(** The tool from [if consultation_state["is_active"]:] to its first
    suspension or its return. *)
Definition enter_operation (a : SubmitArgs) (w : World) : option (World * CStatus) :=
  if is_active (cs w) then
    let w1 := match running_feedback w with
              | Some f => cancel_ticker f w
              | None => w
              end in
    let w2 := with_cs (supersede a (cs w1)) w1 in
    match task (cs w2) with
    | Some t =>
      st ← backends w2 !! t;
      match st with
      | BDone r => Some (join_outcome a r w2)
      | _ => Some (w2, CJoined a t)
      end
    | None => Some (start_operation a w2)
    end
  else Some (start_operation a w).

(** The value the tool returns for the outcome [r] of the task it
    created. [started] tells whether [start_time] is still set when the
    elapsed time is computed after a value came back: the subtraction
    from [None] is a [TypeError], caught as any other exception. *)
Definition outcome_utterance (op : OpType) (started : bool) (r : PyResult pystr) : pystr :=
  match r with
  | Returned v => if started then v else msg_unexpected op
  | Raised CancelledError => msg_superseded op
  | Raised TimeoutException => msg_timeout op
  | Raised (HTTPStatusError _) => msg_http op
  | Raised (OtherException _) => msg_unexpected op
  end.

(** The end of [finally]. *)
Definition finish_teardown (ret : pystr) (w : World) : World * CStatus :=
  (with_cs (idle_state (Some (now w))) w, CFinished (Returned ret)).

(** The [finally] block up to its suspension or its end. *)
Definition teardown (ret : pystr) (w : World) : World * CStatus :=
  match running_feedback w with
  | Some f => (cancel_ticker f w, CCleaning f ret)
  | None => finish_teardown ret w
  end.

Definition is_some_time (o : option Time) : bool :=
  match o with Some _ => true | None => false end.

(** The call [c] resumes: the task it awaits is done. *)
Definition caller_resume (c : nat) (w : World) : option World :=
  st ← callers w !! c;
  match st with
  | CJoined a t =>
    bst ← backends w !! t;
    match bst with
    | BDone r => let '(w', st') := join_outcome a r w in Some (set_caller c st' w')
    | _ => None
    end
  | CAwaiting a t =>
    bst ← backends w !! t;
    match bst with
    | BDone r =>
      let ret := outcome_utterance (args_op a) (is_some_time (start_time (cs w))) r in
      let '(w', st') := teardown ret w in
      Some (set_caller c st' w')
    | _ => None
    end
  | CCleaning f ret =>
    tk ← tickers w !! f;
    if ticker_done tk
    then let '(w', st') := finish_teardown ret w in Some (set_caller c st' w')
    else None
  | CConfirming _ | CFinished _ => None
  end.

Definition new_call (st : CStatus) (w : World) : World :=
  with_callers (callers w ++ [st]) w.

(** A call of [query_knowledge_base(question)]. *)
Definition query_knowledge_base (question : pystr) (w : World) : option World :=
  '(w', st) ← enter_operation (QueryArgs question) w;
  Some (new_call st w').

(** The [say] of the confirmation of the call [c] has ended. *)
Definition confirmed (c : nat) (say_ok : bool) (w : World) : option World :=
  st ← callers w !! c;
  match st with
  | CConfirming a =>
    if say_ok then
      '(w', st') ← enter_operation a w;
      Some (set_caller c st' w')
    else Some (set_caller c (CFinished (Raised (OtherException "RuntimeError"))) w)
  | _ => None
  end.

(** The backend task [b] runs for the first time. *)
Definition backend_run (b : nat) (url : option pystr) (w : World) : option World :=
  st ← backends w !! b;
  match st with
  | BCreated co =>
    match backend_begin co url (current_query (cs w)) (participant w) with
    | inl r => Some (set_backend b (BDone r) w)
    | inr p => Some (post b p (set_backend b (BPosting co p) w))
    end
  | _ => None
  end.

(** [client.post] of the backend task [b] ends with [reply]. *)
Definition backend_reply (b : nat) (reply : HttpReply) (w : World) : option World :=
  st ← backends w !! b;
  match st with
  | BPosting co _ => Some (set_backend b (BDone (backend_finish co reply)) w)
  | _ => None
  end.

(** The backend task [b] is cancelled from outside the program. *)
Definition backend_cancel (b : nat) (w : World) : option World :=
  st ← backends w !! b;
  if backend_done st then None
  else Some (set_backend b (BDone (Raised CancelledError)) w).

(** ** The idle-silence monitor [_fixed_silence_monitor] *)

Definition set_monitor_pc (pc : MonitorPc) (m : Monitor) : Monitor :=
  {| last_user_activity := last_user_activity m;
     last_agent_response := last_agent_response m;
     silence_warnings := silence_warnings m;
     max_silence_warnings := max_silence_warnings m;
     mon_is_active := mon_is_active m;
     mon_pc := pc |}.

(** [update_user_activity] *)
Definition update_user_activity (t : Time) (m : Monitor) : Monitor :=
  {| last_user_activity := t;
     last_agent_response := last_agent_response m;
     silence_warnings := 0;
     max_silence_warnings := max_silence_warnings m;
     mon_is_active := mon_is_active m;
     mon_pc := mon_pc m |}.

(** [mark_agent_response] *)
Definition mark_agent_response (t : Time) (m : Monitor) : Monitor :=
  {| last_user_activity := last_user_activity m;
     last_agent_response := Some t;
     silence_warnings := silence_warnings m;
     max_silence_warnings := max_silence_warnings m;
     mon_is_active := mon_is_active m;
     mon_pc := mon_pc m |}.

Definition set_last_user_activity (t : Time) (m : Monitor) : Monitor :=
  {| last_user_activity := t;
     last_agent_response := last_agent_response m;
     silence_warnings := silence_warnings m;
     max_silence_warnings := max_silence_warnings m;
     mon_is_active := mon_is_active m;
     mon_pc := mon_pc m |}.

Definition set_silence_warnings (n : Z) (m : Monitor) : Monitor :=
  {| last_user_activity := last_user_activity m;
     last_agent_response := last_agent_response m;
     silence_warnings := n;
     max_silence_warnings := max_silence_warnings m;
     mon_is_active := mon_is_active m;
     mon_pc := mon_pc m |}.

(** [stop_monitoring] *)
Definition stop_monitoring (m : Monitor) : Monitor :=
  {| last_user_activity := last_user_activity m;
     last_agent_response := last_agent_response m;
     silence_warnings := silence_warnings m;
     max_silence_warnings := max_silence_warnings m;
     mon_is_active := false;
     mon_pc := MonStopped |}.

(** Truth value of an optional time: [None] and [0.0] are false. *)
Definition time_truthy (o : option Time) : bool :=
  match o with
  | Some t => negb (t =? 0)%Z
  | None => false
  end.

(** The head of the loop: [while self.is_active: await asyncio.sleep(30)]. *)
Definition monitor_loop (m : Monitor) (w : World) : World :=
  if mon_is_active m
  then with_mon (set_monitor_pc (MonSleeping (now w + 30000)%Z) m) w
  else with_mon (set_monitor_pc MonStopped m) w.

(** What one poll decides. *)
Inductive PollAct := PollSkip | PollCheckIn | PollPassive | PollNothing.

Definition poll_decision (current_time : Time) (s : CState) (m : Monitor) : PollAct :=
  let silence_duration := (current_time - last_user_activity m)%Z in
  if is_active s then PollSkip
  else if time_truthy (last_completed s)
          && (current_time - default 0 (last_completed s) <? 45000)%Z then PollSkip
  else if (60000 <=? silence_duration)%Z && (silence_warnings m <? max_silence_warnings m)%Z
  then PollCheckIn
  else if (300000 <=? silence_duration)%Z then PollPassive
  else PollNothing.

(** The monitor resumes: its sleep has elapsed or its [say] has ended. *)
Definition monitor_resume (say_ok : bool) (w : World) : option World :=
  let m := mon w in
  match mon_pc m with
  | MonCreated => Some (monitor_loop m w)
  | MonSleeping deadline =>
    if (now w <? deadline)%Z then None
    else if negb (mon_is_active m) then Some (with_mon (set_monitor_pc MonStopped m) w)
    else
      let current_time := now w in
      match poll_decision current_time (cs w) m with
      | PollSkip | PollNothing => Some (monitor_loop m w)
      | PollCheckIn =>
        let m1 := set_silence_warnings (silence_warnings m + 1) m in
        Some (say ByMonitor msg_check_in
                (with_mon (set_monitor_pc (MonSaying current_time) m1) w))
      | PollPassive =>
        let m1 := set_last_user_activity current_time (set_silence_warnings 0 m) in
        Some (monitor_loop m1 w)
      end
  | MonSaying current_time =>
    let m1 := if say_ok then mark_agent_response (now w) m else m in
    let m2 := set_last_user_activity current_time m1 in
    Some (monitor_loop m2 w)
  | MonStopped => None
  end.

(** ** The system *)

(** What can happen: the clock advances, the dialogue layer calls a
    tool, a suspended coroutine resumes, the collaborators answer. *)
Inductive Event :=
  | EvAdvance (dt : Time)
  | EvQuery (question : pystr)
  | EvSchedule (today : Date) (name phone date day_reference time reason : option pystr)
  | EvConfirmed (c : nat) (say_ok : bool)
  | EvCaller (c : nat)
  | EvBackendRun (b : nat) (url : option pystr)
  | EvBackendReply (b : nat) (reply : HttpReply)
  | EvBackendCancel (b : nat)
  | EvTicker (f : nat) (say_ok : bool) (pick : nat)
  | EvMonitor (say_ok : bool)
  | EvUserActivity
  | EvAgentResponse
  | EvStopMonitoring.

Arguments EvAdvance dt%_Z.

Section Coordinator.
Context {U : PyUnicode}.

(** A call of [schedule_appointment], up to the [say] of the
    confirmation. *)
Definition schedule_appointment (today : Date)
    (name phone date day_reference time reason : option pystr) (w : World) : World :=
  let '(normalized_phone, phone_error) := normalize_phone phone in
  if truthy phone_error then new_call (CFinished (Returned (default [] phone_error))) w
  else
    match parse_relative_date today date day_reference with
    | Raised e => new_call (CFinished (Raised e)) w
    | Returned (formatted_date, date_error) =>
      if truthy date_error then new_call (CFinished (Returned (default [] date_error))) w
      else
        let missing_data :=
          (if negb (truthy name) then [py "nombre completo"] else [])
          ++ (if negb (truthy normalized_phone) then [py "número de celular"] else [])
          ++ (if negb (truthy formatted_date) then [py "fecha"] else [])
          ++ (if negb (truthy time) then [py "hora"] else []) in
        match missing_data with
        | _ :: _ => new_call (CFinished (Returned (msg_missing_data missing_data))) w
        | [] =>
          let a := ScheduleArgs (default [] name) (default [] normalized_phone)
                     (default [] formatted_date) (default [] time) reason in
          if session w then
            new_call (CConfirming a)
              (say (ByTool (length (callers w)))
                 (msg_confirmation (default [] name) (default [] formatted_date)
                    (default [] time)) w)
          else new_call (CFinished (Raised (OtherException "AttributeError"))) w
        end
    end.

Definition step (w : World) (ev : Event) : option World :=
  match ev with
  | EvAdvance dt => if (0 <=? dt)%Z then Some (with_now (now w + dt)%Z w) else None
  | EvQuery question => query_knowledge_base question w
  | EvSchedule today name phone date day_reference time reason =>
    Some (schedule_appointment today name phone date day_reference time reason w)
  | EvConfirmed c say_ok => confirmed c say_ok w
  | EvCaller c => caller_resume c w
  | EvBackendRun b url => backend_run b url w
  | EvBackendReply b reply => backend_reply b reply w
  | EvBackendCancel b => backend_cancel b w
  | EvTicker f say_ok pick => ticker_resume f say_ok pick w
  | EvMonitor say_ok => monitor_resume say_ok w
  | EvUserActivity => Some (with_mon (update_user_activity (now w) (mon w)) w)
  | EvAgentResponse => Some (with_mon (mark_agent_response (now w) (mon w)) w)
  | EvStopMonitoring => Some (with_mon (stop_monitoring (mon w)) w)
  end.

Fixpoint run (w : World) (evs : list Event) : option World :=
  match evs with
  | [] => Some w
  | ev :: evs' => w' ← step w ev; run w' evs'
  end.

End Coordinator.

(** A participant about whom nothing is known. *)
Definition anonymous : CallerInfo :=
  {| participant_id := None; phone_number := None; session_id := None |}.

(** The state when the conversation manager is created at time [t0]. *)
Definition initial_world (t0 : Time) (sess : bool) (info : CallerInfo) : World := {|
  now := t0;
  session := sess;
  participant := info;
  cs := idle_state None;
  backends := [];
  tickers := [];
  callers := [];
  mon := {| last_user_activity := t0; last_agent_response := None;
            silence_warnings := 0; max_silence_warnings := 1;
            mon_is_active := true; mon_pc := MonCreated |};
  spoken := [];
  posts := []
|}.
Arguments initial_world t0%_Z sess info.

(** ** The feedback task on the clock *)

(** The feedback task [f] running with nothing else happening, each
    timer firing exactly when it is due: a sleep ends at its deadline,
    the [n]-th [say] takes [dur n], the [n]-th draw is [pick n]. When
    [until] is a time, [cancel()] is sent at that time, after the
    resumptions that are due by then: the call that started the
    operation resumes, and reaches its [finally], in a later turn of
    the event loop than the timers of that time. The run stops there,
    before a resumption that is due later. *)
Fixpoint ticker_alone (fuel : nat) (dur : nat -> Time) (pick : nat -> nat)
    (until : option Time) (f : nat) (n : nat) (w : World) : World :=
  match fuel with
  | O => w
  | S fuel' =>
    match tickers w !! f with
    | None => w
    | Some tk =>
      let due :=
        match tk_pc tk with
        | TkCreated => Some (now w, n)
        | TkSleep _ deadline => Some (Z.max (now w) deadline, n)
        | TkSay _ => Some ((now w + dur n)%Z, S n)
        | TkDone => None
        end in
      match due with
      | None => w
      | Some (t, n') =>
        if match until with Some u => (u <? t)%Z | None => false end
        then with_now (default t until) w
        else
          match ticker_resume f true (pick n) (with_now t w) with
          | Some w' => ticker_alone fuel' dur pick until f n' w'
          | None => w
          end
      end
    end
  end.

(** What the feedback task [f] was heard to say: time and stage. *)
Definition heard_from (f : nat) (w : World) : list (Time * Stage) :=
  omap (fun u => match u_by u with
                 | ByTicker f' st => if bool_decide (f' = f) then Some (u_time u, st) else None
                 | _ => None
                 end) (spoken w).

(** The times the schedule gives the patience stages: 8 seconds after
    the end of the previous [say], which was the [n]-th and ended at [t]. *)
Fixpoint patience_times (k : nat) (dur : nat -> Time) (n : nat) (t : Time) : list Time :=
  match k with
  | O => []
  | S k' => (t + 8000)%Z :: patience_times k' dur (S n) (t + 8000 + dur n)%Z
  end.
Arguments patience_times k dur n t%_Z.

(** ** Observations *)

#[export] Instance Speaker_eq_dec : EqDecision Speaker.
Proof. solve_decision. Defined.

(** How many check-in utterances the monitor has spoken. *)
Definition check_ins (w : World) : nat :=
  length (filter (fun u => u_by u = ByMonitor) (spoken w)).

(** After a check-in spoken at time [t1], the monitor is either still
    in that [say], or stopped, or its last user activity is not before
    [t1]. *)
Definition rearmed (t1 : Time) (w : World) : Prop :=
  (t1 <= now w)%Z
  /\ match mon_pc (mon w) with
     | MonSaying ct => (t1 <= ct)%Z
     | MonStopped => True
     | _ => (t1 <= last_user_activity (mon w))%Z
     end.

(** What holds of the monitor in every state a session reaches when its
    clock starts at a time that is not negative. *)
Definition monitor_sane (w : World) : Prop :=
  (0 <= now w)%Z
  /\ (0 <= last_user_activity (mon w))%Z
  /\ max_silence_warnings (mon w) = 1%Z
  /\ (0 <= silence_warnings (mon w))%Z
  /\ (forall ct, mon_pc (mon w) = MonSaying ct -> 0 <= ct)%Z.

Section Observations.
Context {U : PyUnicode}.

(** Along the run [evs] from [w] no transition lowers the counter of
    warnings of the monitor. *)
Definition warnings_kept (w : World) (evs : list Event) : Prop :=
  forall evs1 ev evs2 wa wb,
    evs = evs1 ++ ev :: evs2 ->
    run w evs1 = Some wa ->
    step wa ev = Some wb ->
    (silence_warnings (mon wa) <= silence_warnings (mon wb))%Z.

End Observations.

(** ** Scenarios *)

Definition webhook_url : option pystr := Some (py "https://n8n.example/webhook/rag").

(** A first question, whose feedback task and backend task have started,
    and one second later a second question. *)
Definition overlapping_questions : list Event :=
  [EvQuery (py "precio"); EvTicker 0 true 0; EvBackendRun 0 webhook_url;
   EvAdvance 1000; EvQuery (py "horario")].

(** The same, and the backend call then times out: the feedback task
    receives the cancellation the second call sent, the call that
    started the operation resumes, then the call that joined it. *)
Definition overlapping_timeout : list Event :=
  overlapping_questions
  ++ [EvTicker 0 true 0; EvAdvance 15000; EvBackendReply 0 HttpTimeout;
      EvCaller 0; EvCaller 1].

(** The same, but the backend task is cancelled, and the task the second
    call then creates runs. *)
Definition overlapping_cancelled : list Event :=
  overlapping_questions
  ++ [EvTicker 0 true 0; EvBackendCancel 0; EvCaller 0; EvCaller 1;
      EvBackendRun 1 webhook_url].

(** A first question whose backend task is cancelled just before a
    second question arrives. *)
Definition question_after_cancellation : list Event :=
  [EvQuery (py "precio"); EvTicker 0 true 0; EvBackendRun 0 webhook_url;
   EvAdvance 1000; EvBackendCancel 0; EvQuery (py "horario")].

(** An appointment for tomorrow whose backend call times out after 15
    seconds. *)
Definition appointment_timeout : list Event :=
  [EvSchedule (mkDate 2025 8 5) (Some (py "Ana Torres")) (Some (py "987654321"))
     (Some (py "mañana")) None (Some (py "10:00")) None;
   EvConfirmed 0 true; EvTicker 0 true 0; EvBackendRun 0 webhook_url;
   EvAdvance 15000; EvBackendReply 0 HttpTimeout].

(** The state a run from the start of a session ends in; the initial
    state when the run is not possible. *)
Definition state_after (evs : list Event) : World :=
  default (initial_world 0 true anonymous)
    (@run ascii_unicode (initial_world 0 true anonymous) evs).

(** ** Properties of states and runs *)

(** The feedback task [f] has ended. *)
Definition ticker_ended (f : nat) (w : World) : Prop :=
  exists tk, tickers w !! f = Some tk /\ ticker_done tk = true.

(** The feedback task [f] was sent [cancel()] and has not yet run
    again. *)
Definition ticker_cancelling (f : nat) (w : World) : Prop :=
  exists tk, tickers w !! f = Some tk /\ ticker_done tk = false /\ tk_cancel tk = true.

(** The feedback task [f] is alive: created and not ended. *)
Definition ticker_alive (f : nat) (w : World) : Prop :=
  exists tk, tickers w !! f = Some tk /\ ticker_done tk = false.

(** The backend task [b] is outstanding: created and not done. *)
Definition outstanding (b : nat) (w : World) : Prop :=
  exists st, backends w !! b = Some st /\ backend_done st = false.

(** The call is the one that created the operation and has not yet
    returned. *)
Definition owns_operation (st : CStatus) : Prop :=
  match st with
  | CAwaiting _ _ | CCleaning _ _ => True
  | _ => False
  end.

(** No backend task is cancelled from outside in the run. *)
Definition no_cancellation (evs : list Event) : Prop :=
  Forall (fun ev => forall b, ev <> EvBackendCancel b) evs.

(** What holds in every state of a run without cancellation: a task that
    is not done is the task of the active operation, and so is the task
    the creator of the operation awaits; a creator in its [finally] has
    a task that is done; there is one creator at most; no task ended
    cancelled; an active operation has a task. *)
Definition single_flight (w : World) : Prop :=
  (forall b, outstanding b w -> is_active (cs w) = true /\ task (cs w) = Some b)
  /\ (forall c a t, callers w !! c = Some (CAwaiting a t) ->
        is_active (cs w) = true /\ task (cs w) = Some t)
  /\ (forall c f ret, callers w !! c = Some (CCleaning f ret) ->
        is_active (cs w) = true
        /\ exists t r, task (cs w) = Some t /\ backends w !! t = Some (BDone r))
  /\ (forall c1 c2 st1 st2, callers w !! c1 = Some st1 -> callers w !! c2 = Some st2 ->
        owns_operation st1 -> owns_operation st2 -> c1 = c2)
  /\ (forall b, backends w !! b <> Some (BDone (Raised CancelledError)))
  /\ (is_active (cs w) = true ->
      exists t st, task (cs w) = Some t /\ backends w !! t = Some st).

(** The feedback task [f], of the operation [op], is suspended at [pc]
    with no cancellation pending; [start] is the start time it read. *)
Definition ticker_at (f : nat) (pc : TickerPc) (start : option Time) (op : OpType)
    (w : World) : Prop :=
  exists tk, tickers w !! f = Some tk /\ tk_pc tk = pc /\ tk_cancel tk = false
    /\ tk_start tk = start /\ tk_op tk = op.

(** An operation is active and there is a session to speak to. *)
Definition can_speak (w : World) : Prop :=
  is_active (cs w) = true /\ session w = true.

(** The time [t] is not after the cancellation, if there is one. *)
Definition before_cancel (until : option Time) (t : Time) : Prop :=
  match until with
  | Some u => (t <= u)%Z
  | None => True
  end.

(** The stage after [st] and the sleep before it. *)
Definition next_stage (st : Stage) : Stage :=
  match st with
  | Initial => Processing
  | Processing | Patience => Patience
  end.

Definition next_sleep (st : Stage) : Time :=
  match st with
  | Initial => 6000%Z
  | Processing | Patience => 8000%Z
  end.

(** The first question of the scenarios, just asked. *)
Definition question_asked : World :=
  default (initial_world 0 true anonymous)
    (query_knowledge_base (py "precio") (initial_world 0 true anonymous)).

(** A question whose backend call resolves 10 seconds after it was
    asked, while the initial utterance of the feedback task takes 2
    seconds to say. *)
Definition slow_speech : list Event :=
  [EvQuery (py "precio"); EvTicker 0 true 0; EvBackendRun 0 webhook_url;
   EvAdvance 3000; EvTicker 0 true 0; EvAdvance 2000; EvTicker 0 true 0;
   EvAdvance 5000;
   EvBackendReply 0 (HttpResponse 200 (Some (JObj {[ py "answer" := JStr (py "Cien soles") ]})));
   EvCaller 0; EvTicker 0 true 0; EvCaller 0].




(** ** The caller's identity: [extract_phone_from_identity] *)

(** [s.split(sep)] for a separator that is not empty: the occurrences of
    [sep] are taken from left to right and do not overlap; [cur] holds
    the piece being read, last code point first, and [skip] counts the
    code points of an occurrence that are still to be dropped. *)
Fixpoint split_from (sep : pystr) (skip : nat) (cur : pystr) (s : pystr) : list pystr :=
  match s with
  | [] => [rev cur]
  | c :: r =>
    match skip with
    | S k => split_from sep k cur r
    | O =>
      if startswith s sep
      then rev cur :: split_from sep (length sep - 1) [] r
      else split_from sep 0 (c :: cur) r
    end
  end.

Definition split (s sep : pystr) : list pystr := split_from sep 0 [] s.

(** [phone if phone.startswith('+') else '+51' + phone] *)
Definition with_country_code (phone : pystr) : pystr :=
  if startswith phone (py "+") then phone else py "+51" ++ phone.

(** An index out of range in [split(...)[1]] would raise inside the
    [try], whose handler returns the stripped identity. *)
Definition extract_phone_from_identity (identity : option pystr) : option pystr :=
  if negb (truthy identity) then None
  else
    let identity := strip (default [] identity) in
    if startswith identity (py "sip_") then
      Some (with_country_code (replace identity (py "sip_") []))
    else if contains (py "sip:") identity then
      match split identity (py "sip:") !! 1%nat with
      | Some after =>
        match split after (py "@") !! 0%nat with
        | Some parts => Some (with_country_code parts)
        | None => Some identity
        end
      | None => Some identity
      end
    else Some identity.

(** Strings of ASCII decimal digits. *)
Definition ascii_digits (ds : pystr) : Prop := Forall (fun c => (48 <= c <= 57)%N) ds.

(** ** The small tools *)

Definition greetings : list pystr :=
  [py "hola"; py "hello"; py "buenas"; py "buenos dias"; py "buenas tardes";
   py "buenas noches"].

Definition checks : list pystr :=
  [py "¿hola?"; py "hola?"; py "estás ahí"; py "estas ahi"; py "me escuchas";
   py "sí, es ahí"; py "si, es ahi"].

Definition msg_hello : pystr :=
  py "¡Hola! Soy Mia de Multiservicioscall. ¿En qué puedo ayudarte?".
Definition msg_listening : pystr :=
  py "Sí, estoy aquí y te escucho perfectamente. ¿Cómo puedo asistirte?".
Definition msg_repeat : pystr :=
  py "Te escucho. ¿Podrías repetir tu consulta para ayudarte mejor?".

(** [any(x in s for x in l)] *)
Definition any_in (l : list pystr) (s : pystr) : bool :=
  existsb (fun x => contains x s) l.

Definition handle_user_greeting_or_check {U : PyUnicode} (user_message : pystr) : pystr :=
  let message_lower := strip (uni_lower user_message) in
  if any_in greetings message_lower then msg_hello
  else if any_in checks message_lower then msg_listening
  else msg_repeat.

Definition msg_impatience_idle : pystr :=
  py "¿En qué puedo ayudarte? Estoy aquí para resolver tus dudas sobre Multiservicioscall.".

(** The replies of [handle_user_impatience] while an operation is
    active; the test [operation_type == "appointment"] sends every other
    value, [None] too, to the replies of a query. *)
Definition impatience_reply (operation_type : option OpType) (elapsed_time : Time) : pystr :=
  match operation_type with
  | Some Appointment =>
    if (elapsed_time <? 5000)%Z
    then py "Disculpa, estoy procesando tu cita. Te respondo en unos segundos."
    else if (elapsed_time <? 10000)%Z
    then py "Te pido paciencia, estoy confirmando la disponibilidad del gerente."
    else py "Entiendo tu impaciencia, la cita está casi lista. Te confirmo en breve."
  | _ =>
    if (elapsed_time <? 5000)%Z
    then py "Disculpa, estoy procesando tu consulta. Te respondo en unos segundos más."
    else if (elapsed_time <? 10000)%Z
    then py "Te pido paciencia, estoy buscando la información más precisa para ti."
    else py "Entiendo tu impaciencia, la consulta está tomando más tiempo del esperado. Te aseguro que tendrás la respuesta muy pronto."
  end.

(** The tool reads the shared state and the clock and changes nothing;
    the subtraction from a start time that is [None] is a [TypeError]. *)
Definition handle_user_impatience (w : World) : PyResult pystr :=
  if is_active (cs w) then
    match start_time (cs w) with
    | Some t0 => Returned (impatience_reply (operation_type (cs w)) (now w - t0)%Z)
    | None => Raised (OtherException "TypeError")
    end
  else Returned msg_impatience_idle.

(** ** Greetings by the hour *)

(** [hour] is the hour of [datetime.now] in Lima. *)
Definition get_greeting (hour : Z) : pystr :=
  if ((5 <=? hour) && (hour <? 12))%Z then py "Buenos días"
  else if ((12 <=? hour) && (hour <? 19))%Z then py "Buenas tardes"
  else py "Buenas noches".

Definition get_farewell (hour : Z) : pystr :=
  if ((5 <=? hour) && (hour <? 12))%Z then py "Que tenga un buen día"
  else if ((12 <=? hour) && (hour <? 19))%Z then py "Que tenga una buena tarde"
  else py "Que tenga una buena noche".

(** The tool [get_farewell_message]. *)
Definition get_farewell_message (hour : Z) : pystr :=
  get_farewell hour ++ py ". Gracias por contactar a Multiservicioscall.".

(** The welcome of [entrypoint]. *)
Definition welcome_message (hour : Z) : pystr :=
  get_greeting hour ++ py ", bienvenido a Multiservicioscall, soy Mia. ¿Cómo puedo ayudarte?".

(** ** More properties of states and runs *)

(** The shared state a call leaves when it starts an operation at time
    [t], with the backend task [b] and the feedback task [f]. *)
Definition started_state (a : SubmitArgs) (t : Time) (b f : nat)
    (completed : option Time) : CState :=
  {| is_active := true;
     current_query := Some (args_query a);
     operation_type := Some (args_op a);
     start_time := Some t;
     task := Some b;
     feedback_task := Some f;
     feedback_sent := [];
     last_completed := completed |}.

(** The feedback task as it is created. *)
Definition new_ticker (op : OpType) : Ticker :=
  {| tk_op := op; tk_start := None; tk_pc := TkCreated; tk_cancel := false |}.

(** Two pools of feedback tasks in which the same tasks have ended. *)
Definition same_liveness (l l' : list Ticker) : Prop :=
  length l' = length l
  /\ forall f tk', l' !! f = Some tk' ->
       exists tk, l !! f = Some tk /\ ticker_done tk = ticker_done tk'.

(** The entries of [consultation_state] go together: while an operation
    is active all of them are set, and the start time is not in the
    future; while none is active all of them are [None]. *)
Definition state_shape (w : World) : Prop :=
  if is_active (cs w)
  then (exists t0, start_time (cs w) = Some t0 /\ (t0 <= now w)%Z)
       /\ is_Some (operation_type (cs w)) /\ is_Some (current_query (cs w))
       /\ is_Some (task (cs w)) /\ is_Some (feedback_task (cs w))
  else start_time (cs w) = None /\ operation_type (cs w) = None
       /\ current_query (cs w) = None /\ task (cs w) = None
       /\ feedback_task (cs w) = None.

(** A backend task that has posted is past its first run, and no task
    has posted twice. *)
Definition posted_once (w : World) : Prop :=
  NoDup (posts w).*1
  /\ forall b p, (b, p) ∈ posts w ->
       exists st, backends w !! b = Some st /\ forall co, st <> BCreated co.

(** The feedback tasks in a run without cancellation: a task that is
    alive is the feedback task of the active operation; the call in
    [finally] waits for that task; the record of the stages spoken is
    empty while no operation is active. *)
Definition feedback_exclusive (w : World) : Prop :=
  (forall f, ticker_alive f w -> is_active (cs w) = true /\ feedback_task (cs w) = Some f)
  /\ (forall c f ret, callers w !! c = Some (CCleaning f ret) ->
        feedback_task (cs w) = Some f)
  /\ (is_active (cs w) = false -> feedback_sent (cs w) = []).


(** Every call of [schedule_appointment] in the run is made on a day of
    the calendar. *)
Definition real_days (evs : list Event) : Prop :=
  Forall (fun ev => match ev with
                    | EvSchedule today _ _ _ _ _ _ => valid_date today = true
                    | _ => True
                    end) evs.

(** The date [s] is the writing [DD/MM/YYYY] of a day of the calendar. *)
Definition calendar_date (s : pystr) : Prop :=
  exists d, valid_date d = true /\ s = strftime_dmy d.

Section Validated.
Context {U : PyUnicode}.

(** The phone [p] is [+51] and nine decimal digits, with no white
    space. *)
Definition peru_mobile (p : pystr) : Prop :=
  Forall (fun c => is_space c = false) p
  /\ exists ds, p = py "+51" ++ ds /\ length ds = 9
                /\ Forall (fun c => is_decimal c = true) ds.

Definition validated_coro (co : BackendCoro) : Prop :=
  match co with
  | PerformQuery => True
  | PerformScheduling name phone date time _ =>
    name <> [] /\ peru_mobile phone /\ calendar_date date /\ time <> []
  end.

Definition validated_payload (p : Payload) : Prop :=
  match p with
  | RagPayload _ _ => True
  | AppointmentPayload _ _ phone date _ _ => peru_mobile phone /\ calendar_date date
  end.

(** The arguments of an appointment, wherever they wait to be sent or
    have been sent, passed the validation. *)
Definition requests_validated (w : World) : Prop :=
  (forall c a, callers w !! c = Some (CConfirming a) -> validated_coro (args_coro a))
  /\ (forall c a t, callers w !! c = Some (CJoined a t) -> validated_coro (args_coro a))
  /\ (forall b co, backends w !! b = Some (BCreated co) -> validated_coro co)
  /\ (forall b p, (b, p) ∈ posts w -> validated_payload p).

End Validated.

(** ** The earlier silence monitor (agent_20250716.py) *)

(** [l[i]] for a Python list: a negative index counts from the end;
    [None] is the [IndexError]. *)
Definition py_index {A} (l : list A) (i : Z) : option A :=
  if (0 <=? i)%Z then l !! Z.to_nat i
  else if (- Z.of_nat (length l) <=? i)%Z then l !! Z.to_nat (Z.of_nat (length l) + i)
  else None.

Module Legacy.

(** The messages of [_monitor_silence]. *)
Definition messages : list pystr :=
  [py "¿Sigues ahí? ¿Necesitas ayuda con algo más?";
   py "¿Todo está bien? Estoy aquí para ayudarte.";
   py "¿Hay algo en lo que pueda asistirte?";
   py "Si necesitas un momento para revisar la información, no hay problema. Estoy aquí cuando estés listo.";
   py "¿Te gustaría que repita alguna información?"].

Definition msg_final : pystr :=
  py "Estaré aquí cuando necesites ayuda. Puedes hablar cuando gustes.".

(** Where [_monitor_silence] is suspended: not yet run, in its sleep of
    15 seconds, in the [say] of a check (with the time of the poll), in
    the [say] of the final message, or ended. *)
Inductive Pc :=
  | Created
  | Sleeping (deadline : Time)
  | SayingCheck (current_time : Time)
  | SayingFinal (current_time : Time)
  | Stopped.

(** The state of [ConversationManager]. *)
Record ConversationManager := {
  last_user_activity : Time;
  silence_warnings : Z;
  max_silence_warnings : Z;
  is_active : bool;
  pc : Pc
}.

(** The manager, the clock and what the session was asked to say. *)
Record State := {
  now : Time;
  cm : ConversationManager;
  said : list (Time * pystr)
}.

(** [ConversationManager(session)] at time [t0]. *)
Definition initial (t0 : Time) : State := {|
  now := t0;
  cm := {| last_user_activity := t0; silence_warnings := 0; max_silence_warnings := 3;
           is_active := true; pc := Created |};
  said := []
|}.

Definition set_pc (p : Pc) (m : ConversationManager) : ConversationManager :=
  {| last_user_activity := last_user_activity m; silence_warnings := silence_warnings m;
     max_silence_warnings := max_silence_warnings m; is_active := is_active m; pc := p |}.

(** [update_user_activity] *)
Definition update_user_activity (t : Time) (m : ConversationManager) : ConversationManager :=
  {| last_user_activity := t; silence_warnings := 0;
     max_silence_warnings := max_silence_warnings m; is_active := is_active m; pc := pc m |}.

(** [stop_monitoring] *)
Definition stop_monitoring (m : ConversationManager) : ConversationManager :=
  {| last_user_activity := last_user_activity m; silence_warnings := silence_warnings m;
     max_silence_warnings := max_silence_warnings m; is_active := false; pc := Stopped |}.

(** The head of the loop: [while self.is_active: await asyncio.sleep(15)]. *)
Definition loop (m : ConversationManager) (s : State) : State :=
  {| now := now s;
     cm := set_pc (if is_active m then Sleeping (now s + 15000)%Z else Stopped) m;
     said := said s |}.

(** The monitor resumes: its sleep has elapsed or its [say] has ended
    (what the [say] did, returning or raising, changes nothing). An
    index out of range would raise inside the [try] around the [say]:
    nothing is said then. *)
Definition resume (s : State) : option State :=
  let m := cm s in
  match pc m with
  | Created => Some (loop m s)
  | Sleeping deadline =>
    if (now s <? deadline)%Z then None
    else if negb (is_active m) then Some (loop m s)
    else
      let current_time := now s in
      let silence_duration := (current_time - last_user_activity m)%Z in
      if (15000 <=? silence_duration)%Z && (silence_warnings m <? max_silence_warnings m)%Z
      then
        let m1 := {| last_user_activity := last_user_activity m;
                     silence_warnings := silence_warnings m + 1;
                     max_silence_warnings := max_silence_warnings m;
                     is_active := is_active m; pc := pc m |} in
        let message_index :=
          Z.min (silence_warnings m1 - 1) (Z.of_nat (length messages) - 1) in
        match py_index messages message_index with
        | Some msg =>
          Some {| now := now s; cm := set_pc (SayingCheck current_time) m1;
                  said := said s ++ [(now s, msg)] |}
        | None =>
          Some (loop {| last_user_activity := current_time;
                        silence_warnings := silence_warnings m1;
                        max_silence_warnings := max_silence_warnings m1;
                        is_active := is_active m1; pc := pc m1 |} s)
        end
      else if (60000 <=? silence_duration)%Z
              && (max_silence_warnings m <=? silence_warnings m)%Z
      then Some {| now := now s; cm := set_pc (SayingFinal current_time) m;
                   said := said s ++ [(now s, msg_final)] |}
      else Some (loop m s)
  | SayingCheck current_time =>
    Some (loop {| last_user_activity := current_time;
                  silence_warnings := silence_warnings m;
                  max_silence_warnings := max_silence_warnings m;
                  is_active := is_active m; pc := pc m |} s)
  | SayingFinal current_time =>
    Some (loop {| last_user_activity := current_time;
                  silence_warnings := 0;
                  max_silence_warnings := max_silence_warnings m;
                  is_active := is_active m; pc := pc m |} s)
  | Stopped => None
  end.

(** What can happen: the clock advances, the monitor resumes, the user
    is heard, the monitor is stopped. *)
Inductive Event :=
  | Advance (dt : Time)
  | Resume
  | UserActivity
  | StopMonitoring.
Arguments Advance dt%_Z.

Definition step (s : State) (ev : Event) : option State :=
  match ev with
  | Advance dt =>
    if (0 <=? dt)%Z then Some {| now := (now s + dt)%Z; cm := cm s; said := said s |}
    else None
  | Resume => resume s
  | UserActivity =>
    Some {| now := now s; cm := update_user_activity (now s) (cm s); said := said s |}
  | StopMonitoring =>
    Some {| now := now s; cm := stop_monitoring (cm s); said := said s |}
  end.

Fixpoint run (s : State) (evs : list Event) : option State :=
  match evs with
  | [] => Some s
  | ev :: evs' => s' ← step s ev; run s' evs'
  end.

(** The state a run from a manager created at time 0 ends in; the
    initial state when the run is not possible. *)
Definition state_after (evs : list Event) : State :=
  default (initial 0%Z) (run (initial 0%Z) evs).

(** What holds of the manager in every state: the counter is between
    zero and the maximum, which is three. *)
Definition sane (s : State) : Prop :=
  max_silence_warnings (cm s) = 3%Z /\ (0 <= silence_warnings (cm s) <= 3)%Z.

End Legacy.
(** * Theorems *)

(** ** Strings *)

Lemma lstrip_ascii s : ascii_only s -> ascii_only (lstrip s).
Proof.
  unfold ascii_only. induction 1 as [|c r Hc Hr IH]; simpl; [constructor|].
  destruct (is_space c); [exact IH | constructor; assumption].
Qed.

Lemma strip_ascii s : ascii_only s -> ascii_only (strip s).
Proof.
  intros H. unfold strip, rstrip, ascii_only.
  apply Forall_rev, lstrip_ascii, Forall_rev, lstrip_ascii, H.
Qed.

Lemma re_sub_delete_ascii cls s : ascii_only s -> ascii_only (re_sub_delete cls s).
Proof.
  unfold ascii_only, re_sub_delete. rewrite !Forall_forall.
  intros H c Hc. apply list_elem_of_filter in Hc. apply H, Hc.
Qed.

Section AsciiInputs.
Context {U : PyUnicode}.

Lemma is_decimal_ascii c :
  (c < 128)%N -> @is_decimal U c = @is_decimal ascii_unicode c.
Proof. intros H. unfold is_decimal. rewrite (uni_decimal_ascii c H). reflexivity. Qed.

Lemma re_digits_ascii n s :
  ascii_only s -> @re_digits U n s = @re_digits ascii_unicode n s.
Proof.
  revert s. induction n as [|n IH]; intros s Hs; simpl; [reflexivity|].
  destruct Hs as [|c r Hc Hr]; [reflexivity|].
  rewrite (is_decimal_ascii c Hc). destruct (is_decimal c); [apply IH, Hr | reflexivity].
Qed.

Lemma re_match_phone_ascii s :
  ascii_only s -> @re_match_phone U s = @re_match_phone ascii_unicode s.
Proof.
  intros Hs. unfold re_match_phone.
  destruct Hs as [|a ? _ Hs]; [reflexivity|].
  destruct Hs as [|b ? _ Hs]; [reflexivity|].
  destruct Hs as [|c ? _ Hs]; [reflexivity|].
  rewrite (re_digits_ascii 9 _ Hs). reflexivity.
Qed.

(** On ASCII input [normalize_phone] does not depend on the Unicode
    tables. *)
Lemma normalize_phone_ascii p :
  ascii_only p -> @normalize_phone U (Some p) = @normalize_phone ascii_unicode (Some p).
Proof.
  intros Hp. unfold normalize_phone.
  destruct (negb (truthy (Some p))); [reflexivity|].
  rewrite re_match_phone_ascii; [reflexivity|].
  assert (Hd : ascii_only (re_sub_delete phone_noise (strip (default [] (Some p)))))
    by (apply re_sub_delete_ascii, strip_ascii, Hp).
  destruct (negb _); [|exact Hd].
  apply Forall_app; split; [|exact Hd].
  unfold ascii_only. vm_compute. repeat constructor.
Qed.

End AsciiInputs.

Lemma ascii_only_decide s : forallb (fun c => (c <? 128)%N) s = true -> ascii_only s.
Proof.
  unfold ascii_only. rewrite forallb_forall, Forall_forall.
  intros H c Hc. apply N.ltb_lt, H, list_elem_of_In, Hc.
Qed.

(** ** Phone numbers *)

(** C8. The phone ["987654321"] normalises to ["+51987654321"] with no
    error; the phone ["12345"] gives no number and the message that asks
    for 9 digits; and [schedule_appointment] called with the phone
    ["12345"] returns that message at once, whatever its other arguments
    and whatever the state: no task is created, nothing is posted, the
    shared state is untouched. *)
Theorem phone_scenario {U : PyUnicode} :
  normalize_phone (Some (py "987654321")) = (Some (py "+51987654321"), None)
  /\ normalize_phone (Some (py "12345")) = (None, Some msg_phone_invalid)
  /\ contains (py "9 dígitos") msg_phone_invalid = true
  /\ forall today name date day_reference time reason w,
       let w' := schedule_appointment today name (Some (py "12345")) date day_reference
                   time reason w in
       callers w' = callers w ++ [CFinished (Returned msg_phone_invalid)]
       /\ posts w' = posts w /\ backends w' = backends w /\ tickers w' = tickers w
       /\ cs w' = cs w /\ spoken w' = spoken w.
Proof.
  assert (H1 : normalize_phone (Some (py "987654321")) = (Some (py "+51987654321"), None)).
  { rewrite normalize_phone_ascii by (apply ascii_only_decide; reflexivity).
    vm_compute. reflexivity. }
  assert (H2 : normalize_phone (Some (py "12345")) = (None, Some msg_phone_invalid)).
  { rewrite normalize_phone_ascii by (apply ascii_only_decide; reflexivity).
    vm_compute. reflexivity. }
  split; [exact H1|]. split; [exact H2|]. split; [vm_compute; reflexivity|].
  intros today name date day_reference time reason w. unfold schedule_appointment.
  rewrite H2.
  replace (truthy (Some msg_phone_invalid)) with true by (vm_compute; reflexivity).
  lazy beta iota zeta. repeat split; reflexivity.
Qed.

(** ** The answer of the knowledge base *)

Lemma replace_one_char c s : replace_from [c] [] 0 s = filter (fun x => x <> c) s.
Proof.
  induction s as [|x r IH]; [reflexivity|].
  cbn [replace_from startswith length]. rewrite andb_true_r.
  destruct (N.eqb_spec c x) as [->|Hne].
  - rewrite filter_cons_False by (intros H; apply H; reflexivity). exact IH.
  - rewrite filter_cons_True by congruence. cbn. rewrite IH. reflexivity.
Qed.

(** Deleting the pairs of asterisks first changes nothing once the
    single asterisks are deleted as well. *)
Lemma replace_two_stars_filtered s k :
  Forall (fun x => x = 42%N) (take k s) ->
  filter (fun x => x <> 42%N) (replace_from [42%N; 42%N] [] k s)
  = filter (fun x => x <> 42%N) s.
Proof.
  revert k. induction s as [|x r IH]; intros k Hk; [destruct k; reflexivity|].
  destruct k as [|k].
  - cbn [replace_from startswith length].
    destruct (N.eqb_spec 42 x) as [<-|Hne].
    + destruct r as [|y r'].
      * cbn. reflexivity.
      * cbn [andb]. destruct (N.eqb_spec 42 y) as [<-|Hne'].
        -- cbn [andb app Nat.sub]. rewrite (IH 1%nat) by (repeat constructor).
           rewrite (filter_cons_False _ 42%N) by (intros H; apply H; reflexivity).
           reflexivity.
        -- cbn [andb]. rewrite !(filter_cons_False _ 42%N) by (intros H; apply H; reflexivity).
           apply (IH 0%nat). constructor.
    + cbn [andb]. rewrite !(filter_cons_True _ x) by congruence.
      f_equal. apply (IH 0%nat). constructor.
  - cbn [replace_from]. cbn [take] in Hk. apply Forall_cons in Hk as [-> Hk].
    rewrite (filter_cons_False _ 42%N) by (intros H; apply H; reflexivity).
    apply IH, Hk.
Qed.

Lemma clean_answer_spec answer : clean_answer answer = strip (without_marks answer).
Proof.
  unfold clean_answer, without_marks. f_equal.
  change (py "📞") with [128222%N]. change (py "*") with [42%N].
  change (py "**") with [42%N; 42%N]. unfold replace.
  rewrite !replace_one_char. f_equal.
  apply (replace_two_stars_filtered answer 0). constructor.
Qed.

(** When the webhook answers with a success status and a JSON object,
    [perform_query] returns the string under ["answer"] with its
    asterisks (in pairs or alone) and its telephone signs removed and
    the surrounding whitespace stripped, and the fixed default utterance
    when the object has no ["answer"]. *)
Lemma perform_query_result (status : Z) (m : gmap pystr json) :
  is_success status = true ->
  (forall answer, m !! py "answer" = Some (JStr answer) ->
     backend_finish PerformQuery (HttpResponse status (Some (JObj m)))
     = Returned (strip (without_marks answer)))
  /\ (m !! py "answer" = None ->
      backend_finish PerformQuery (HttpResponse status (Some (JObj m)))
      = Returned msg_default_answer).
Proof.
  intros Hs. unfold backend_finish, query_answer. rewrite Hs. cbn [negb].
  split.
  - intros answer ->. cbn [from_option id]. rewrite clean_answer_spec. reflexivity.
  - intros ->. cbn [from_option id]. rewrite clean_answer_spec. vm_compute. reflexivity.
Qed.

(** ** Dates *)

(** Linear arithmetic with quotients and remainders by constants. *)
Ltac dlia := Z.div_mod_to_equations; lia.

Section DateFacts.
Context {U : PyUnicode}.

Lemma any_digit_ascii c : (c < 128)%N -> @any_digit U c = @any_digit ascii_unicode c.
Proof. intros H. unfold any_digit. rewrite (uni_decimal_ascii c H). reflexivity. Qed.

Lemma any_digit_digit_char v :
  (0 <= v <= 9)%Z -> any_digit (digit_char v) = Some v.
Proof.
  intros Hv. unfold any_digit, digit_char.
  rewrite uni_decimal_ascii by lia.
  replace ((48 <=? 48 + Z.to_N v) && (48 + Z.to_N v <=? 57))%N with true
    by (symmetry; apply andb_true_iff; split; apply N.leb_le; lia).
  cbn. f_equal. lia.
Qed.

Lemma strptime_day_ascii a b r :
  (b < 128)%N -> @strptime_day U (a :: b :: r) = @strptime_day ascii_unicode (a :: b :: r).
Proof. intros Hb. unfold strptime_day. rewrite (any_digit_ascii b Hb). reflexivity. Qed.

(** A two-digit day followed by a slash is read back. *)
Lemma strptime_day_pad2 d r :
  (1 <= d <= 31)%Z -> then_slash (strptime_day (pad2 d ++ 47%N :: r)) = [(d, r)].
Proof.
  intros Hd. unfold pad2. cbn [app].
  rewrite strptime_day_ascii by (unfold digit_char; dlia).
  assert (Hn : d = Z.of_nat (Z.to_nat d)) by lia.
  revert Hn. generalize (Z.to_nat d) as n. intros n Hn.
  do 32 (destruct n as [|n]; [subst d; first [lia | vm_compute; reflexivity]|]).
  lia.
Qed.

(** A two-digit month followed by a slash is read back. *)
Lemma strptime_month_pad2 m r :
  (1 <= m <= 12)%Z -> then_slash (strptime_month (pad2 m ++ 47%N :: r)) = [(m, r)].
Proof.
  intros Hm. unfold pad2. cbn [app].
  assert (Hn : m = Z.of_nat (Z.to_nat m)) by lia.
  revert Hn. generalize (Z.to_nat m) as n. intros n Hn.
  do 13 (destruct n as [|n]; [subst m; first [lia | vm_compute; reflexivity]|]).
  lia.
Qed.

(** A four-digit year is read back. *)
Lemma strptime_year_pad4 y :
  (1 <= y <= 9999)%Z -> strptime_year (pad4 y) = [(y, [])].
Proof.
  intros Hy. unfold pad4, strptime_year.
  rewrite !any_digit_digit_char by dlia. cbn.
  repeat f_equal. dlia.
Qed.

Lemma valid_date_bounds d :
  valid_date d = true ->
  (1 <= d_year d <= 9999 /\ 1 <= d_month d <= 12 /\ 1 <= d_day d <= 31)%Z.
Proof.
  unfold valid_date. rewrite !andb_true_iff, !Z.leb_le.
  intros [[[[[? ?] ?] ?] ?] Hd].
  assert (days_in_month (d_year d) (d_month d) <= 31)%Z.
  { unfold days_in_month. repeat match goal with |- context [if ?b then _ else _] => destruct b end; lia. }
  lia.
Qed.

(** [strptime] reads back what [strftime] wrote. *)
Lemma strptime_strftime d : valid_date d = true -> strptime_dmy (strftime_dmy d) = Some d.
Proof.
  intros Hv. destruct (valid_date_bounds d Hv) as (Hy & Hm & Hd).
  unfold strptime_dmy, strptime_dmy_matches, strftime_dmy.
  change (py "/") with [47%N]. cbn [app].
  replace (pad2 (d_day d) ++ 47%N :: pad2 (d_month d) ++ 47%N :: pad4 (d_year d))
    with (pad2 (d_day d) ++ 47%N :: (pad2 (d_month d) ++ 47%N :: pad4 (d_year d)))
    by reflexivity.
  rewrite (strptime_day_pad2 _ _ Hd). cbn [mbind list_bind app].
  rewrite (strptime_month_pad2 _ _ Hm). cbn [mbind list_bind app].
  rewrite (strptime_year_pad4 _ Hy). cbn [mbind list_bind app].
  destruct d as [y m dd]. cbn [d_year d_month d_day] in *. rewrite Hv. reflexivity.
Qed.

End DateFacts.

Lemma digit_char_dateish v : (0 <= v <= 9)%Z -> dateish (digit_char v).
Proof. unfold dateish, digit_char. lia. Qed.

Lemma strftime_dateish d : valid_date d = true -> Forall dateish (strftime_dmy d).
Proof.
  intros Hv. destruct (valid_date_bounds d Hv) as (Hy & Hm & Hd).
  unfold strftime_dmy, pad2, pad4. change (py "/") with [47%N]. cbn [app].
  repeat constructor; try (apply digit_char_dateish; dlia); unfold dateish; lia.
Qed.

Lemma is_space_dateish c : dateish c -> is_space c = false.
Proof.
  unfold dateish, is_space. intros Hc.
  repeat match goal with
  | |- context [(?a <=? ?b)%N] => destruct (N.leb_spec a b); try lia
  | |- context [(?a =? ?b)%N] => destruct (N.eqb_spec a b); try lia
  end; reflexivity.
Qed.

Lemma lstrip_dateish s : Forall dateish s -> lstrip s = s.
Proof. intros [|c r Hc _]; [reflexivity|]. cbn. rewrite (is_space_dateish c Hc). reflexivity. Qed.

Lemma strip_dateish s : Forall dateish s -> strip s = s.
Proof.
  intros H. unfold strip, rstrip. rewrite (lstrip_dateish s H).
  rewrite lstrip_dateish by (apply Forall_rev, H). apply rev_involutive.
Qed.

Lemma ascii_lower_dateish s : Forall dateish s -> map ascii_lower s = s.
Proof.
  induction 1 as [|c r Hc _ IH]; [reflexivity|]. cbn. rewrite IH. f_equal.
  unfold ascii_lower, dateish in *.
  destruct (N.leb_spec 65 c); [lia | reflexivity].
Qed.

Lemma dateish_ascii s : Forall dateish s -> ascii_only s.
Proof.
  unfold ascii_only. intros H. eapply Forall_impl; [exact H|].
  unfold dateish. intros c Hc. lia.
Qed.

(** No word that starts with the letter m occurs in such a string. *)
Lemma contains_dateish p s : Forall dateish s -> contains (109%N :: p) s = false.
Proof.
  induction 1 as [|c r Hc _ IH]; [reflexivity|].
  cbn [contains startswith]. rewrite IH.
  unfold dateish in Hc. destruct (N.eqb_spec 109 c); [lia | reflexivity].
Qed.

Section PastDates.
Context {U : PyUnicode}.

(** What [parse_relative_date] does with a date in the form
    [strftime] writes. *)
Lemma parse_written_date today d day_reference :
  valid_date d = true ->
  parse_relative_date today (Some (strftime_dmy d)) day_reference
  = if date_ltb d today then Returned (None, Some msg_date_past)
    else match day_reference_mismatch day_reference (weekday d) with
         | Some dr => Returned (None, Some (msg_date_mismatch (strftime_dmy d) d dr))
         | None => Returned (Some (strftime_dmy d), None)
         end.
Proof.
  intros Hv. pose proof (strftime_dateish d Hv) as Hd.
  unfold parse_relative_date.
  replace (truthy (Some (strftime_dmy d))) with true by reflexivity.
  cbn [negb from_option id].
  rewrite (uni_lower_ascii _ (dateish_ascii _ Hd)), (ascii_lower_dateish _ Hd),
    (strip_dateish _ Hd).
  change (py "mañana") with (109%N :: py "añana").
  change (py "manana") with (109%N :: py "anana").
  rewrite !(contains_dateish _ _ Hd). cbn [orb].
  rewrite (strptime_strftime d Hv). reflexivity.
Qed.

(** C9, as the code has it. A valid date strictly before today, written
    day/month/year, makes [parse_relative_date] return no date and the
    message that the date cannot be earlier than today; and
    [schedule_appointment], when the phone number has passed its own
    validation, returns that message at once: no task is created and
    nothing is posted. *)
Theorem past_date_rejected today d day_reference :
  valid_date d = true ->
  date_ltb d today = true ->
  parse_relative_date today (Some (strftime_dmy d)) day_reference
  = Returned (None, Some msg_date_past)
  /\ contains (py "no puede ser anterior a hoy") msg_date_past = true
  /\ forall name phone time reason w,
       truthy (snd (normalize_phone phone)) = false ->
       let w' := schedule_appointment today name phone (Some (strftime_dmy d))
                   day_reference time reason w in
       callers w' = callers w ++ [CFinished (Returned msg_date_past)]
       /\ posts w' = posts w /\ backends w' = backends w /\ tickers w' = tickers w
       /\ cs w' = cs w /\ spoken w' = spoken w.
Proof.
  intros Hv Hlt.
  assert (Hp : parse_relative_date today (Some (strftime_dmy d)) day_reference
               = Returned (None, Some msg_date_past))
    by (rewrite (parse_written_date _ _ _ Hv), Hlt; reflexivity).
  split; [exact Hp|]. split; [vm_compute; reflexivity|].
  intros name phone time reason w Hphone. unfold schedule_appointment.
  destruct (normalize_phone phone) as [normalized_phone phone_error].
  cbn [snd] in Hphone. rewrite Hphone, Hp.
  replace (truthy (Some msg_date_past)) with true by (vm_compute; reflexivity).
  lazy beta iota zeta. repeat split; reflexivity.
Qed.

End PastDates.

Lemma past_date_rejected_witness :
  valid_date (mkDate 2020 1 1) = true
  /\ date_ltb (mkDate 2020 1 1) (mkDate 2025 8 5) = true
  /\ @parse_relative_date ascii_unicode (mkDate 2025 8 5) (Some (py "01/01/2020"))
       (Some (py "lunes"))
     = Returned (None, Some msg_date_past).
Proof.
  split; [reflexivity|]. split; [reflexivity|].
  exact (proj1 (@past_date_rejected ascii_unicode (mkDate 2025 8 5) (mkDate 2020 1 1)
                  (Some (py "lunes")) eq_refl eq_refl)).
Defined.

(** C9 as it is worded fails: the phone number is validated before the
    date, so a call with the phone ["12345"] and the past date
    ["01/01/2020"] returns the message about the phone number, not the
    one about the date. *)
Lemma past_date_phone_first :
  let today := mkDate 2025 8 5 in
  let w := initial_world 0%Z true anonymous in
  @parse_relative_date ascii_unicode today (Some (py "01/01/2020")) None
  = Returned (None, Some msg_date_past)
  /\ callers (@schedule_appointment ascii_unicode today (Some (py "Ana Torres"))
                (Some (py "12345")) (Some (py "01/01/2020")) None (Some (py "10:00")) None w)
     = [CFinished (Returned msg_phone_invalid)]
  /\ msg_phone_invalid <> msg_date_past.
Proof.
  cbv zeta. split; [vm_compute; reflexivity|]. split; [vm_compute; reflexivity|].
  vm_compute. discriminate.
Qed.

(** ** What each transition leaves alone *)

Lemma check_ins_say by_ text w :
  check_ins (say by_ text w)
  = (check_ins w + if bool_decide (by_ = ByMonitor) then 1 else 0)%nat.
Proof.
  unfold check_ins, say. cbn [spoken]. rewrite filter_app, length_app.
  f_equal. rewrite filter_cons, filter_nil. cbn [u_by].
  case_bool_decide; rewrite ?decide_True, ?decide_False by assumption; reflexivity.
Qed.

Lemma check_ins_say_other by_ text w :
  by_ <> ByMonitor -> check_ins (say by_ text w) = check_ins w.
Proof. intros H. rewrite check_ins_say, bool_decide_eq_false_2 by exact H. lia. Qed.

Lemma check_ins_say_monitor text w : check_ins (say ByMonitor text w) = S (check_ins w).
Proof. rewrite check_ins_say, bool_decide_eq_true_2 by reflexivity. lia. Qed.

Lemma cancel_ticker_frame f w :
  mon (cancel_ticker f w) = mon w /\ now (cancel_ticker f w) = now w
  /\ spoken (cancel_ticker f w) = spoken w /\ callers (cancel_ticker f w) = callers w
  /\ posts (cancel_ticker f w) = posts w /\ backends (cancel_ticker f w) = backends w
  /\ cs (cancel_ticker f w) = cs w.
Proof. unfold cancel_ticker. repeat case_match; repeat split; reflexivity. Qed.

Lemma enter_operation_frame a w w' st :
  enter_operation a w = Some (w', st) ->
  mon w' = mon w /\ now w' = now w /\ spoken w' = spoken w /\ callers w' = callers w
  /\ posts w' = posts w.
Proof.
  unfold enter_operation, join_outcome. intros H.
  destruct (is_active (cs w)); [|injection H as <- <-; repeat split; reflexivity].
  set (w1 := match running_feedback w with Some f => cancel_ticker f w | None => w end) in *.
  assert (H1 : mon w1 = mon w /\ now w1 = now w /\ spoken w1 = spoken w
               /\ callers w1 = callers w /\ posts w1 = posts w).
  { subst w1. destruct (running_feedback w) as [f|]; [|repeat split; reflexivity].
    pose proof (cancel_ticker_frame f w). intuition. }
  destruct H1 as (H1 & H2 & H3 & H4 & H5).
  destruct (task _) as [t|]; [|injection H as <- <-; repeat split; assumption].
  destruct (backends _ !! t) as [[co|co p|[v|e]]|]; cbn in H; try discriminate;
    try (injection H as <- <-; repeat split; assumption).
  destruct e; injection H as <- <-; repeat split; assumption.
Qed.

Lemma caller_resume_frame c w w' :
  caller_resume c w = Some w' ->
  mon w' = mon w /\ now w' = now w /\ spoken w' = spoken w /\ posts w' = posts w
  /\ length (callers w') = length (callers w).
Proof.
  unfold caller_resume, join_outcome, teardown, finish_teardown. intros H.
  destruct (callers w !! c) as [[a|a t|a t|f ret|r]|]; cbn in H; try discriminate.
  - destruct (backends w !! t) as [[co|co p|[v|e]]|]; cbn in H; try discriminate.
    + injection H as <-. cbn. rewrite length_insert. repeat split; reflexivity.
    + destruct e; injection H as <-; cbn; rewrite length_insert; repeat split; reflexivity.
  - destruct (backends w !! t) as [[co|co p|r]|]; cbn in H; try discriminate.
    destruct (running_feedback w) as [f|]; injection H as <-; cbn;
      rewrite length_insert; [|repeat split; reflexivity].
    destruct (cancel_ticker_frame f w) as (-> & -> & -> & -> & -> & _).
    repeat split; reflexivity.
  - destruct (tickers w !! f) as [tk|]; cbn in H; try discriminate.
    destruct (ticker_done tk); [|discriminate].
    injection H as <-. cbn. rewrite length_insert. repeat split; reflexivity.
Qed.

Lemma ticker_act_frame f tk act w :
  let w' := ticker_act f tk act w in
  mon w' = mon w /\ now w' = now w /\ posts w' = posts w /\ callers w' = callers w
  /\ cs w' = cs w /\ backends w' = backends w /\ check_ins w' = check_ins w.
Proof.
  destruct act; unfold ticker_act; rewrite ?check_ins_say_other by discriminate;
    repeat split; reflexivity.
Qed.

Lemma ticker_resume_frame f ok pick w w' :
  ticker_resume f ok pick w = Some w' ->
  mon w' = mon w /\ now w' = now w /\ posts w' = posts w /\ callers w' = callers w
  /\ backends w' = backends w /\ check_ins w' = check_ins w.
Proof.
  unfold ticker_resume. intros H.
  destruct (tickers w !! f) as [tk|]; cbn [mbind option_bind] in H; [|discriminate].
  assert (Hact : forall tk' act, Some (ticker_act f tk' act w) = Some w' ->
            mon w' = mon w /\ now w' = now w /\ posts w' = posts w
            /\ callers w' = callers w /\ backends w' = backends w
            /\ check_ins w' = check_ins w).
  { intros tk' act [= <-]. pose proof (ticker_act_frame f tk' act w) as Hf.
    cbv zeta in Hf. intuition. }
  destruct (tk_pc tk) as [|st d|st|]; try discriminate.
  - destruct (tk_cancel tk); eapply Hact, H.
  - destruct (tk_cancel tk); [eapply Hact, H|].
    destruct (now w <? d)%Z; [discriminate | eapply Hact, H].
  - destruct (tk_cancel tk); [eapply Hact, H|].
    destruct ok; [|eapply Hact, H].
    injection H as <-.
    match goal with |- context [ticker_act ?f ?tk ?a ?w] =>
      pose proof (ticker_act_frame f tk a w) as Hf end.
    cbv zeta in Hf. destruct Hf as (-> & -> & -> & -> & _ & -> & ->).
    repeat split; reflexivity.
Qed.

Section Frames.
Context {U : PyUnicode}.

Lemma schedule_appointment_frame today name phone date day_reference time reason w :
  let w' := schedule_appointment today name phone date day_reference time reason w in
  mon w' = mon w /\ now w' = now w /\ posts w' = posts w /\ cs w' = cs w
  /\ backends w' = backends w /\ tickers w' = tickers w /\ check_ins w' = check_ins w.
Proof.
  unfold schedule_appointment.
  repeat case_match; unfold new_call; repeat split; try reflexivity.
  all: change (check_ins (with_callers ?l ?x)) with (check_ins x).
  all: apply check_ins_say_other; discriminate.
Qed.

(** Only the events of the monitor and of the clock touch the monitor,
    the clock and the count of check-ins. *)
Lemma step_frame w ev w' :
  step w ev = Some w' ->
  match ev with
  | EvMonitor _ | EvUserActivity | EvAgentResponse | EvStopMonitoring | EvAdvance _ => True
  | _ => mon w' = mon w /\ now w' = now w /\ check_ins w' = check_ins w
  end.
Proof.
  destruct ev; cbn [step]; try (intros _; exact I).
  - unfold query_knowledge_base. intros H.
    destruct (enter_operation _ w) as [[w1 st]|] eqn:E; [|discriminate].
    apply enter_operation_frame in E as (Hm & Hn & Hs & _).
    injection H as <-. unfold check_ins, new_call. cbn. rewrite Hs. auto.
  - intros [= <-]. pose proof (schedule_appointment_frame today name phone date
      day_reference time reason w) as H. cbv zeta in H. intuition.
  - unfold confirmed. intros H.
    destruct (callers w !! c) as [[a|a t|a t|f ret|r]|]; cbn in H; try discriminate.
    destruct say_ok.
    + destruct (enter_operation _ w) as [[w1 st]|] eqn:E; [|discriminate].
      apply enter_operation_frame in E as (Hm & Hn & Hs & _).
      injection H as <-. unfold check_ins. cbn. rewrite Hs. auto.
    + injection H as <-. auto.
  - intros H. apply caller_resume_frame in H as (Hm & Hn & Hs & _).
    unfold check_ins. rewrite Hs. auto.
  - unfold backend_run. intros H.
    destruct (backends w !! b) as [[co|co p|r]|]; cbn in H; try discriminate.
    destruct (backend_begin _ _ _ _); injection H as <-; auto.
  - unfold backend_reply. intros H.
    destruct (backends w !! b) as [[co|co p|r]|]; cbn in H; try discriminate.
    injection H as <-; auto.
  - unfold backend_cancel. intros H.
    destruct (backends w !! b) as [st|]; cbn in H; try discriminate.
    destruct (backend_done st); [discriminate|]. injection H as <-; auto.
  - intros H. apply ticker_resume_frame in H. intuition.
Qed.

End Frames.

(** ** Runs *)

(** The fields of the monitor after a transition, and the facts about
    them that follow from the hypotheses at hand. *)
Ltac monitor_fields :=
  cbn [now mon say with_mon with_now set_monitor_pc set_silence_warnings
       set_last_user_activity update_user_activity mark_agent_response stop_monitoring
       last_user_activity max_silence_warnings silence_warnings mon_pc
       last_agent_response mon_is_active spoken cs].

Ltac sane_goal :=
  monitor_fields;
  repeat match goal with |- context [if ?b then _ else _] => destruct b end;
  monitor_fields;
  repeat split;
  first [ assumption | lia | (intros; discriminate)
        | (intros ? [= <-]; first [assumption | lia]) ].

Section Runs.
Context {U : PyUnicode}.

(** A property kept by every transition holds along every run. *)
Lemma run_invariant (P : World -> Prop) :
  (forall w ev w', P w -> step w ev = Some w' -> P w') ->
  forall evs w w', P w -> run w evs = Some w' -> P w'.
Proof.
  intros Hstep. induction evs as [|ev evs IH]; intros w w' Hw Hrun.
  - injection Hrun as <-. exact Hw.
  - cbn [run] in Hrun. destruct (step w ev) as [w1|] eqn:E; [|discriminate].
    cbn [mbind option_bind] in Hrun. eapply IH; [eapply Hstep; eassumption | exact Hrun].
Qed.

(** ** The idle-silence monitor *)

(** The clock never goes back. *)
Lemma step_now_mono w ev w' : step w ev = Some w' -> (now w <= now w')%Z.
Proof.
  intros H. pose proof (step_frame w ev w' H) as Hf.
  destruct ev; try (destruct Hf as (_ & -> & _); lia); cbn [step] in H.
  - destruct (0 <=? dt)%Z eqn:E; [|discriminate]. injection H as <-. cbn. lia.
  - unfold monitor_resume, monitor_loop in H.
    repeat case_match; try discriminate; injection H as <-; cbn; lia.
  - injection H as <-. cbn. lia.
  - injection H as <-. cbn. lia.
  - injection H as <-. cbn. lia.
Qed.

Lemma monitor_sane_step w ev w' : monitor_sane w -> step w ev = Some w' -> monitor_sane w'.
Proof.
  intros (Hn & Hl & Hm & Hw & Hs) H. unfold monitor_sane.
  pose proof (step_frame w ev w' H) as Hf.
  destruct ev; try (destruct Hf as (-> & -> & _); auto); cbn [step] in H.
  - destruct (0 <=? dt)%Z eqn:E; [|discriminate]. injection H as <-.
    apply Z.leb_le in E. sane_goal.
  - unfold monitor_resume, monitor_loop in H.
    destruct (mon_pc (mon w)) as [|d|ct|] eqn:Epc; try discriminate.
    + destruct (mon_is_active (mon w)); injection H as <-; sane_goal.
    + destruct (now w <? d)%Z; [discriminate|].
      destruct (negb _); [injection H as <-; sane_goal|].
      destruct (poll_decision _ _ _); destruct (mon_is_active (mon w)); injection H as <-;
        sane_goal.
    + specialize (Hs ct eq_refl).
      destruct say_ok; destruct (mon_is_active (mon w)); injection H as <-; sane_goal.
  - injection H as <-. sane_goal.
  - injection H as <-. sane_goal.
  - injection H as <-. sane_goal.
Qed.

Lemma monitor_sane_initial t0 sess info : (0 <= t0)%Z -> monitor_sane (initial_world t0 sess info).
Proof. intros H. unfold monitor_sane. cbn. repeat split; auto; try lia; intros; discriminate. Qed.

Lemma monitor_sane_reachable t0 sess info evs w :
  (0 <= t0)%Z -> run (initial_world t0 sess info) evs = Some w -> monitor_sane w.
Proof.
  intros H0 Hrun. eapply (run_invariant monitor_sane); [|apply monitor_sane_initial, H0|exact Hrun].
  intros; eapply monitor_sane_step; eassumption.
Qed.

End Runs.

(** A poll while an operation is active, or within 45 seconds of the
    last completion, decides to skip or to do nothing. *)
Lemma poll_decision_quiet current_time s m :
  (0 <= last_user_activity m)%Z ->
  is_active s = true
  \/ (exists t, last_completed s = Some t /\ current_time - t < 45000)%Z ->
  poll_decision current_time s m = PollSkip \/ poll_decision current_time s m = PollNothing.
Proof.
  intros Hl Hc. unfold poll_decision.
  destruct (is_active s); [left; reflexivity|].
  destruct Hc as [Hc | (t & Ht & Hlt)]; [discriminate|].
  rewrite Ht. cbn [time_truthy from_option id].
  destruct (Z.eqb_spec t 0) as [->|Hne]; cbn [negb andb].
  - right.
    destruct (Z.leb_spec 60000 (current_time - last_user_activity m)); [lia|].
    cbn [andb]. destruct (Z.leb_spec 300000 (current_time - last_user_activity m)); [lia|].
    reflexivity.
  - left. destruct (Z.ltb_spec (current_time - t) 45000); [reflexivity | lia].
Qed.

Section MonitorFacts.
Context {U : PyUnicode}.

(** What a resumption of the monitor does, case by case. *)
Lemma monitor_resume_cases say_ok w w' :
  monitor_resume say_ok w = Some w' ->
  now w' = now w /\ cs w' = cs w /\ max_silence_warnings (mon w') = max_silence_warnings (mon w)
  /\ mon_pc (mon w) <> MonStopped
  /\ ((exists d, mon_pc (mon w) = MonSleeping d
        /\ poll_decision (now w) (cs w) (mon w) = PollCheckIn
        /\ check_ins w' = S (check_ins w)
        /\ silence_warnings (mon w') = (silence_warnings (mon w) + 1)%Z
        /\ last_user_activity (mon w') = last_user_activity (mon w)
        /\ mon_pc (mon w') = MonSaying (now w))
      \/ (exists d, mon_pc (mon w) = MonSleeping d
            /\ poll_decision (now w) (cs w) (mon w) = PollPassive
            /\ spoken w' = spoken w
            /\ silence_warnings (mon w') = 0%Z
            /\ last_user_activity (mon w') = now w
            /\ (forall ct, mon_pc (mon w') <> MonSaying ct))
      \/ (exists ct, mon_pc (mon w) = MonSaying ct
            /\ spoken w' = spoken w
            /\ silence_warnings (mon w') = silence_warnings (mon w)
            /\ last_user_activity (mon w') = ct
            /\ (forall ct', mon_pc (mon w') <> MonSaying ct'))
      \/ ((forall ct, mon_pc (mon w) <> MonSaying ct)
            /\ (forall d, mon_pc (mon w) = MonSleeping d ->
                  mon_is_active (mon w) = true ->
                  poll_decision (now w) (cs w) (mon w) = PollSkip
                  \/ poll_decision (now w) (cs w) (mon w) = PollNothing)
            /\ spoken w' = spoken w
            /\ silence_warnings (mon w') = silence_warnings (mon w)
            /\ last_user_activity (mon w') = last_user_activity (mon w)
            /\ last_agent_response (mon w') = last_agent_response (mon w)
            /\ (forall ct, mon_pc (mon w') <> MonSaying ct))).
Proof.
  unfold monitor_resume, monitor_loop. intros H.
  destruct (mon_pc (mon w)) as [|d|ct|] eqn:Epc; try discriminate.
  - destruct (mon_is_active (mon w)); injection H as <-; monitor_fields;
      do 3 (split; [reflexivity|]); (split; [discriminate|]); right; right; right;
      repeat split; try reflexivity; intros; discriminate.
  - destruct (now w <? d)%Z; [discriminate|].
    destruct (mon_is_active (mon w)) eqn:Ea; cbn [negb] in H.
    + destruct (poll_decision (now w) (cs w) (mon w)) eqn:Ep; injection H as <-;
        monitor_fields; rewrite ?Ea; monitor_fields; do 3 (split; [reflexivity|]);
        (split; [discriminate|]).
      * right; right; right. repeat split; auto; intros; discriminate.
      * left. exists d. rewrite check_ins_say_monitor. repeat split; reflexivity.
      * right; left. exists d.
        repeat split; try reflexivity; intros; discriminate.
      * right; right; right. repeat split; auto; intros; discriminate.
    + injection H as <-. monitor_fields. do 3 (split; [reflexivity|]).
      split; [discriminate|]. right; right; right. repeat split; try reflexivity; intros; discriminate.
  - injection H as <-.
    destruct say_ok; destruct (mon_is_active (mon w)) eqn:Ea; monitor_fields;
      rewrite ?Ea; monitor_fields; do 3 (split; [reflexivity|]);
      (split; [discriminate|]);
      right; right; left; exists ct; repeat split; try reflexivity; intros; discriminate.
Qed.

(** A check-in is decided only after 60 seconds of silence and below
    the maximum of warnings. *)
Lemma poll_check_in_inv t s m :
  poll_decision t s m = PollCheckIn ->
  is_active s = false
  /\ (60000 <= t - last_user_activity m)%Z
  /\ (silence_warnings m < max_silence_warnings m)%Z.
Proof.
  unfold poll_decision.
  destruct (is_active s); [discriminate|].
  destruct (_ && _); [discriminate|].
  destruct (Z.leb_spec 60000 (t - last_user_activity m)); cbn [andb].
  - destruct (Z.ltb_spec (silence_warnings m) (max_silence_warnings m)); [auto|].
    destruct (_ <=? _)%Z; discriminate.
  - destruct (_ <=? _)%Z; discriminate.
Qed.

Lemma poll_passive_inv t s m :
  poll_decision t s m = PollPassive -> (300000 <= t - last_user_activity m)%Z.
Proof.
  unfold poll_decision.
  destruct (is_active s); [discriminate|].
  destruct (_ && _); [discriminate|].
  destruct (_ && _); [discriminate|].
  destruct (Z.leb_spec 300000 (t - last_user_activity m)); [auto | discriminate].
Qed.

(** Only a poll of the monitor that decides to check in adds a
    check-in. *)
Lemma check_in_step w ev w' :
  step w ev = Some w' ->
  check_ins w' <> check_ins w ->
  exists say_ok d,
    ev = EvMonitor say_ok /\ mon_pc (mon w) = MonSleeping d
    /\ poll_decision (now w) (cs w) (mon w) = PollCheckIn
    /\ silence_warnings (mon w') = (silence_warnings (mon w) + 1)%Z
    /\ mon_pc (mon w') = MonSaying (now w)
    /\ now w' = now w.
Proof.
  intros H Hne. pose proof (step_frame w ev w' H) as Hf.
  destruct ev; try (destruct Hf as (_ & _ & Hf); congruence); cbn [step] in H.
  - destruct (0 <=? dt)%Z; [|discriminate]. injection H as <-. contradiction Hne. reflexivity.
  - apply monitor_resume_cases in H as (Hn & _ & _ & _ & Hc).
    destruct Hc as [(d & Hpc & Hp & _ & Hw & _ & Hpc')
                   |[(d & _ & _ & Hs & _)|[(ct & _ & Hs & _)|(_ & _ & Hs & _)]]];
      try (contradiction Hne; unfold check_ins; rewrite Hs; reflexivity).
    exists say_ok, d. auto 10.
  - injection H as <-. contradiction Hne. reflexivity.
  - injection H as <-. contradiction Hne. reflexivity.
  - injection H as <-. contradiction Hne. reflexivity.
Qed.

(** C6. In every state a session reaches, a resumption of the monitor
    while an operation is active, or less than 45 seconds after the
    last completion, speaks nothing; and when that resumption is a poll
    (the monitor was in its 30-second sleep) it leaves the counter of
    warnings and the two activity times as they were. *)
Theorem monitor_idle_suppression t0 sess info evs w say_ok w' :
  (0 <= t0)%Z ->
  run (initial_world t0 sess info) evs = Some w ->
  step w (EvMonitor say_ok) = Some w' ->
  (is_active (cs w) = true
   \/ exists t, last_completed (cs w) = Some t /\ (now w - t < 45000)%Z) ->
  spoken w' = spoken w
  /\ forall d, mon_pc (mon w) = MonSleeping d ->
       silence_warnings (mon w') = silence_warnings (mon w)
       /\ last_user_activity (mon w') = last_user_activity (mon w)
       /\ last_agent_response (mon w') = last_agent_response (mon w)
       /\ max_silence_warnings (mon w') = max_silence_warnings (mon w).
Proof.
  intros H0 Hrun Hstep Hcond.
  destruct (monitor_sane_reachable _ _ _ _ _ H0 Hrun) as (_ & Hl & _).
  pose proof (poll_decision_quiet (now w) (cs w) (mon w) Hl Hcond) as Hq.
  cbn [step] in Hstep. apply monitor_resume_cases in Hstep as (_ & _ & Hmax & _ & Hc).
  destruct Hc as [(d & _ & Hp & _)|[(d & _ & Hp & _)
                 |[(ct & Hpc & Hs & _)|(_ & _ & Hs & Hw & Hlu & Hla & _)]]].
  - rewrite Hp in Hq. destruct Hq; discriminate.
  - rewrite Hp in Hq. destruct Hq; discriminate.
  - split; [exact Hs|]. intros d Hd. congruence.
  - split; [exact Hs|]. intros d _. auto.
Qed.

Lemma rearmed_step t1 w ev w' : rearmed t1 w -> step w ev = Some w' -> rearmed t1 w'.
Proof.
  intros (Hn & Hpc) H. unfold rearmed.
  pose proof (step_now_mono w ev w' H) as Hmono.
  split; [lia|].
  pose proof (step_frame w ev w' H) as Hf.
  destruct ev; try (destruct Hf as (-> & _); exact Hpc); cbn [step] in H.
  - destruct (0 <=? dt)%Z; [|discriminate]. injection H as <-. exact Hpc.
  - apply monitor_resume_cases in H as (_ & _ & _ & Hns & Hc).
    destruct Hc as [(d & E & _ & _ & _ & _ & ->)
                   |[(d & E & _ & _ & _ & -> & Hno)
                   |[(ct & E & _ & _ & -> & Hno)|(Hno' & _ & _ & _ & -> & _ & Hno)]]].
    + lia.
    + destruct (mon_pc (mon w')); first [lia | exact I | exfalso; eapply Hno; reflexivity].
    + rewrite E in Hpc.
      destruct (mon_pc (mon w')); first [lia | exact I | exfalso; eapply Hno; reflexivity].
    + destruct (mon_pc (mon w)) eqn:E;
        [ | |exfalso; eapply Hno'; reflexivity|contradiction Hns; reflexivity];
        (destruct (mon_pc (mon w'));
         first [lia | exact I | exfalso; eapply Hno; reflexivity]).
  - injection H as <-. monitor_fields. destruct (mon_pc (mon w)); auto; lia.
  - injection H as <-. monitor_fields. exact Hpc.
  - injection H as <-. monitor_fields. exact I.
Qed.

(** The counter of warnings is lowered only by user activity and by the
    poll that finds 300 seconds of silence, and then to zero. *)
Lemma warnings_lowered w ev w' :
  step w ev = Some w' ->
  (silence_warnings (mon w') < silence_warnings (mon w))%Z ->
  silence_warnings (mon w') = 0%Z
  /\ (ev = EvUserActivity
      \/ exists say_ok, ev = EvMonitor say_ok
           /\ (300000 <= now w - last_user_activity (mon w))%Z).
Proof.
  intros H Hlt. pose proof (step_frame w ev w' H) as Hf.
  destruct ev; try (destruct Hf as (Hf & _); rewrite Hf in Hlt; lia); cbn [step] in H.
  - destruct (0 <=? dt)%Z; [|discriminate]. injection H as <-. cbn in Hlt. lia.
  - apply monitor_resume_cases in H as (_ & _ & _ & _ & Hc).
    destruct Hc as [(d & _ & _ & _ & Hw & _)
                   |[(d & _ & Hp & _ & Hw & _)
                   |[(ct & _ & _ & Hw & _)|(_ & _ & _ & Hw & _)]]]; try lia.
    split; [exact Hw|]. right. exists say_ok. split; [reflexivity|].
    apply (poll_passive_inv _ _ _ Hp).
  - injection H as <-. split; [reflexivity | left; reflexivity].
  - injection H as <-. cbn in Hlt. lia.
  - injection H as <-. cbn in Hlt. lia.
Qed.

Lemma warnings_kept_tail w ev evs w1 :
  step w ev = Some w1 -> warnings_kept w (ev :: evs) ->
  (silence_warnings (mon w) <= silence_warnings (mon w1))%Z /\ warnings_kept w1 evs.
Proof.
  intros H Hk. split.
  - apply (Hk [] ev evs w w1); [reflexivity | reflexivity | exact H].
  - intros evs1 ev' evs2 wa wb -> Hrun Hstep.
    apply (Hk (ev :: evs1) ev' evs2 wa wb); [reflexivity | | exact Hstep].
    cbn [run]. rewrite H. exact Hrun.
Qed.

(** With the maximum of one warning, no check-in is spoken while the
    counter stays at one or more. *)
Lemma no_check_in_while_warned evs : forall w w',
  monitor_sane w -> (1 <= silence_warnings (mon w))%Z ->
  run w evs = Some w' -> warnings_kept w evs ->
  check_ins w' = check_ins w.
Proof.
  induction evs as [|ev evs IH]; intros w w' Hs Hw Hrun Hk.
  - injection Hrun as <-. reflexivity.
  - cbn [run] in Hrun. destruct (step w ev) as [w1|] eqn:E; [|discriminate].
    cbn [mbind option_bind] in Hrun.
    destruct (warnings_kept_tail _ _ _ _ E Hk) as (Hle & Hk1).
    rewrite (IH w1 w' (monitor_sane_step _ _ _ Hs E) ltac:(lia) Hrun Hk1).
    destruct (decide (check_ins w1 = check_ins w)) as [Heq|Hne]; [exact Heq|].
    destruct (check_in_step _ _ _ E Hne) as (ok & d & _ & _ & Hp & _).
    apply poll_check_in_inv in Hp as (_ & _ & Hlt).
    destruct Hs as (_ & _ & Hmax & _). lia.
Qed.

(** C7. When the monitor speaks a check-in at time [t1] it increments
    its counter of warnings and, once the utterance has ended, sets the
    last user activity to [t1]. Whatever happens next, a later check-in
    is spoken only at a time 60 seconds or more after [t1]; and since
    the maximum is one warning, no later check-in is spoken at all as
    long as the counter is not lowered, which only user activity and
    the poll that finds 300 seconds of silence do. *)
Theorem monitor_rearm t0 sess info pre w0 say_ok w1 :
  (0 <= t0)%Z ->
  run (initial_world t0 sess info) pre = Some w0 ->
  step w0 (EvMonitor say_ok) = Some w1 ->
  check_ins w1 = S (check_ins w0) ->
  (silence_warnings (mon w1) = (silence_warnings (mon w0) + 1)%Z
   /\ max_silence_warnings (mon w1) = 1%Z
   /\ mon_pc (mon w1) = MonSaying (now w0)
   /\ (60000 <= now w0 - last_user_activity (mon w0))%Z)
  /\ (forall w ok w', mon_pc (mon w) = MonSaying (now w0) ->
        step w (EvMonitor ok) = Some w' -> last_user_activity (mon w') = now w0)
  /\ (forall evs w2 ev w3, run w1 evs = Some w2 -> step w2 ev = Some w3 ->
        check_ins w3 = S (check_ins w2) -> (now w0 + 60000 <= now w2)%Z)
  /\ (forall evs w2, run w1 evs = Some w2 -> warnings_kept w1 evs ->
        check_ins w2 = check_ins w1)
  /\ (forall w ev w', step w ev = Some w' ->
        (silence_warnings (mon w') < silence_warnings (mon w))%Z ->
        silence_warnings (mon w') = 0%Z
        /\ (ev = EvUserActivity
            \/ exists ok, ev = EvMonitor ok
                 /\ (300000 <= now w - last_user_activity (mon w))%Z)).
Proof.
  intros H0 Hpre Hstep Hci.
  pose proof (monitor_sane_reachable _ _ _ _ _ H0 Hpre) as Hs0.
  pose proof (monitor_sane_step _ _ _ Hs0 Hstep) as Hs1.
  destruct (check_in_step _ _ _ Hstep ltac:(lia)) as (ok & d & _ & Hpc & Hp & Hw & Hpc1 & Hn).
  destruct (poll_check_in_inv _ _ _ Hp) as (_ & Hsil & Hlt).
  split; [|split; [|split; [|split]]].
  - destruct Hs1 as (_ & _ & Hmax & _). auto.
  - intros w ok' w' Hsay H. cbn [step] in H.
    apply monitor_resume_cases in H as (_ & _ & _ & _ & Hc).
    destruct Hc as [(d' & E & _)|[(d' & E & _)|[(ct & E & _ & _ & Hl & _)|(Hno & _)]]];
      first [congruence | exfalso; eapply Hno; exact Hsay].
  - intros evs w2 ev w3 Hrun Hstep2 Hci2.
    assert (Hr : rearmed (now w0) w2).
    { eapply (run_invariant (rearmed (now w0))); [| |exact Hrun].
      - intros; eapply rearmed_step; eassumption.
      - unfold rearmed. rewrite Hpc1, Hn. split; lia. }
    destruct (check_in_step _ _ _ Hstep2 ltac:(lia)) as (ok2 & d2 & _ & Hpc2 & Hp2 & _).
    destruct (poll_check_in_inv _ _ _ Hp2) as (_ & Hsil2 & _).
    destruct Hr as (_ & Hr). rewrite Hpc2 in Hr. lia.
  - intros evs w2 Hrun Hk.
    destruct Hs0 as (_ & _ & _ & Hw0 & _).
    apply (no_check_in_while_warned evs w1 w2 Hs1 ltac:(lia) Hrun Hk).
  - intros w ev w'. apply warnings_lowered.
Qed.

End MonitorFacts.

Lemma monitor_idle_suppression_witness :
  let evs := [EvQuery (py "precio"); EvMonitor true; EvAdvance 30000] in
  let w := default (initial_world 0 true anonymous)
             (@run ascii_unicode (initial_world 0 true anonymous) evs) in
  let w' := default w (@step ascii_unicode w (EvMonitor true)) in
  is_active (cs w) = true /\ mon_pc (mon w) = MonSleeping 30000 /\ spoken w' = spoken w.
Proof.
  intros evs w w'.
  split; [vm_compute; reflexivity|]. split; [vm_compute; reflexivity|].
  refine (proj1 (@monitor_idle_suppression ascii_unicode 0%Z true anonymous evs w true w'
                   _ _ _ _)).
  - lia.
  - vm_compute. reflexivity.
  - vm_compute. reflexivity.
  - left. vm_compute. reflexivity.
Defined.


Lemma monitor_rearm_witness :
  let pre := [EvMonitor true; EvAdvance 30000; EvMonitor true; EvAdvance 30000] in
  let w0 := default (initial_world 0 true anonymous)
              (@run ascii_unicode (initial_world 0 true anonymous) pre) in
  let w1 := default w0 (@step ascii_unicode w0 (EvMonitor true)) in
  check_ins w1 = S (check_ins w0)
  /\ now w0 = 60000%Z
  /\ silence_warnings (mon w1) = (silence_warnings (mon w0) + 1)%Z.
Proof.
  intros pre w0 w1.
  assert (Hc : check_ins w1 = S (check_ins w0)) by (vm_compute; reflexivity).
  split; [exact Hc|]. split; [vm_compute; reflexivity|].
  refine (proj1 (proj1 (@monitor_rearm ascii_unicode 0%Z true anonymous pre w0 true w1
                          _ _ _ Hc))).
  - lia.
  - vm_compute. reflexivity.
  - vm_compute. reflexivity.
Defined.

(** ** The coordinator *)

Lemma set_caller_lookup c st w :
  c < length (callers w) -> callers (set_caller c st w) !! c = Some st.
Proof. intros H. unfold set_caller. cbn [callers with_callers]. apply list_lookup_insert_eq, H. Qed.


Lemma running_feedback_alive w f :
  running_feedback w = Some f ->
  feedback_task (cs w) = Some f /\ ticker_alive f w.
Proof.
  unfold running_feedback, ticker_alive. intros H.
  destruct (feedback_task (cs w)) as [f'|]; [|discriminate].
  destruct (tickers w !! f') as [tk|] eqn:E; [|discriminate].
  destruct (ticker_done tk) eqn:Ed; [discriminate|].
  injection H as <-. eauto.
Qed.

(** [cancel()] leaves a task that is alive still alive, with the
    cancellation pending. *)
Lemma cancel_ticker_alive f w :
  ticker_alive f w -> ticker_cancelling f (cancel_ticker f w).
Proof.
  intros (tk & Htk & Hd). unfold ticker_cancelling, cancel_ticker.
  rewrite Htk, Hd. cbn [tickers set_ticker with_tickers].
  eexists. split; [apply list_lookup_insert_eq; eapply lookup_lt_Some, Htk|].
  split; [exact Hd | reflexivity].
Qed.


Section CoordinatorFacts.
Context {U : PyUnicode}.



(** The call that created an operation resumes into [finally]. *)
Lemma creator_resumes w c a t r :
  callers w !! c = Some (CAwaiting a t) ->
  backends w !! t = Some (BDone r) ->
  caller_resume c w
  = let ret := outcome_utterance (args_op a) (is_some_time (start_time (cs w))) r in
    Some (match running_feedback w with
          | Some f => set_caller c (CCleaning f ret) (cancel_ticker f w)
          | None => set_caller c (CFinished (Returned ret))
                      (with_cs (idle_state (Some (now w))) w)
          end).
Proof.
  intros Hc Hb. unfold caller_resume, teardown, finish_teardown.
  rewrite Hc. cbn [mbind option_bind]. rewrite Hb. cbn [mbind option_bind].
  destruct (running_feedback w); reflexivity.
Qed.



End CoordinatorFacts.
(** ** Single flight *)

(** [single_flight] looks at the activity flag, the task handle, the
    backend tasks and the calls only. *)
Lemma single_flight_core w w' :
  is_active (cs w') = is_active (cs w) -> task (cs w') = task (cs w) ->
  backends w' = backends w -> callers w' = callers w ->
  single_flight w -> single_flight w'.
Proof.
  unfold single_flight, outstanding. intros -> -> -> ->. exact (fun H => H).
Qed.

(** A backend task that was not done changes status, not to a
    cancellation. *)
Lemma single_flight_backend w b old st :
  backends w !! b = Some old -> backend_done old = false ->
  st <> BDone (Raised CancelledError) ->
  single_flight w -> single_flight (set_backend b st w).
Proof.
  intros Hold Hnd Hst (HA & HB & HC & HD & HE & HG).
  assert (Hlt : b < length (backends w)) by (eapply lookup_lt_Some, Hold).
  unfold single_flight, outstanding. cbn [set_backend with_backends backends cs callers].
  split; [|split; [|split; [|split; [|split]]]].
  - intros b' (st' & Hb' & Hd'). destruct (decide (b = b')) as [<-|Hne].
    + apply HA. exists old. split; assumption.
    + rewrite list_lookup_insert_ne in Hb' by exact Hne. apply HA.
      exists st'. split; assumption.
  - exact HB.
  - intros c f ret Hc. destruct (HC c f ret Hc) as (Ha & t & r & Ht & Hr).
    split; [exact Ha|]. exists t, r. split; [exact Ht|].
    destruct (decide (b = t)) as [->|Hne];
      [rewrite Hr in Hold; injection Hold as <-; discriminate|].
    rewrite list_lookup_insert_ne by exact Hne. exact Hr.
  - exact HD.
  - intros b'. destruct (decide (b = b')) as [<-|Hne].
    + rewrite list_lookup_insert_eq by exact Hlt. congruence.
    + rewrite list_lookup_insert_ne by exact Hne. apply HE.
  - intros Ha. destruct (HG Ha) as (t & st' & Ht & Hst').
    exists t. destruct (decide (b = t)) as [->|Hne].
    + exists st. split; [exact Ht|]. apply list_lookup_insert_eq, Hlt.
    + exists st'. split; [exact Ht|]. rewrite list_lookup_insert_ne by exact Hne. exact Hst'.
Qed.

(** The calls change, and every call that now owns an operation owned
    it before in the same way. *)
Lemma single_flight_callers w l :
  (forall c st, l !! c = Some st -> owns_operation st -> callers w !! c = Some st) ->
  single_flight w -> single_flight (with_callers l w).
Proof.
  intros Hl (HA & HB & HC & HD & HE & HG).
  unfold single_flight, outstanding. cbn [with_callers backends cs callers].
  split; [|split; [|split; [|split; [|split]]]]; auto.
  - intros c a t Hc. eapply HB, Hl; [exact Hc | exact I].
  - intros c f ret Hc. eapply HC, Hl; [exact Hc | exact I].
  - intros c1 c2 st1 st2 H1 H2 O1 O2. eapply HD; eauto.
Qed.

Lemma single_flight_set_caller w c st :
  ~ owns_operation st -> single_flight w -> single_flight (set_caller c st w).
Proof.
  intros Hst. apply single_flight_callers. intros c' st' Hc Ho.
  destruct (decide (c = c')) as [<-|Hne].
  - destruct (decide (c < length (callers w))) as [Hlt|Hge].
    + rewrite list_lookup_insert_eq in Hc by exact Hlt. congruence.
    + rewrite list_insert_ge in Hc by lia. exact Hc.
  - rewrite list_lookup_insert_ne in Hc by exact Hne. exact Hc.
Qed.

Lemma single_flight_new_call w st :
  ~ owns_operation st -> single_flight w -> single_flight (new_call st w).
Proof.
  intros Hst. apply single_flight_callers. intros c' st' Hc Ho.
  apply lookup_app_Some in Hc as [Hc|(_ & Hc)]; [exact Hc|].
  apply list_lookup_singleton_Some in Hc as (_ & <-). contradiction.
Qed.

(** While no operation is active, or the active one has no task, no
    call owns an operation and no backend task is outstanding. *)
Lemma single_flight_idle w :
  single_flight w -> is_active (cs w) = false \/ task (cs w) = None ->
  (forall c st, callers w !! c = Some st -> ~ owns_operation st)
  /\ (forall b, ~ outstanding b w).
Proof.
  intros (HA & HB & HC & HD & HE & HG) Hidle. split.
  - intros c st Hc Ho. destruct st as [a|a t|a t|f ret|r]; try contradiction.
    + destruct (HB c a t Hc) as (Ha & Ht). destruct Hidle; congruence.
    + destruct (HC c f ret Hc) as (Ha & t & r & Ht & _). destruct Hidle; congruence.
  - intros b Hb. destruct (HA b Hb) as (Ha & Ht). destruct Hidle; congruence.
Qed.

(** A new operation is started from such a state by the call [c]. *)
Lemma single_flight_started a w l c :
  single_flight w -> is_active (cs w) = false \/ task (cs w) = None ->
  l !! c = Some (snd (start_operation a w)) ->
  (forall c' x, c' <> c -> l !! c' = Some x -> callers w !! c' = Some x) ->
  single_flight (with_callers l (fst (start_operation a w))).
Proof.
  intros Hsf Hidle Hlc Hl.
  destruct (single_flight_idle w Hsf Hidle) as (Hno & Hnb).
  destruct Hsf as (HA & HB & HC & HD & HE & HG).
  assert (Hown : forall c' x, l !! c' = Some x -> owns_operation x -> c' = c).
  { intros c' x Hx Ho. destruct (decide (c' = c)) as [->|Hne]; [reflexivity|].
    exfalso. eapply Hno; [eapply Hl; eassumption | exact Ho]. }
  unfold single_flight, outstanding.
  cbn [start_operation fst snd with_callers with_backends with_tickers with_cs
       backends cs callers is_active task] in *.
  split; [|split; [|split; [|split; [|split]]]].
  - intros b (st & Hb & Hd). split; [reflexivity|]. f_equal.
    apply lookup_app_Some in Hb as [Hb|(Hge & Hb)].
    + exfalso. apply (Hnb b). exists st. split; assumption.
    + apply list_lookup_singleton_Some in Hb as (Hb & _). lia.
  - intros c' a' t' Hc'. split; [reflexivity|].
    rewrite (Hown c' _ Hc' I) in Hc'. congruence.
  - intros c' f ret Hc'. rewrite (Hown c' _ Hc' I) in Hc'. congruence.
  - intros c1 c2 st1 st2 H1 H2 O1 O2.
    rewrite (Hown c1 _ H1 O1), (Hown c2 _ H2 O2). reflexivity.
  - intros b Hb. apply lookup_app_Some in Hb as [Hb|(_ & Hb)].
    + exact (HE b Hb).
    + apply list_lookup_singleton_Some in Hb as (_ & Hb). discriminate.
  - intros _. eexists _, _. split; [reflexivity|].
    rewrite lookup_app_r by lia. rewrite Nat.sub_diag. reflexivity.
Qed.

(** A call enters [if consultation_state["is_active"]]. *)
Lemma single_flight_enter a w w' st l c :
  single_flight w -> enter_operation a w = Some (w', st) ->
  l !! c = Some st ->
  (forall c' x, c' <> c -> l !! c' = Some x -> callers w !! c' = Some x) ->
  single_flight (with_callers l w').
Proof.
  intros Hsf He Hlc Hl. unfold enter_operation in He.
  destruct (is_active (cs w)) eqn:Ea.
  - set (w1 := match running_feedback w with Some f => cancel_ticker f w | None => w end) in *.
    set (w2 := with_cs (supersede a (cs w1)) w1) in *.
    assert (Hcore : is_active (cs w2) = is_active (cs w) /\ task (cs w2) = task (cs w)
                    /\ backends w2 = backends w /\ callers w2 = callers w).
    { subst w2 w1. destruct (running_feedback w) as [f|]; [|repeat split; reflexivity].
      destruct (cancel_ticker_frame f w) as (_ & _ & _ & Hc & _ & Hb & Hs).
      cbn [with_cs cs backends callers supersede is_active task].
      rewrite Hs, Hb, Hc. repeat split; reflexivity. }
    destruct Hcore as (H1 & H2 & H3 & H4).
    pose proof (single_flight_core w w2 H1 H2 H3 H4 Hsf) as Hsf2.
    assert (Hnon : ~ owns_operation st -> single_flight (with_callers l w2)).
    { intros Hst. apply single_flight_callers; [|exact Hsf2].
      intros c' x Hx Ho. destruct (decide (c' = c)) as [->|Hne].
      - rewrite Hlc in Hx. injection Hx as <-. contradiction.
      - rewrite H4. eapply Hl; eassumption. }
    destruct (task (cs w2)) as [t|] eqn:Et.
    + destruct (backends w2 !! t) as [bst|] eqn:Eb; cbn [mbind option_bind] in He;
        [|discriminate].
      destruct bst as [co|co p|[v|e]].
      * injection He as <- <-. apply Hnon. exact (fun H => H).
      * injection He as <- <-. apply Hnon. exact (fun H => H).
      * injection He as <- <-. apply Hnon. exact (fun H => H).
      * destruct Hsf2 as (_ & _ & _ & _ & HE & _).
        destruct e; try (injection He as <- <-; apply Hnon; exact (fun H => H)).
        exfalso. exact (HE t Eb).
    + injection He as <- <-.
      apply (single_flight_started a w2 l c Hsf2 (or_intror Et)).
      * exact Hlc.
      * intros c' x Hne Hx. rewrite H4. eapply Hl; eassumption.
  - injection He as <- <-.
    apply (single_flight_started a w l c Hsf (or_introl Ea) Hlc Hl).
Qed.

(** The call that owns the operation ends its [finally]. *)
Lemma single_flight_finished w c st x r :
  single_flight w -> callers w !! c = Some st -> owns_operation st ->
  (forall a t, st = CAwaiting a t -> exists r', backends w !! t = Some (BDone r')) ->
  single_flight (set_caller c (CFinished r) (with_cs (idle_state x) w)).
Proof.
  intros (HA & HB & HC & HD & HE & HG) Hc Ho Hdone.
  assert (Hlt : c < length (callers w)) by (eapply lookup_lt_Some, Hc).
  assert (Hnb : forall b, ~ outstanding b w).
  { intros b Hb. destruct (HA b Hb) as (_ & Ht).
    destruct Hb as (bst & Hb & Hd).
    destruct st as [a|a t|a t|f ret|r0]; try contradiction.
    - destruct (HB c a t Hc) as (_ & Ht'). destruct (Hdone a t eq_refl) as (r' & Hr').
      assert (b = t) by congruence. subst b. rewrite Hr' in Hb. injection Hb as <-. discriminate.
    - destruct (HC c f ret Hc) as (_ & t & r' & Ht' & Hr').
      assert (b = t) by congruence. subst b. rewrite Hr' in Hb. injection Hb as <-. discriminate. }
  assert (Hown : forall c' y, <[c := CFinished r]> (callers w) !! c' = Some y ->
                   ~ owns_operation y).
  { intros c' y Hy Hoy. destruct (decide (c = c')) as [<-|Hne].
    - rewrite list_lookup_insert_eq in Hy by exact Hlt. injection Hy as <-. contradiction.
    - rewrite list_lookup_insert_ne in Hy by exact Hne.
      apply Hne. eapply HD; eassumption. }
  unfold single_flight, outstanding.
  cbn [set_caller with_callers with_cs backends cs callers idle_state is_active task].
  split; [|split; [|split; [|split; [|split]]]].
  - intros b Hb. exfalso. exact (Hnb b Hb).
  - intros c' a t Hc'. exfalso. exact (Hown c' _ Hc' I).
  - intros c' f ret Hc'. exfalso. exact (Hown c' _ Hc' I).
  - intros c1 c2 st1 st2 H1 _ O1 _. exfalso. exact (Hown c1 _ H1 O1).
  - exact HE.
  - discriminate.
Qed.

(** The call that owns the operation enters its [finally] and waits for
    the feedback task. *)
Lemma single_flight_cleaning w c a t r f ret :
  single_flight w -> callers w !! c = Some (CAwaiting a t) ->
  backends w !! t = Some (BDone r) ->
  single_flight (set_caller c (CCleaning f ret) w).
Proof.
  intros (HA & HB & HC & HD & HE & HG) Hc Hb.
  assert (Hlt : c < length (callers w)) by (eapply lookup_lt_Some, Hc).
  destruct (HB c a t Hc) as (Ha & Ht).
  assert (Hold : forall c' y, <[c := CCleaning f ret]> (callers w) !! c' = Some y ->
                   owns_operation y -> c' = c).
  { intros c' y Hy Hoy. destruct (decide (c = c')) as [<-|Hne]; [reflexivity|].
    rewrite list_lookup_insert_ne in Hy by exact Hne.
    eapply HD; [exact Hy | exact Hc | exact Hoy | exact I]. }
  unfold single_flight, outstanding.
  cbn [set_caller with_callers backends cs callers].
  split; [|split; [|split; [|split; [|split]]]]; auto.
  - intros c' a' t' Hc'. rewrite (Hold c' _ Hc' I) in Hc'.
    rewrite list_lookup_insert_eq in Hc' by exact Hlt. discriminate.
  - intros c' f' ret' Hc'. split; [exact Ha|]. exists t, r. auto.
  - intros c1 c2 st1 st2 H1 H2 O1 O2.
    rewrite (Hold c1 _ H1 O1), (Hold c2 _ H2 O2). reflexivity.
Qed.

Lemma single_flight_caller_resume c w w' :
  single_flight w -> caller_resume c w = Some w' -> single_flight w'.
Proof.
  intros Hsf H. unfold caller_resume in H.
  destruct (callers w !! c) as [[a|a t|a t|f ret|r]|] eqn:Ec; cbn [mbind option_bind] in H;
    try discriminate.
  - destruct (backends w !! t) as [[co|co p|[v|e]]|] eqn:Eb; cbn [mbind option_bind] in H;
      try discriminate.
    + injection H as <-. apply single_flight_set_caller; [exact (fun H => H) | exact Hsf].
    + destruct e; try (injection H as <-;
        apply single_flight_set_caller; [exact (fun H => H) | exact Hsf]).
      exfalso. destruct Hsf as (_ & _ & _ & _ & HE & _). exact (HE t Eb).
  - destruct (backends w !! t) as [[co|co p|r]|] eqn:Eb; cbn [mbind option_bind] in H;
      try discriminate.
    unfold teardown, finish_teardown in H.
    destruct (running_feedback w) as [f|]; injection H as <-.
    + destruct (cancel_ticker_frame f w) as (_ & _ & _ & Hc & _ & Hb & Hs).
      apply (single_flight_cleaning _ c a t r).
      * apply (single_flight_core w); try assumption; rewrite Hs; reflexivity.
      * rewrite Hc. exact Ec.
      * rewrite Hb. exact Eb.
    + apply (single_flight_finished w c (CAwaiting a t)); try assumption; [exact I|].
      intros a' t' [= <- <-]. eauto.
  - destruct (tickers w !! f) as [tk|]; cbn [mbind option_bind] in H; try discriminate.
    destruct (ticker_done tk); [|discriminate].
    unfold finish_teardown in H. injection H as <-.
    apply (single_flight_finished w c (CCleaning f ret)); try assumption; [exact I|].
    intros a' t' [=].
Qed.

Lemma backend_finish_not_cancelled co reply :
  backend_finish co reply <> Raised CancelledError.
Proof.
  unfold backend_finish, query_answer, scheduling_answer.
  repeat case_match; discriminate.
Qed.

Lemma ticker_resume_core f ok pick w w' :
  ticker_resume f ok pick w = Some w' ->
  is_active (cs w') = is_active (cs w) /\ task (cs w') = task (cs w)
  /\ feedback_task (cs w') = feedback_task (cs w).
Proof.
  unfold ticker_resume. intros H.
  destruct (tickers w !! f) as [tk|]; cbn [mbind option_bind] in H; [|discriminate].
  assert (Hact : forall tk' act w0,
            is_active (cs w0) = is_active (cs w) -> task (cs w0) = task (cs w) ->
            feedback_task (cs w0) = feedback_task (cs w) ->
            Some (ticker_act f tk' act w0) = Some w' ->
            is_active (cs w') = is_active (cs w) /\ task (cs w') = task (cs w)
            /\ feedback_task (cs w') = feedback_task (cs w)).
  { intros tk' act w0 H1 H2 H3 [= <-]. destruct act; cbn; auto. }
  destruct (tk_pc tk) as [|st d|st|]; try discriminate.
  - destruct (tk_cancel tk); eapply (Hact _ _ w); try reflexivity; exact H.
  - destruct (tk_cancel tk); [eapply (Hact _ _ w); try reflexivity; exact H|].
    destruct (now w <? d)%Z; [discriminate|].
    eapply (Hact _ _ w); try reflexivity; exact H.
  - destruct (tk_cancel tk); [eapply (Hact _ _ w); try reflexivity; exact H|].
    destruct ok; [|eapply (Hact _ _ w); try reflexivity; exact H].
    cbv zeta in H. eapply Hact; [| | |exact H]; reflexivity.
Qed.

Section SingleFlight.
Context {U : PyUnicode}.

(** Every transition but a cancellation from outside keeps
    [single_flight]. *)
Lemma single_flight_step w ev w' :
  single_flight w -> step w ev = Some w' -> (forall b, ev <> EvBackendCancel b) ->
  single_flight w'.
Proof.
  intros Hsf H Hnc. destruct ev; cbn [step] in H.
  - destruct (0 <=? dt)%Z; [|discriminate]. injection H as <-.
    apply (single_flight_core w); auto.
  - unfold query_knowledge_base in H.
    destruct (enter_operation _ w) as [[w1 st]|] eqn:E; [|discriminate].
    injection H as <-. unfold new_call.
    pose proof (enter_operation_frame _ _ _ _ E) as (_ & _ & _ & Hc & _).
    apply (single_flight_enter _ w w1 st _ (length (callers w)) Hsf E).
    + rewrite Hc. rewrite lookup_app_r by lia. rewrite Nat.sub_diag. reflexivity.
    + intros c' x Hne Hx. rewrite Hc in Hx.
      apply lookup_app_Some in Hx as [Hx|(Hge & Hx)]; [exact Hx|].
      apply list_lookup_singleton_Some in Hx as (Hx & _). lia.
  - injection H as <-. unfold schedule_appointment.
    repeat case_match; apply single_flight_new_call; try exact (fun H => H); try exact Hsf.
    all: apply (single_flight_core w); auto.
  - unfold confirmed in H.
    destruct (callers w !! c) as [[a|a t|a t|f ret|r]|] eqn:Ec; cbn [mbind option_bind] in H;
      try discriminate.
    assert (Hlt : c < length (callers w)) by (eapply lookup_lt_Some, Ec).
    destruct say_ok.
    + destruct (enter_operation _ w) as [[w1 st]|] eqn:E; [|discriminate].
      injection H as <-. unfold set_caller.
      pose proof (enter_operation_frame _ _ _ _ E) as (_ & _ & _ & Hc & _).
      apply (single_flight_enter _ w w1 st _ c Hsf E).
      * rewrite Hc. apply list_lookup_insert_eq, Hlt.
      * intros c' x Hne Hx. rewrite Hc in Hx.
        rewrite list_lookup_insert_ne in Hx by congruence. exact Hx.
    + injection H as <-. apply single_flight_set_caller; [exact (fun H => H) | exact Hsf].
  - eapply single_flight_caller_resume; eassumption.
  - unfold backend_run in H.
    destruct (backends w !! b) as [[co|co p|r]|] eqn:Eb; cbn [mbind option_bind] in H;
      try discriminate.
    destruct (backend_begin _ _ _ _) as [r|p] eqn:Eg; injection H as <-.
    + apply (single_flight_backend w b (BCreated co)); auto.
      unfold backend_begin in Eg. repeat case_match; try discriminate;
        injection Eg as <-; discriminate.
    + apply (single_flight_core (set_backend b (BPosting co p) w)); auto.
      apply (single_flight_backend w b (BCreated co)); auto; discriminate.
  - unfold backend_reply in H.
    destruct (backends w !! b) as [[co|co p|r]|] eqn:Eb; cbn [mbind option_bind] in H;
      try discriminate.
    injection H as <-. apply (single_flight_backend w b (BPosting co p)); auto.
    intros [= Hf]. exact (backend_finish_not_cancelled _ _ Hf).
  - exfalso. eapply Hnc. reflexivity.
  - pose proof (ticker_resume_frame _ _ _ _ _ H) as (_ & _ & _ & Hc & Hb & _).
    pose proof (ticker_resume_core _ _ _ _ _ H) as (Ha & Ht & _).
    apply (single_flight_core w); auto.
  - pose proof (monitor_resume_cases _ _ _ H) as (_ & Hcs & _).
    apply (single_flight_core w); try (rewrite Hcs; reflexivity); auto.
    + unfold monitor_resume, monitor_loop in H.
      repeat case_match; try discriminate; injection H as <-; reflexivity.
    + unfold monitor_resume, monitor_loop in H.
      repeat case_match; try discriminate; injection H as <-; reflexivity.
  - injection H as <-. apply (single_flight_core w); auto.
  - injection H as <-. apply (single_flight_core w); auto.
  - injection H as <-. apply (single_flight_core w); auto.
Qed.

Lemma single_flight_initial t0 sess info : single_flight (initial_world t0 sess info).
Proof.
  unfold single_flight, outstanding. cbn.
  repeat split; intros; try discriminate.
  all: try match goal with H : exists _, _ |- _ => destruct H as (? & H & _) end.
  all: try match goal with H : _ !! _ = Some _ |- _ => rewrite lookup_nil in H end.
  all: try discriminate.
Qed.

Lemma single_flight_reachable t0 sess info evs w :
  run (initial_world t0 sess info) evs = Some w -> no_cancellation evs -> single_flight w.
Proof.
  generalize (single_flight_initial t0 sess info).
  generalize (initial_world t0 sess info) as w0.
  induction evs as [|ev evs IH]; intros w0 Hsf Hrun Hnc.
  - injection Hrun as <-. exact Hsf.
  - cbn [run] in Hrun. destruct (step w0 ev) as [w1|] eqn:E; [|discriminate].
    cbn [mbind option_bind] in Hrun. apply Forall_cons in Hnc as (Hev & Hnc).
    apply (IH w1); [eapply single_flight_step; eassumption | exact Hrun | exact Hnc].
Qed.

End SingleFlight.
(** ** Calls that find an operation active *)

(** What a call does when it finds an operation active with a task. *)
Lemma enter_operation_active a w t bst :
  is_active (cs w) = true -> task (cs w) = Some t -> backends w !! t = Some bst ->
  exists w2,
    backends w2 = backends w /\ posts w2 = posts w /\ callers w2 = callers w
    /\ is_active (cs w2) = true /\ task (cs w2) = Some t
    /\ current_query (cs w2) = Some (args_query a)
    /\ operation_type (cs w2) = Some (args_op a)
    /\ (forall f, running_feedback w = Some f -> ticker_cancelling f w2)
    /\ enter_operation a w
       = Some (match bst with
               | BDone r => join_outcome a r w2
               | _ => (w2, CJoined a t)
               end).
Proof.
  intros Ha Ht Hb. unfold enter_operation. rewrite Ha.
  set (w1 := match running_feedback w with Some f => cancel_ticker f w | None => w end).
  assert (H1 : backends w1 = backends w /\ posts w1 = posts w /\ callers w1 = callers w
               /\ cs w1 = cs w).
  { subst w1. destruct (running_feedback w) as [f|]; [|repeat split; reflexivity].
    destruct (cancel_ticker_frame f w) as (_ & _ & _ & ? & ? & ? & ?). auto. }
  destruct H1 as (Hb1 & Hp1 & Hc1 & Hs1).
  exists (with_cs (supersede a (cs w1)) w1).
  cbn [with_cs backends posts callers cs supersede is_active task current_query
       operation_type tickers].
  rewrite Hs1, Hb1, Hp1, Hc1, Ha, Ht, Hb. cbn [mbind option_bind].
  repeat split; try reflexivity.
  - intros f Hf. subst w1. rewrite Hf.
    destruct (running_feedback_alive w f Hf) as (_ & Hal).
    destruct (cancel_ticker_alive f w Hal) as (tk & ? & ? & ?). exists tk. auto.
  - destruct bst as [co|co p|r]; reflexivity.
Qed.

Lemma joined_resumes w c a t :
  callers w !! c = Some (CJoined a t) ->
  (outstanding t w -> caller_resume c w = None)
  /\ (forall r, backends w !! t = Some (BDone r) ->
        caller_resume c w
        = Some (set_caller c (snd (join_outcome a r w)) (fst (join_outcome a r w)))).
Proof.
  intros Hc. unfold caller_resume. rewrite Hc. cbn [mbind option_bind]. split.
  - intros (st & -> & Hd). cbn [mbind option_bind]. destruct st; [reflexivity..|discriminate].
  - intros r ->. cbn [mbind option_bind]. destruct (join_outcome a r w). reflexivity.
Qed.

Section JoinFacts.
Context {U : PyUnicode}.

(** C1, as the code has it. In a run in which no backend task is
    cancelled: at most one backend task is outstanding at any time; a
    tool call that finds an operation active creates no backend task and
    posts nothing, and either suspends on the task of that operation or,
    when that task is already done with a value, returns that value; a
    call suspended on the task cannot resume while the task is
    outstanding, and when the task is done with a value it returns that
    value without creating a task. (What a joining call does when the
    task ends with an exception other than a cancellation is not part of
    this statement.) *)
Theorem single_flight_without_cancellation t0 sess info evs w :
  run (initial_world t0 sess info) evs = Some w ->
  no_cancellation evs ->
  (forall b1 b2, outstanding b1 w -> outstanding b2 w -> b1 = b2)
  /\ (forall a w' st,
        is_active (cs w) = true -> enter_operation a w = Some (w', st) ->
        backends w' = backends w /\ posts w' = posts w
        /\ exists t, task (cs w) = Some t
             /\ (outstanding t w /\ st = CJoined a t
                 \/ (exists v, backends w !! t = Some (BDone (Returned v))
                       /\ st = CFinished (Returned v))
                 \/ (exists e, backends w !! t = Some (BDone (Raised e))
                       /\ e <> CancelledError)))
  /\ (forall question w', is_active (cs w) = true ->
        step w (EvQuery question) = Some w' ->
        backends w' = backends w /\ posts w' = posts w)
  /\ (forall c say_ok w', is_active (cs w) = true ->
        step w (EvConfirmed c say_ok) = Some w' ->
        backends w' = backends w /\ posts w' = posts w)
  /\ (forall c a t, callers w !! c = Some (CJoined a t) ->
        (outstanding t w -> step w (EvCaller c) = None)
        /\ (forall v, backends w !! t = Some (BDone (Returned v)) ->
              exists w', step w (EvCaller c) = Some w'
                /\ callers w' !! c = Some (CFinished (Returned v))
                /\ backends w' = backends w /\ posts w' = posts w /\ cs w' = cs w)).
Proof.
  intros Hrun Hnc.
  pose proof (single_flight_reachable _ _ _ _ _ Hrun Hnc) as Hsf.
  destruct Hsf as (HA & HB & HC & HD & HE & HG).
  assert (Henter : forall a w' st,
            is_active (cs w) = true -> enter_operation a w = Some (w', st) ->
            backends w' = backends w /\ posts w' = posts w
            /\ exists t, task (cs w) = Some t
                 /\ (outstanding t w /\ st = CJoined a t
                     \/ (exists v, backends w !! t = Some (BDone (Returned v))
                           /\ st = CFinished (Returned v))
                     \/ (exists e, backends w !! t = Some (BDone (Raised e))
                           /\ e <> CancelledError))).
  { intros a w' st Ha He. destruct (HG Ha) as (t & bst & Ht & Hb).
    destruct (enter_operation_active a w t bst Ha Ht Hb)
      as (w2 & Hb2 & Hp2 & _ & _ & _ & _ & _ & _ & He2).
    rewrite He2 in He.
    destruct bst as [co|co p|[v|e]].
    - injection He as <- <-. split; [exact Hb2|]. split; [exact Hp2|].
      exists t. split; [exact Ht|]. left. split; [|reflexivity].
      eexists. split; [exact Hb | reflexivity].
    - injection He as <- <-. split; [exact Hb2|]. split; [exact Hp2|].
      exists t. split; [exact Ht|]. left. split; [|reflexivity].
      eexists. split; [exact Hb | reflexivity].
    - injection He as <- <-. split; [exact Hb2|]. split; [exact Hp2|].
      exists t. split; [exact Ht|]. right; left. eauto.
    - assert (Hne : e <> CancelledError) by (intros ->; exact (HE t Hb)).
      destruct e; try contradiction; injection He as <- <-;
        (split; [exact Hb2|]); (split; [exact Hp2|]);
        exists t; (split; [exact Ht|]); right; right; eauto. }
  split; [|split; [exact Henter|split; [|split]]].
  - intros b1 b2 H1 H2. destruct (HA b1 H1) as (_ & T1). destruct (HA b2 H2) as (_ & T2).
    congruence.
  - intros question w' Ha Hs. cbn [step] in Hs. unfold query_knowledge_base in Hs.
    destruct (enter_operation _ w) as [[w1 st]|] eqn:E; [|discriminate].
    injection Hs as <-. destruct (Henter _ _ _ Ha E) as (? & ? & _). auto.
  - intros c say_ok w' Ha Hs. cbn [step] in Hs. unfold confirmed in Hs.
    destruct (callers w !! c) as [[a|a t|a t|f ret|r]|]; cbn [mbind option_bind] in Hs;
      try discriminate.
    destruct say_ok; [|injection Hs as <-; auto].
    destruct (enter_operation _ w) as [[w1 st]|] eqn:E; [|discriminate].
    injection Hs as <-. destruct (Henter _ _ _ Ha E) as (? & ? & _). auto.
  - intros c a t Hc. destruct (joined_resumes w c a t Hc) as (Hno & Hyes).
    split; [exact Hno|]. intros v Hv. eexists. split; [cbn [step]; apply Hyes, Hv|].
    cbn [join_outcome fst snd]. split; [|repeat split; reflexivity].
    apply set_caller_lookup. eapply lookup_lt_Some, Hc.
Qed.

End JoinFacts.

Lemma single_flight_without_cancellation_witness :
  no_cancellation overlapping_questions
  /\ outstanding 0 (state_after overlapping_questions)
  /\ forall b1 b2,
       outstanding b1 (state_after overlapping_questions) ->
       outstanding b2 (state_after overlapping_questions) -> b1 = b2.
Proof.
  assert (Hnc : no_cancellation overlapping_questions)
    by (repeat constructor; discriminate).
  split; [exact Hnc|]. split; [eexists; split; vm_compute; reflexivity|].
  refine (proj1 (@single_flight_without_cancellation ascii_unicode 0%Z true anonymous
                   overlapping_questions (state_after overlapping_questions) _ Hnc)).
  vm_compute. reflexivity.
Defined.

(** C1 as it is worded fails. The second question is asked while the
    first operation is active; when the task of that operation is
    cancelled, the second call leaves [except asyncio.CancelledError]
    and starts an operation of its own: a second backend task is
    created and a second request is posted, for the second question. *)
Lemma cancelled_task_restarts :
  let before := state_after overlapping_questions in
  let after := state_after overlapping_cancelled in
  is_active (cs before) = true
  /\ callers before !! 1 = Some (CJoined (QueryArgs (py "horario")) 0)
  /\ length (backends before) = 1
  /\ callers after !! 0 = Some (CFinished (Returned (msg_superseded Rag)))
  /\ callers after !! 1 = Some (CAwaiting (QueryArgs (py "horario")) 1)
  /\ length (backends after) = 2
  /\ posts after = [(0, RagPayload (py "precio") anonymous);
                    (1, RagPayload (py "horario") anonymous)].
Proof. cbv zeta. repeat split; vm_compute; reflexivity. Qed.

(** ** Supersession and the feedback task *)

(** C2 at the failing input. The second call sends [cancel()] to the
    feedback task and goes on without awaiting it: it has overwritten
    the query and is suspended on the backend task while the feedback
    task has not ended. And when the second question arrives just after
    the backend task was cancelled, the second call creates a new
    feedback task while the one it cancelled has not ended: two
    feedback tasks are alive. *)
Lemma supersession_does_not_await :
  let w := state_after overlapping_questions in
  let w' := state_after question_after_cancellation in
  (callers w !! 1 = Some (CJoined (QueryArgs (py "horario")) 0)
   /\ current_query (cs w) = Some (py "horario")
   /\ ticker_cancelling 0 w /\ ~ ticker_ended 0 w)
  /\ (callers w' !! 1 = Some (CAwaiting (QueryArgs (py "horario")) 1)
      /\ ticker_cancelling 0 w' /\ ticker_alive 1 w' /\ feedback_task (cs w') = Some 1).
Proof.
  cbv zeta. split.
  - split; [vm_compute; reflexivity|]. split; [vm_compute; reflexivity|].
    split; [eexists; repeat split; vm_compute; reflexivity|].
    intros (tk & Htk & Hd). vm_compute in Htk. injection Htk as <-. discriminate.
  - split; [vm_compute; reflexivity|].
    split; [eexists; repeat split; vm_compute; reflexivity|].
    split; [eexists; repeat split; vm_compute; reflexivity|].
    vm_compute. reflexivity.
Qed.

(** ** Failures of the backend call *)

(** For the call that created the operation, the five outcomes have
    five different utterances. *)
Lemma creator_utterances_distinct op :
  NoDup [msg_config op; msg_superseded op; msg_timeout op; msg_http op; msg_unexpected op].
Proof. destruct op; apply (bool_decide_unpack _); vm_compute; exact I. Qed.

(** A call that joined the operation lets every exception but the
    cancellation out. *)
Lemma joined_call_propagates w c a t e :
  callers w !! c = Some (CJoined a t) ->
  backends w !! t = Some (BDone (Raised e)) ->
  e <> CancelledError ->
  exists w', caller_resume c w = Some w'
    /\ callers w' !! c = Some (CFinished (Raised e)).
Proof.
  intros Hc Hb Hne. destruct (joined_resumes w c a t Hc) as (_ & Hyes).
  rewrite (Hyes _ Hb). eexists. split; [reflexivity|].
  destruct e; try contradiction; cbn [join_outcome fst snd];
    apply set_caller_lookup; eapply lookup_lt_Some, Hc.
Qed.

(** C5 at the failing input. Two questions overlap and the backend call
    times out: the call that started the operation returns the timeout
    utterance, and the call that joined it raises
    [httpx.TimeoutException]. *)
Lemma joined_call_raises_timeout :
  let w := state_after overlapping_timeout in
  callers w !! 0 = Some (CFinished (Returned (msg_timeout Rag)))
  /\ callers w !! 1 = Some (CFinished (Raised TimeoutException))
  /\ length (posts w) = 1.
Proof. cbv zeta. repeat split; vm_compute; reflexivity. Qed.

(** ** The feedback task *)

Lemma heard_from_say_ticker f st msg w :
  heard_from f (say (ByTicker f st) msg w) = heard_from f w ++ [(now w, st)].
Proof.
  unfold heard_from, say. cbn [spoken]. rewrite omap_app. f_equal.
  cbn [omap list_omap u_by u_time]. rewrite bool_decide_eq_true_2 by reflexivity. reflexivity.
Qed.

Lemma random_choice_in_pool pick op st :
  random_choice pick (feedback_pool op st) ∈ feedback_pool op st.
Proof.
  unfold random_choice. apply list_elem_of_In, nth_In.
  apply Nat.mod_upper_bound. destruct op, st; discriminate.
Qed.

(** A sleep that has elapsed, with no cancellation pending. *)
Lemma ticker_wakes f ok pick w tk st d :
  tickers w !! f = Some tk -> tk_pc tk = TkSleep st d -> tk_cancel tk = false ->
  (d <= now w)%Z ->
  ticker_resume f ok pick w
  = Some (ticker_act f tk
            (stage_due (is_active (cs w)) (session w) (tk_op tk) (tk_start tk) pick st) w).
Proof.
  intros Htk Hpc Hc Hd. unfold ticker_resume. rewrite Htk. cbn [mbind option_bind].
  rewrite Hpc, Hc. destruct (Z.ltb_spec (now w) d); [lia | reflexivity].
Qed.

(** A [say] that has ended, with no cancellation pending. *)
Lemma ticker_say_ends f pick w tk st :
  tickers w !! f = Some tk -> tk_pc tk = TkSay st -> tk_cancel tk = false ->
  ticker_resume f true pick w
  = Some (ticker_act f tk (after_stage (is_active (cs w)) st)
            (with_cs (append_feedback_sent st (cs w)) w)).
Proof.
  intros Htk Hpc Hc. unfold ticker_resume. rewrite Htk. cbn [mbind option_bind].
  rewrite Hpc, Hc. reflexivity.
Qed.

(** The first run of the task. *)
Lemma ticker_starts f ok pick w tk :
  tickers w !! f = Some tk -> tk_pc tk = TkCreated -> tk_cancel tk = false ->
  ticker_resume f ok pick w
  = Some (ticker_act f {| tk_op := tk_op tk; tk_start := start_time (cs w);
                          tk_pc := TkCreated; tk_cancel := false |}
            (ActSleep Initial 3000) w).
Proof.
  intros Htk Hpc Hc. unfold ticker_resume. rewrite Htk. cbn [mbind option_bind].
  rewrite Hpc, Hc. reflexivity.
Qed.

(** The feedback task speaks only when a sleep has elapsed and, at that
    moment, the operation is active and there is a session; what it
    says is drawn from the pool of the stage. *)
Lemma feedback_only_when_active f ok pick w w' :
  ticker_resume f ok pick w = Some w' ->
  spoken w' <> spoken w ->
  is_active (cs w) = true /\ session w = true
  /\ exists tk st d,
       tickers w !! f = Some tk /\ tk_pc tk = TkSleep st d /\ (d <= now w)%Z
       /\ random_choice pick (feedback_pool (tk_op tk) st) ∈ feedback_pool (tk_op tk) st
       /\ spoken w' = spoken w ++ [{| u_time := now w; u_by := ByTicker f st;
                                      u_text := random_choice pick
                                                  (feedback_pool (tk_op tk) st) |}].
Proof.
  unfold ticker_resume. intros H Hne.
  destruct (tickers w !! f) as [tk|] eqn:Htk; cbn [mbind option_bind] in H; [|discriminate].
  assert (Hquiet : forall tk' st d w0, spoken w0 = spoken w ->
            spoken (ticker_act f tk' (ActSleep st d) w0) = spoken w
            /\ spoken (ticker_act f tk' ActExit w0) = spoken w)
    by (intros; split; assumption).
  destruct (tk_pc tk) as [|st d|st|] eqn:Hpc; try discriminate.
  - destruct (tk_cancel tk); injection H as <-; contradiction Hne; reflexivity.
  - destruct (tk_cancel tk); [injection H as <-; contradiction Hne; reflexivity|].
    destruct (Z.ltb_spec (now w) d); [discriminate|]. injection H as <-.
    unfold stage_due in *.
    destruct (is_active (cs w)) eqn:Ea; destruct (session w) eqn:Es; cbn [andb] in *;
      try (contradiction Hne; destruct st; reflexivity).
    destruct st; try destruct (tk_start tk);
      try (contradiction Hne; reflexivity);
      (split; [reflexivity|]); (split; [reflexivity|]);
      eexists tk, _, d; repeat split; try reflexivity; try assumption;
      apply random_choice_in_pool.
  - destruct (tk_cancel tk); [injection H as <-; contradiction Hne; reflexivity|].
    destruct ok; injection H as <-; contradiction Hne;
      destruct st; cbn; try destruct (is_active (cs w)); reflexivity.
Qed.

Section Schedule.
Variable dur : nat -> Time.
Variable pick : nat -> nat.
Variable until : option Time.
Variable f : nat.
Variable op : OpType.

Lemma before_cancel_check t : before_cancel until t ->
  match until with Some u => (u <? t)%Z | None => false end = false.
Proof. unfold before_cancel. destruct until; [|reflexivity]. intros H. apply Z.ltb_ge, H. Qed.

(** The first run of the task on the clock. *)
Lemma alone_created fuel i start w :
  ticker_at f TkCreated start op w -> before_cancel until (now w) ->
  exists w',
    ticker_alone (S fuel) dur pick until f i w = ticker_alone fuel dur pick until f i w'
    /\ ticker_at f (TkSleep Initial (now w + 3000)%Z) (start_time (cs w)) op w'
    /\ now w' = now w /\ cs w' = cs w /\ session w' = session w
    /\ heard_from f w' = heard_from f w.
Proof.
  intros (tk & Htk & Hpc & Hc & Hs & Ho) Hb. cbn [ticker_alone].
  rewrite Htk, Hpc, (before_cancel_check _ Hb).
  assert (Hw : with_now (now w) w = w) by (destruct w; reflexivity). rewrite Hw.
  rewrite (ticker_starts f true (pick i) w tk Htk Hpc Hc).
  eexists. split; [reflexivity|]. cbn [ticker_act].
  split; [|repeat split; reflexivity].
  eexists. split; [cbn [tickers set_ticker with_tickers]; apply list_lookup_insert_eq;
                   eapply lookup_lt_Some, Htk|].
  repeat split; try reflexivity. exact Ho.
Qed.

(** A sleep elapses while the operation is active: the stage is
    spoken at the deadline. *)
Lemma alone_wake fuel i start st d w :
  ticker_at f (TkSleep st d) start op w -> can_speak w ->
  (now w <= d)%Z -> before_cancel until d -> (st = Patience -> start <> None) ->
  exists w',
    ticker_alone (S fuel) dur pick until f i w = ticker_alone fuel dur pick until f i w'
    /\ ticker_at f (TkSay st) start op w' /\ can_speak w'
    /\ now w' = d /\ start_time (cs w') = start_time (cs w)
    /\ heard_from f w' = heard_from f w ++ [(d, st)].
Proof.
  intros (tk & Htk & Hpc & Hc & Hs & Ho) (Ha & Hss) Hn Hb Hst. cbn [ticker_alone].
  rewrite Htk, Hpc, Z.max_r by exact Hn. rewrite (before_cancel_check _ Hb).
  rewrite (ticker_wakes f true (pick i) (with_now d w) tk st d Htk Hpc Hc)
    by (cbn; lia).
  cbn [cs session with_now]. rewrite Ha, Hss. unfold stage_due. cbn [andb].
  assert (Hact : (match st, tk_start tk with
                  | Patience, None => ActExit
                  | _, _ => ActSay st (random_choice (pick i) (feedback_pool (tk_op tk) st))
                  end) = ActSay st (random_choice (pick i) (feedback_pool (tk_op tk) st))).
  { destruct st; try reflexivity. destruct (tk_start tk) eqn:E; [reflexivity|].
    exfalso. apply (Hst eq_refl). congruence. }
  rewrite Hact. eexists. split; [reflexivity|]. cbn [ticker_act].
  split; [|split; [split; assumption|]].
  - eexists. split; [cbn [tickers say set_ticker with_tickers with_now];
                     apply list_lookup_insert_eq; eapply lookup_lt_Some, Htk|].
    repeat split; try reflexivity; assumption.
  - split; [reflexivity|]. split; [reflexivity|]. apply heard_from_say_ticker.
Qed.

(** A [say] ends while the operation is active: the stage is recorded
    and the next sleep begins. *)
Lemma alone_say_ends fuel i start st w :
  ticker_at f (TkSay st) start op w -> can_speak w ->
  before_cancel until (now w + dur i)%Z ->
  exists w',
    ticker_alone (S fuel) dur pick until f i w
    = ticker_alone fuel dur pick until f (S i) w'
    /\ ticker_at f (TkSleep (next_stage st) (now w + dur i + next_sleep st)) start op w'
    /\ can_speak w' /\ now w' = (now w + dur i)%Z
    /\ start_time (cs w') = start_time (cs w)
    /\ feedback_sent (cs w') = feedback_sent (cs w) ++ [st]
    /\ heard_from f w' = heard_from f w.
Proof.
  intros (tk & Htk & Hpc & Hc & Hs & Ho) (Ha & Hss) Hb. cbn [ticker_alone].
  rewrite Htk, Hpc. rewrite (before_cancel_check _ Hb).
  rewrite (ticker_say_ends f (pick i) (with_now (now w + dur i)%Z w) tk st Htk Hpc Hc).
  cbn [cs with_now]. rewrite Ha.
  assert (Hact : after_stage true st = ActSleep (next_stage st) (next_sleep st))
    by (destruct st; reflexivity).
  rewrite Hact. eexists. split; [reflexivity|]. cbn [ticker_act].
  split; [|split; [split; assumption|repeat split; reflexivity]].
  eexists. split; [cbn [tickers set_ticker with_tickers with_cs with_now];
                   apply list_lookup_insert_eq; eapply lookup_lt_Some, Htk|].
  repeat split; try reflexivity; assumption.
Qed.

End Schedule.

(** The task is due again only after the cancellation. *)
Lemma alone_stop_sleep dur pick u f op fuel i start st d w :
  ticker_at f (TkSleep st d) start op w -> (now w <= d)%Z -> (u < d)%Z ->
  ticker_alone (S fuel) dur pick (Some u) f i w = with_now u w.
Proof.
  intros (tk & Htk & Hpc & _) Hn Hu. cbn [ticker_alone].
  rewrite Htk, Hpc, Z.max_r by exact Hn.
  destruct (Z.ltb_spec u d); [reflexivity | lia].
Qed.

Lemma alone_stop_say dur pick u f op fuel i start st w :
  ticker_at f (TkSay st) start op w -> (u < now w + dur i)%Z ->
  ticker_alone (S fuel) dur pick (Some u) f i w = with_now u w.
Proof.
  intros (tk & Htk & Hpc & _) Hu. cbn [ticker_alone]. rewrite Htk, Hpc.
  destruct (Z.ltb_spec u (now w + dur i)); [reflexivity | lia].
Qed.

(** The patience stages, one every 8 seconds after the previous [say]
    has ended, for as long as nothing stops the task. *)
Lemma alone_patience dur pick f op s k : forall i d w,
  ticker_at f (TkSleep Patience d) (Some s) op w -> can_speak w -> (now w <= d)%Z ->
  (forall n, (0 <= dur n)%Z) ->
  heard_from f (ticker_alone (2 * k) dur pick None f i w)
  = heard_from f w ++ map (fun t => (t, Patience)) (patience_times k dur i (d - 8000)).
Proof.
  induction k as [|k IH]; intros i d w Hat Hsp Hn Hdur.
  - cbn. rewrite app_nil_r. reflexivity.
  - replace (2 * S k) with (S (S (2 * k))) by lia.
    destruct (alone_wake dur pick None f op (S (2 * k)) i (Some s) Patience d w
                Hat Hsp Hn I ltac:(discriminate))
      as (w1 & E1 & Hat1 & Hsp1 & Hn1 & _ & Hh1).
    rewrite E1.
    destruct (alone_say_ends dur pick None f op (2 * k) i (Some s) Patience w1 Hat1 Hsp1 I)
      as (w2 & E2 & Hat2 & Hsp2 & Hn2 & _ & _ & Hh2).
    rewrite E2. cbn [next_stage next_sleep] in Hat2.
    rewrite (IH (S i) _ w2 Hat2 Hsp2) by (try assumption; specialize (Hdur i); lia).
    rewrite Hh2, Hh1, Hn1, <- app_assoc. f_equal. cbn [patience_times map app].
    f_equal; [f_equal; lia|]. do 2 f_equal. lia.
Qed.

Section OnTheClock.
Context {U : PyUnicode}.

(** The feedback task on the clock is a run of the system: the clock
    advances and the task resumes, nothing else. *)
Lemma ticker_alone_is_run dur pick until f fuel : forall i w,
  (forall n, (0 <= dur n)%Z) ->
  match until with Some u => (now w <= u)%Z | None => True end ->
  exists evs,
    run w evs = Some (ticker_alone fuel dur pick until f i w)
    /\ Forall (fun ev => (exists dt, ev = EvAdvance dt)
                         \/ exists say_ok p, ev = EvTicker f say_ok p) evs.
Proof.
  induction fuel as [|fuel IH]; intros i w Hdur Hu.
  - exists []. split; [reflexivity | constructor].
  - cbn [ticker_alone].
    destruct (tickers w !! f) as [tk|] eqn:Htk; [|exists []; split; [reflexivity | constructor]].
    assert (Hadv : forall t, (now w <= t)%Z ->
              step w (EvAdvance (t - now w)) = Some (with_now t w)).
    { intros t Ht. cbn [step]. destruct (Z.leb_spec 0 (t - now w)); [|lia].
      do 2 f_equal. lia. }
    assert (Hgo : forall t i', (now w <= t)%Z ->
              exists evs,
                run w evs
                = Some (if match until with Some u => (u <? t)%Z | None => false end
                        then with_now (default t until) w
                        else match ticker_resume f true (pick i) (with_now t w) with
                             | Some w' => ticker_alone fuel dur pick until f i' w'
                             | None => w
                             end)
                /\ Forall (fun ev => (exists dt, ev = EvAdvance dt)
                                     \/ exists say_ok p, ev = EvTicker f say_ok p) evs).
    { intros t i' Ht. destruct until as [u|]; cbn [from_option id].
      - destruct (Z.ltb_spec u t).
        + exists [EvAdvance (u - now w)]. cbn [run]. rewrite Hadv by exact Hu.
          split; [reflexivity|]. constructor; [left; eauto | constructor].
        + destruct (ticker_resume f true (pick i) (with_now t w)) as [w'|] eqn:E;
            [|exists []; split; [reflexivity | constructor]].
          destruct (IH i' w' Hdur) as (evs & Hrun & Hall).
          { apply ticker_resume_frame in E as (_ & -> & _). cbn. lia. }
          exists (EvAdvance (t - now w) :: EvTicker f true (pick i) :: evs).
          cbn [run]. rewrite Hadv by exact Ht. cbn [mbind option_bind step]. rewrite E.
          split; [exact Hrun|]. constructor; [left; eauto|]. constructor; [right; eauto | exact Hall].
      - destruct (ticker_resume f true (pick i) (with_now t w)) as [w'|] eqn:E;
          [|exists []; split; [reflexivity | constructor]].
        destruct (IH i' w' Hdur I) as (evs & Hrun & Hall).
        exists (EvAdvance (t - now w) :: EvTicker f true (pick i) :: evs).
        cbn [run]. rewrite Hadv by exact Ht. cbn [mbind option_bind step]. rewrite E.
        split; [exact Hrun|]. constructor; [left; eauto|]. constructor; [right; eauto | exact Hall]. }
    destruct (tk_pc tk) as [|st d|st|].
    + apply Hgo. lia.
    + apply Hgo. lia.
    + apply Hgo. specialize (Hdur i). lia.
    + exists []. split; [reflexivity | constructor].
Qed.

End OnTheClock.

(** C4, as the code has it. Left alone with the clock while its
    operation is active, the feedback task speaks an utterance of the
    initial pool 3 seconds after it started, one of the processing pool
    6 seconds after the initial [say] has ended, and then one of the
    patience pool 8 seconds after each [say] has ended, without end.
    With the cancellation 10 seconds after the start it has spoken one
    initial and one processing utterance and no patience utterance when
    the initial [say] took at most a second (the sleep before the
    processing stage then ends by the tenth second, and the task
    resumes before the call that cancels it), and the initial
    utterance alone when it took longer. In every state, the task
    speaks only on the elapse of a sleep at which the operation is
    active, and then an utterance of the pool of the stage; and it
    records the stage when the [say] of the stage has ended. *)
Theorem feedback_schedule dur pick f op start w s :
  (forall n, (0 <= dur n)%Z) ->
  ticker_at f TkCreated start op w -> can_speak w -> start_time (cs w) = Some s ->
  (forall k,
     heard_from f (ticker_alone (5 + 2 * k) dur pick None f 0 w)
     = heard_from f w
       ++ (now w + 3000, Initial)%Z :: (now w + 3000 + dur 0%nat + 6000, Processing)%Z
       :: map (fun t => (t, Patience))
            (patience_times k dur 2 (now w + 3000 + dur 0%nat + 6000 + dur 1%nat)%Z))
  /\ ((dur 0%nat <= 1000)%Z -> forall fuel, 6 <= fuel ->
      heard_from f (ticker_alone fuel dur pick (Some (now w + 10000)%Z) f 0 w)
      = heard_from f w
        ++ [(now w + 3000, Initial); (now w + 3000 + dur 0%nat + 6000, Processing)]%Z)
  /\ ((1000 < dur 0%nat)%Z -> forall fuel, 4 <= fuel ->
      heard_from f (ticker_alone fuel dur pick (Some (now w + 10000)%Z) f 0 w)
      = heard_from f w ++ [(now w + 3000, Initial)%Z])
  /\ (forall w1 say_ok p w2,
        ticker_resume f say_ok p w1 = Some w2 -> spoken w2 <> spoken w1 ->
        is_active (cs w1) = true
        /\ exists tk st d,
             tickers w1 !! f = Some tk /\ tk_pc tk = TkSleep st d /\ (d <= now w1)%Z
             /\ random_choice p (feedback_pool (tk_op tk) st) ∈ feedback_pool (tk_op tk) st
             /\ spoken w2
                = spoken w1 ++ [{| u_time := now w1; u_by := ByTicker f st;
                                   u_text := random_choice p (feedback_pool (tk_op tk) st) |}])
  /\ (forall w1 tk st d say_ok p,
        tickers w1 !! f = Some tk -> tk_pc tk = TkSleep st d -> tk_cancel tk = false ->
        (d <= now w1)%Z -> is_active (cs w1) = false ->
        exists w2, ticker_resume f say_ok p w1 = Some w2
          /\ spoken w2 = spoken w1 /\ cs w2 = cs w1)
  /\ (forall w1 tk st p,
        tickers w1 !! f = Some tk -> tk_pc tk = TkSay st -> tk_cancel tk = false ->
        exists w2, ticker_resume f true p w1 = Some w2
          /\ feedback_sent (cs w2) = feedback_sent (cs w1) ++ [st]).
Proof.
  intros Hdur Hat Hsp Hs.
  pose proof (Hdur 0%nat) as Hd0. pose proof (Hdur 1%nat) as Hd1.
  split; [|split; [|split; [|split; [|split]]]].
  - intros k. replace (5 + 2 * k) with (S (S (S (S (S (2 * k)))))) by lia.
    destruct (alone_created dur pick None f op (S (S (S (S (2 * k))))) 0 start w Hat I)
      as (w1 & E1 & Hat1 & Hn1 & Hc1 & Hss1 & Hh1).
    rewrite E1, Hs in *.
    assert (Hsp1 : can_speak w1) by (destruct Hsp; split; congruence).
    destruct (alone_wake dur pick None f op (S (S (S (2 * k)))) 0 (Some s) Initial _ w1 Hat1 Hsp1
                ltac:(lia) I ltac:(discriminate))
      as (w2 & E2 & Hat2 & Hsp2 & Hn2 & _ & Hh2).
    rewrite E2.
    destruct (alone_say_ends dur pick None f op (S (S (2 * k))) 0 (Some s) Initial w2 Hat2 Hsp2 I)
      as (w3 & E3 & Hat3 & Hsp3 & Hn3 & _ & _ & Hh3).
    rewrite E3. cbn [next_stage next_sleep] in Hat3.
    destruct (alone_wake dur pick None f op (S (2 * k)) 1 (Some s) Processing _ w3 Hat3 Hsp3
                ltac:(lia) I ltac:(discriminate))
      as (w4 & E4 & Hat4 & Hsp4 & Hn4 & _ & Hh4).
    rewrite E4.
    destruct (alone_say_ends dur pick None f op (2 * k) 1 (Some s) Processing w4 Hat4 Hsp4 I)
      as (w5 & E5 & Hat5 & Hsp5 & Hn5 & _ & _ & Hh5).
    rewrite E5. cbn [next_stage next_sleep] in Hat5.
    rewrite (alone_patience dur pick f op s k 2 _ w5 Hat5 Hsp5 ltac:(lia) Hdur).
    rewrite Hh5, Hh4, Hh3, Hh2, Hh1, Hn4, Hn2. rewrite <- !app_assoc. cbn [app].
    match goal with |- context [patience_times k dur 2 ?a] =>
      replace a with (now w + 3000 + dur 0%nat + 6000 + dur 1%nat)%Z by lia
    end.
    reflexivity.
  - intros Hlt fuel Hfuel.
    do 6 (destruct fuel as [|fuel]; [lia|]).
    destruct (alone_created dur pick (Some (now w + 10000)%Z) f op (S (S (S (S (S fuel))))) 0 start w Hat
                ltac:(cbn; lia))
      as (w1 & E1 & Hat1 & Hn1 & Hc1 & Hss1 & Hh1).
    rewrite E1, Hs in *.
    assert (Hsp1 : can_speak w1) by (destruct Hsp; split; congruence).
    destruct (alone_wake dur pick (Some (now w + 10000)%Z) f op (S (S (S (S fuel)))) 0 (Some s) Initial _ w1
                Hat1 Hsp1 ltac:(lia) ltac:(cbn; lia) ltac:(discriminate))
      as (w2 & E2 & Hat2 & Hsp2 & Hn2 & _ & Hh2).
    rewrite E2.
    destruct (alone_say_ends dur pick (Some (now w + 10000)%Z) f op (S (S (S fuel))) 0 (Some s) Initial w2
                Hat2 Hsp2 ltac:(cbn; lia))
      as (w3 & E3 & Hat3 & Hsp3 & Hn3 & _ & _ & Hh3).
    rewrite E3. cbn [next_stage next_sleep] in Hat3.
    destruct (alone_wake dur pick (Some (now w + 10000)%Z) f op (S (S fuel)) 1 (Some s) Processing _ w3
                Hat3 Hsp3 ltac:(lia) ltac:(cbn; lia) ltac:(discriminate))
      as (w4 & E4 & Hat4 & Hsp4 & Hn4 & _ & Hh4).
    rewrite E4.
    assert (Hfin : heard_from f w4
                   = heard_from f w
                     ++ [(now w + 3000, Initial); (now w + 3000 + dur 0%nat + 6000, Processing)]%Z).
    { rewrite Hh4, Hh3, Hh2, Hh1, Hn2, <- app_assoc. reflexivity. }
    destruct (Z.le_gt_cases (now w4 + dur 1%nat) (now w + 10000)) as [Hc|Hc].
    + destruct (alone_say_ends dur pick (Some (now w + 10000)%Z) f op (S fuel) 1 (Some s)
                  Processing w4 Hat4 Hsp4 ltac:(cbn; lia))
        as (w5 & E5 & Hat5 & Hsp5 & Hn5 & _ & _ & Hh5).
      rewrite E5. cbn [next_stage next_sleep] in Hat5.
      rewrite (alone_stop_sleep dur pick _ f op fuel 2 _ _ _ w5 Hat5) by lia.
      change (heard_from f (with_now ?t w5)) with (heard_from f w5).
      rewrite Hh5. exact Hfin.
    + rewrite (alone_stop_say dur pick _ f op (S fuel) 1 _ _ w4 Hat4) by lia.
      exact Hfin.
  - intros Hge fuel Hfuel.
    do 4 (destruct fuel as [|fuel]; [lia|]).
    destruct (alone_created dur pick (Some (now w + 10000)%Z) f op (S (S (S fuel))) 0 start w Hat
                ltac:(cbn; lia))
      as (w1 & E1 & Hat1 & Hn1 & Hc1 & Hss1 & Hh1).
    rewrite E1, Hs in *.
    assert (Hsp1 : can_speak w1) by (destruct Hsp; split; congruence).
    destruct (alone_wake dur pick (Some (now w + 10000)%Z) f op (S (S fuel)) 0 (Some s) Initial _ w1
                Hat1 Hsp1 ltac:(lia) ltac:(cbn; lia) ltac:(discriminate))
      as (w2 & E2 & Hat2 & Hsp2 & Hn2 & _ & Hh2).
    rewrite E2.
    assert (Hfin : heard_from f w2 = heard_from f w ++ [(now w + 3000, Initial)%Z]).
    { rewrite Hh2, Hh1. rewrite ?Hn1. reflexivity. }
    destruct (Z.le_gt_cases (now w2 + dur 0%nat) (now w + 10000)) as [Hc|Hc].
    + destruct (alone_say_ends dur pick (Some (now w + 10000)%Z) f op (S fuel) 0 (Some s) Initial w2
                  Hat2 Hsp2 ltac:(cbn; lia))
        as (w3 & E3 & Hat3 & Hsp3 & Hn3 & _ & _ & Hh3).
      rewrite E3. cbn [next_stage next_sleep] in Hat3.
      rewrite (alone_stop_sleep dur pick _ f op fuel 1 _ _ _ w3 Hat3) by lia.
      change (heard_from f (with_now ?t w3)) with (heard_from f w3).
      rewrite Hh3. exact Hfin.
    + rewrite (alone_stop_say dur pick _ f op (S fuel) 0 _ _ w2 Hat2) by lia.
      exact Hfin.
  - intros w1 say_ok p w2 H Hne.
    destruct (feedback_only_when_active f say_ok p w1 w2 H Hne) as (Ha & _ & Hex).
    split; [exact Ha | exact Hex].
  - intros w1 tk st d say_ok p Htk Hpc Hc Hd Ha. eexists.
    split; [apply (ticker_wakes f say_ok p w1 tk st d Htk Hpc Hc Hd)|].
    rewrite Ha. unfold stage_due. cbn [andb]. destruct st; split; reflexivity.
  - intros w1 tk st p Htk Hpc Hc. eexists.
    split; [apply (ticker_say_ends f p w1 tk st Htk Hpc Hc)|].
    destruct st; cbn; try destruct (is_active (cs w1)); reflexivity.
Qed.


Lemma feedback_schedule_witness :
  ticker_at 0 TkCreated None Rag question_asked
  /\ can_speak question_asked
  /\ heard_from 0 (ticker_alone 8 (fun _ => 1000%Z) (fun n => n) (Some 10000%Z) 0 0
                     question_asked)
     = [(3000, Initial); (10000, Processing)]%Z.
Proof.
  assert (Hat : ticker_at 0 TkCreated None Rag question_asked)
    by (eexists; repeat split; vm_compute; reflexivity).
  assert (Hsp : can_speak question_asked) by (split; vm_compute; reflexivity).
  split; [exact Hat|]. split; [exact Hsp|].
  exact (proj1 (proj2 (feedback_schedule (fun _ => 1000%Z) (fun n => n) 0 Rag None
                         question_asked 0%Z ltac:(intros; lia) Hat Hsp eq_refl))
           ltac:(lia) 8 ltac:(lia)).
Defined.

(** C4 as it is worded fails. The backend call resolves 10 seconds
    after the question, and the initial utterance, spoken at 3 seconds,
    takes 2 seconds to say: the sleep before the processing stage ends
    at 11 seconds, the task cannot resume at 10 seconds, the teardown
    cancels it, and the initial utterance is all that was spoken. *)
Lemma slow_speech_skips_processing :
  let w := state_after slow_speech in
  let at_ten := state_after (take 9 slow_speech) in
  map (fun u => (u_time u, u_by u)) (spoken w) = [(3000%Z, ByTicker 0 Initial)]
  /\ callers w !! 0 = Some (CFinished (Returned (py "Cien soles")))
  /\ last_completed (cs w) = Some 10000%Z
  /\ now at_ten = 10000%Z
  /\ backends at_ten !! 0 = Some (BDone (Returned (py "Cien soles")))
  /\ (tk_pc <$> tickers at_ten !! 0) = Some (TkSleep Processing 11000)
  /\ (forall say_ok pick, @step ascii_unicode at_ten (EvTicker 0 say_ok pick) = None)
  /\ heard_from 0 (ticker_alone 10 (fun _ => 2000%Z) (fun n => n) (Some 10000%Z) 0 0
                     question_asked)
     = [(3000%Z, Initial)].
Proof.
  cbv zeta. repeat split; vm_compute; reflexivity.
Qed.
(** ** More on [normalize_phone] *)

Lemma py_plus : py "+" = [43%N].
Proof. reflexivity. Qed.

Lemma py_plus51 : py "+51" = [43%N; 53%N; 49%N].
Proof. reflexivity. Qed.

Lemma filter_rev {A} (P : A -> Prop) `{!forall x, Decision (P x)} (l : list A) :
  filter P (rev l) = rev (filter P l).
Proof.
  induction l as [|x l IH]; [reflexivity|].
  cbn [rev]. rewrite filter_app, IH, filter_cons.
  destruct (decide (P x)).
  - rewrite filter_cons_True by assumption. reflexivity.
  - rewrite filter_cons_False by assumption. cbn [rev]. rewrite app_nil_r. reflexivity.
Qed.

(** Deleting the separators makes the earlier [strip] redundant. *)
Lemma re_sub_delete_lstrip s :
  re_sub_delete phone_noise (lstrip s) = re_sub_delete phone_noise s.
Proof.
  unfold re_sub_delete. induction s as [|c r IH]; [reflexivity|].
  cbn [lstrip]. destruct (is_space c) eqn:E; [|reflexivity].
  rewrite IH. rewrite filter_cons_False; [reflexivity|].
  unfold phone_noise. rewrite E. discriminate.
Qed.

Lemma re_sub_delete_strip s :
  re_sub_delete phone_noise (strip s) = re_sub_delete phone_noise s.
Proof.
  unfold strip, rstrip. unfold re_sub_delete at 1. rewrite filter_rev.
  fold (re_sub_delete phone_noise (lstrip (rev (lstrip s)))).
  rewrite re_sub_delete_lstrip. unfold re_sub_delete at 1. rewrite filter_rev, rev_involutive.
  apply re_sub_delete_lstrip.
Qed.

Lemma re_sub_delete_clean cls s : Forall (fun c => cls c = false) (re_sub_delete cls s).
Proof.
  unfold re_sub_delete. apply Forall_forall. intros c Hc.
  apply list_elem_of_filter in Hc. apply Hc.
Qed.

Lemma re_sub_delete_id cls s : Forall (fun c => cls c = false) s -> re_sub_delete cls s = s.
Proof.
  unfold re_sub_delete. induction 1 as [|c r Hc Hr IH]; [reflexivity|].
  rewrite filter_cons_True by exact Hc. rewrite IH. reflexivity.
Qed.

Lemma lstrip_no_space s : Forall (fun c => is_space c = false) s -> lstrip s = s.
Proof. intros [|c r Hc Hr]; [reflexivity|]. cbn [lstrip]. rewrite Hc. reflexivity. Qed.

Lemma strip_no_space s : Forall (fun c => is_space c = false) s -> strip s = s.
Proof.
  intros H. unfold strip, rstrip. rewrite (lstrip_no_space s H).
  rewrite lstrip_no_space by (apply Forall_rev, H). apply rev_involutive.
Qed.

Lemma phone_noise_space c : phone_noise c = false -> is_space c = false.
Proof. unfold phone_noise. destruct (is_space c); [discriminate | reflexivity]. Qed.

Section PhoneFacts.
Context {U : PyUnicode}.

Lemma re_digits_shape n : forall s rest,
  re_digits n s = Some rest ->
  exists ds, s = ds ++ rest /\ length ds = n /\ Forall (fun c => is_decimal c = true) ds.
Proof.
  induction n as [|n IH]; intros s rest H; cbn [re_digits] in H.
  - injection H as <-. exists []. repeat split. constructor.
  - destruct s as [|c r]; [discriminate|]. destruct (is_decimal c) eqn:E; [|discriminate].
    destruct (IH r rest H) as (ds & -> & Hl & Hd).
    exists (c :: ds). repeat split; [cbn; lia | constructor; assumption].
Qed.

Lemma re_digits_exact ds :
  Forall (fun c => is_decimal c = true) ds -> re_digits (length ds) ds = Some [].
Proof.
  induction 1 as [|c r Hc Hr IH]; [reflexivity|]. cbn [length re_digits]. rewrite Hc. exact IH.
Qed.

(** What [normalize_phone] accepts, looked at after the separators are
    gone: [+51] and nine decimal digits, nothing else. *)
Lemma re_match_phone_shape p :
  Forall (fun c => phone_noise c = false) p ->
  re_match_phone p = true ->
  exists ds, p = py "+51" ++ ds /\ length ds = 9
             /\ Forall (fun c => is_decimal c = true) ds.
Proof.
  intros Hclean H. unfold re_match_phone in H.
  repeat case_match; try discriminate; subst.
  match goal with E : re_digits 9 ?r = Some ?rest |- _ =>
    rename r into r0; rename rest into rest0; rename E into E0 end.
  destruct (re_digits_shape 9 r0 rest0 E0) as (ds & -> & Hl & Hd).
  assert (rest0 = []) as ->.
  { destruct rest0 as [|x [|y rest']]; [reflexivity| |discriminate].
    cbn [re_at_end] in H. apply N.eqb_eq in H as ->.
    do 3 apply Forall_cons in Hclean as (_ & Hclean).
    apply Forall_app in Hclean as (_ & Hclean).
    apply Forall_cons in Hclean as (Hx & _). discriminate. }
  exists ds. rewrite app_nil_r. repeat split; assumption.
Qed.

Lemma re_match_phone_exact ds :
  length ds = 9 -> Forall (fun c => is_decimal c = true) ds ->
  re_match_phone (py "+51" ++ ds) = true.
Proof.
  intros Hl Hd. rewrite py_plus51. cbn [app re_match_phone].
  rewrite <- Hl, (re_digits_exact ds Hd). reflexivity.
Qed.

(** The string [normalize_phone] matches against the pattern has no
    separator left. *)
Lemma normalize_phone_cases s :
  let phone1 := re_sub_delete phone_noise s in
  let phone2 := if negb (startswith phone1 (py "+")) then py "+51" ++ phone1 else phone1 in
  Forall (fun c => phone_noise c = false) phone2
  /\ (s <> [] ->
      normalize_phone (Some s)
      = if re_match_phone phone2 then (Some phone2, None) else (None, Some msg_phone_invalid)).
Proof.
  intros phone1 phone2. split.
  - subst phone2. destruct (negb _); [|apply re_sub_delete_clean].
    apply Forall_app. split; [|apply re_sub_delete_clean].
    rewrite py_plus51. repeat constructor.
  - intros Hs. unfold normalize_phone. destruct s as [|c r]; [contradiction Hs; reflexivity|].
    cbn [truthy negb from_option id]. rewrite re_sub_delete_strip. reflexivity.
Qed.

End PhoneFacts.

(** ** The phone of the caller's identity *)

Lemma py_sip_ : py "sip_" = [115%N; 105%N; 112%N; 95%N].
Proof. reflexivity. Qed.

Lemma py_sip : py "sip:" = [115%N; 105%N; 112%N; 58%N].
Proof. reflexivity. Qed.

Lemma py_at : py "@" = [64%N].
Proof. reflexivity. Qed.

Lemma split_from_nonempty sep s : forall k cur, split_from sep k cur s <> [].
Proof.
  induction s as [|c r IH]; intros k cur; cbn [split_from]; [discriminate|].
  destruct k; [|apply IH]. destruct (startswith _ _); [discriminate | apply IH].
Qed.

(** A separator that occurs gives two pieces at least. *)
Lemma split_from_contains a sep s : forall cur,
  contains (a :: sep) s = true -> 2 <= length (split_from (a :: sep) 0 cur s).
Proof.
  induction s as [|c r IH]; intros cur H; [discriminate|].
  cbn [split_from]. cbn [contains] in H.
  destruct (startswith (c :: r) (a :: sep)).
  - pose proof (split_from_nonempty (a :: sep) r (length (a :: sep) - 1) []) as Hn.
    destruct (split_from _ _ _ r); [contradiction Hn; reflexivity | cbn; lia].
  - apply IH. exact H.
Qed.

(** The first piece starts with what was read so far. *)
Lemma split_from_head sep s : forall cur,
  exists t l, split_from sep 0 cur s = (rev cur ++ t) :: l.
Proof.
  induction s as [|c r IH]; intros cur; cbn [split_from].
  - exists [], []. rewrite app_nil_r. reflexivity.
  - destruct (startswith _ _).
    + exists [], (split_from sep (length sep - 1) [] r). rewrite app_nil_r. reflexivity.
    + destruct (IH (c :: cur)) as (t & l & ->). exists (c :: t), l.
      cbn [rev]. rewrite <- app_assoc. reflexivity.
Qed.

(** Code points that do not start the separator are read through. *)
Lemma split_from_absent a sep ds rest : forall cur,
  Forall (fun c => c <> a) ds ->
  split_from (a :: sep) 0 cur (ds ++ rest) = split_from (a :: sep) 0 (rev ds ++ cur) rest.
Proof.
  induction ds as [|c r IH]; intros cur H; [reflexivity|].
  apply Forall_cons in H as (Hc & Hr).
  cbn [app split_from startswith]. destruct (N.eqb_spec a c) as [->|_]; [contradiction Hc; reflexivity|].
  cbn [andb]. rewrite (IH _ Hr). cbn [rev]. rewrite <- app_assoc. reflexivity.
Qed.

Lemma replace_from_absent a old new s :
  Forall (fun c => c <> a) s -> replace_from (a :: old) new 0 s = s.
Proof.
  induction 1 as [|c r Hc Hr IH]; [reflexivity|].
  cbn [replace_from startswith]. destruct (N.eqb_spec a c) as [->|_]; [contradiction Hc; reflexivity|].
  cbn [andb]. rewrite IH. reflexivity.
Qed.

Lemma lstrip_app_keep a b c : is_space c = false -> lstrip (a ++ c :: b) = lstrip a ++ c :: b.
Proof.
  intros Hc. induction a as [|x a IH]; cbn [app lstrip]; [rewrite Hc; reflexivity|].
  destruct (is_space x); [exact IH | reflexivity].
Qed.

Lemma with_country_code_plus phone : startswith (with_country_code phone) (py "+") = true.
Proof.
  unfold with_country_code. destruct (startswith phone (py "+")) eqn:E; [exact E | reflexivity].
Qed.

Lemma ascii_digits_facts ds :
  ascii_digits ds ->
  Forall (fun c => is_space c = false) ds /\ Forall (fun c => c <> 115%N) ds
  /\ Forall (fun c => c <> 64%N) ds /\ Forall (fun c => phone_noise c = false) ds
  /\ ascii_only ds /\ (forall r, startswith (ds ++ r) (py "+") = true -> ds = []).
Proof.
  intros H. unfold ascii_digits, ascii_only in *.
  repeat split.
  1-5: eapply Forall_impl; [exact H|]; cbv beta; intros c Hc.
  - apply is_space_dateish. unfold dateish. lia.
  - lia.
  - lia.
  - unfold phone_noise. rewrite is_space_dateish by (unfold dateish; lia).
    destruct (N.eqb_spec c 45); [lia|]. destruct (N.eqb_spec c 40); [lia|].
    destruct (N.eqb_spec c 41); [lia | reflexivity].
  - lia.
  - intros r Hr. destruct H as [|c ds' Hc _]; [reflexivity|].
    rewrite py_plus in Hr. cbn [app startswith] in Hr.
    destruct (N.eqb_spec 43 c); [lia | discriminate].
Qed.

Section IdentityFacts.
Context {U : PyUnicode}.

Lemma is_decimal_digits ds : ascii_digits ds -> Forall (fun c => is_decimal c = true) ds.
Proof.
  unfold ascii_digits. intros H. eapply Forall_impl; [exact H|]. cbv beta. intros c Hc.
  rewrite is_decimal_ascii by lia. unfold is_decimal. cbn [uni_decimal ascii_unicode].
  unfold ascii_decimal.
  destruct (N.leb_spec 48 c); [|lia]. destruct (N.leb_spec c 57); [|lia]. reflexivity.
Qed.

Lemma normalize_phone_digits ds :
  length ds = 9 -> ascii_digits ds ->
  normalize_phone (Some (py "+51" ++ ds)) = (Some (py "+51" ++ ds), None).
Proof.
  intros Hl Hd. destruct (ascii_digits_facts ds Hd) as (_ & _ & _ & Hn & _).
  assert (Hclean : re_sub_delete phone_noise (py "+51" ++ ds) = py "+51" ++ ds).
  { apply re_sub_delete_id, Forall_app. split; [|exact Hn].
    rewrite py_plus51. repeat constructor. }
  destruct (normalize_phone_cases (py "+51" ++ ds)) as (_ & ->).
  - rewrite Hclean.
    assert (Hs : startswith (py "+51" ++ ds) (py "+") = true)
      by (rewrite py_plus51, py_plus; reflexivity).
    rewrite Hs. cbn [negb]. rewrite re_match_phone_exact; [reflexivity | exact Hl|].
    apply is_decimal_digits, Hd.
  - rewrite py_plus51. discriminate.
Qed.

End IdentityFacts.

(** ** What the validation of the phone guarantees *)

Section PhoneGuarantees.
Context {U : PyUnicode}.

(** X1. [normalize_phone] gives a number or a message, never both and never
    neither. A number it gives is [+51] followed by exactly nine decimal
    digits; the message is the one for a missing phone exactly when the
    input is [None] or empty, and the one for an invalid phone
    otherwise. *)
Theorem normalize_phone_outcome phone :
  match normalize_phone phone with
  | (Some p, None) =>
    truthy phone = true
    /\ exists ds, p = py "+51" ++ ds /\ length ds = 9
                  /\ Forall (fun c => is_decimal c = true) ds
  | (None, Some e) => e = if truthy phone then msg_phone_invalid else msg_phone_missing
  | _ => False
  end.
Proof.
  destruct phone as [[|c r]|]; [vm_compute; reflexivity| |vm_compute; reflexivity].
  destruct (normalize_phone_cases (c :: r)) as (Hclean & ->); [|discriminate].
  cbv zeta in Hclean.
  destruct (re_match_phone _) eqn:E; cbv beta iota; cbn [truthy]; [|reflexivity].
  split; [reflexivity|]. apply re_match_phone_shape; assumption.
Qed.

(** X2. A number [normalize_phone] has given is accepted again, unchanged. *)
Theorem normalize_phone_idempotent phone p e :
  normalize_phone phone = (Some p, e) -> normalize_phone (Some p) = (Some p, None).
Proof.
  destruct phone as [[|c r]|]; [discriminate| |discriminate].
  destruct (normalize_phone_cases (c :: r)) as (Hclean & ->); [|discriminate].
  cbv zeta in Hclean.
  destruct (re_match_phone _) eqn:E; [|discriminate]. intros [= <- <-].
  destruct (re_match_phone_shape _ Hclean E) as (ds & Hp & _).
  set (p := if negb _ then _ else _) in *.
  assert (Hs : startswith p (py "+") = true) by (rewrite Hp, py_plus51, py_plus; reflexivity).
  destruct (normalize_phone_cases p) as (_ & ->).
  - rewrite (re_sub_delete_id _ _ Hclean), Hs. cbn [negb]. rewrite E. reflexivity.
  - rewrite Hp, py_plus51. discriminate.
Qed.

(** X3. White space, hyphens and parentheses do not count: two inputs that
    are the same once these are deleted get the same answer. *)
Theorem normalize_phone_separators s s' :
  s <> [] -> s' <> [] ->
  re_sub_delete phone_noise s = re_sub_delete phone_noise s' ->
  normalize_phone (Some s) = normalize_phone (Some s').
Proof.
  intros Hs Hs' Heq.
  destruct (normalize_phone_cases s) as (_ & ->); [|exact Hs].
  destruct (normalize_phone_cases s') as (_ & ->); [|exact Hs'].
  rewrite Heq. reflexivity.
Qed.

End PhoneGuarantees.

Lemma normalize_phone_idempotent_witness :
  @normalize_phone ascii_unicode (Some (py " (987) 654-321 ")) = (Some (py "+51987654321"), None)
  /\ @normalize_phone ascii_unicode (Some (py "+51987654321")) = (Some (py "+51987654321"), None).
Proof.
  split; [vm_compute; reflexivity|].
  apply (@normalize_phone_idempotent ascii_unicode (Some (py " (987) 654-321 ")) _ None).
  vm_compute. reflexivity.
Defined.

Lemma normalize_phone_separators_witness :
  py "987 654 321" <> [] /\ py "(987) 654-321" <> []
  /\ @normalize_phone ascii_unicode (Some (py "987 654 321"))
     = @normalize_phone ascii_unicode (Some (py "(987) 654-321")).
Proof.
  split; [discriminate|]. split; [discriminate|].
  apply (@normalize_phone_separators ascii_unicode); [discriminate | discriminate|].
  vm_compute. reflexivity.
Defined.

(** ** What [extract_phone_from_identity] gives *)

(** X4. An identity that is not empty always gives a value. When, stripped,
    it starts with [sip_] or contains [sip:], that value starts with
    [+]: the handler of the [try], which would return the identity
    itself, is not reached. *)
Theorem sip_identity_has_prefix s :
  s <> [] ->
  startswith (strip s) (py "sip_") = true \/ contains (py "sip:") (strip s) = true ->
  exists p, extract_phone_from_identity (Some s) = Some p /\ startswith p (py "+") = true.
Proof.
  intros Hs H. unfold extract_phone_from_identity.
  destruct s as [|c r]; [contradiction Hs; reflexivity|].
  cbn [truthy negb from_option id]. set (i := strip (c :: r)) in *.
  destruct (startswith i (py "sip_")) eqn:E1.
  - eexists. split; [reflexivity | apply with_country_code_plus].
  - destruct H as [H|H]; [discriminate|]. rewrite H.
    pose proof H as H2. rewrite py_sip in H2.
    apply (split_from_contains _ _ _ []) in H2. unfold split. rewrite py_sip.
    destruct (split_from _ 0 [] i) as [|x [|y l]]; [cbn in H2; lia | cbn in H2; lia|].
    cbn [lookup list_lookup].
    pose proof (split_from_nonempty (py "@") y 0 []) as Hn.
    destruct (split_from (py "@") 0 [] y) as [|z l']; [contradiction Hn; reflexivity|].
    eexists. split; [reflexivity | apply with_country_code_plus].
Qed.

Section IdentityPhone.
Context {U : PyUnicode}.

(** X5. The identities of SIP callers, [sip_] followed by nine digits and
    [sip:] followed by nine digits, [@] and a host, give [+51] and the
    nine digits, which [normalize_phone] accepts unchanged. *)
Theorem sip_identity_normalizes ds host :
  length ds = 9 -> ascii_digits ds ->
  extract_phone_from_identity (Some (py "sip_" ++ ds)) = Some (py "+51" ++ ds)
  /\ extract_phone_from_identity (Some (py "sip:" ++ ds ++ py "@" ++ host))
     = Some (py "+51" ++ ds)
  /\ normalize_phone (extract_phone_from_identity (Some (py "sip_" ++ ds)))
     = (Some (py "+51" ++ ds), None).
Proof.
  intros Hl Hd.
  destruct (ascii_digits_facts ds Hd) as (Hsp & Hs & Hat & _ & _ & Hplus).
  assert (Hne : ds <> []) by (intros ->; discriminate).
  assert (Hcc : with_country_code ds = py "+51" ++ ds).
  { unfold with_country_code. destruct (startswith ds (py "+")) eqn:E; [|reflexivity].
    contradiction Hne. apply (Hplus []). rewrite app_nil_r. exact E. }
  assert (H1 : extract_phone_from_identity (Some (py "sip_" ++ ds)) = Some (py "+51" ++ ds)).
  { unfold extract_phone_from_identity. rewrite py_sip_.
    cbn [app truthy negb from_option id].
    rewrite strip_no_space by (repeat (constructor; [reflexivity|]); exact Hsp).
    cbn [startswith N.eqb Pos.eqb andb]. unfold replace.
    cbn [replace_from startswith N.eqb Pos.eqb andb length Nat.sub app].
    rewrite replace_from_absent by exact Hs. rewrite Hcc. reflexivity. }
  split; [exact H1|]. split; [|rewrite H1; apply normalize_phone_digits; assumption].
  unfold extract_phone_from_identity. rewrite py_sip, py_at.
  cbn [app truthy negb from_option id].
  assert (Hstrip : exists h, strip (115 :: 105 :: 112 :: 58 :: ds ++ 64 :: host)%N
                             = (115 :: 105 :: 112 :: 58 :: ds ++ 64 :: h)%N).
  { exists (rev (lstrip (rev host))). unfold strip, rstrip.
    change (lstrip (115 :: ?x)%N) with (115 :: x)%N.
    change (115 :: 105 :: 112 :: 58 :: ds ++ 64 :: host)%N
      with ([115; 105; 112; 58] ++ ds ++ 64 :: host)%N.
    rewrite app_assoc, rev_app_distr. cbn [rev]. rewrite <- app_assoc. cbn [app].
    rewrite lstrip_app_keep by reflexivity.
    rewrite rev_app_distr. cbn [rev]. rewrite !rev_app_distr, rev_involutive.
    cbn [rev app]. rewrite <- ?app_assoc. reflexivity. }
  destruct Hstrip as (h & ->).
  rewrite py_sip_. cbn [startswith N.eqb Pos.eqb andb contains orb].
  unfold split.
  cbn [split_from startswith N.eqb Pos.eqb andb length Nat.sub].
  rewrite (split_from_absent 115 _ ds) by exact Hs.
  cbn [split_from startswith N.eqb Pos.eqb andb].
  destruct (split_from_head [115; 105; 112; 58]%N h (64%N :: rev ds ++ [])) as (t & l & ->).
  cbn [lookup list_lookup]. cbn [rev]. rewrite app_nil_r, rev_involutive, <- app_assoc.
  cbn [app]. rewrite (split_from_absent 64 _ ds) by exact Hat.
  cbn [split_from startswith N.eqb Pos.eqb andb lookup list_lookup].
  rewrite app_nil_r, rev_involutive, Hcc. reflexivity.
Qed.

End IdentityPhone.

Lemma sip_identity_has_prefix_witness :
  exists p, extract_phone_from_identity (Some (py " sip:+14155550100@trunk.example "))
            = Some p /\ startswith p (py "+") = true.
Proof.
  apply sip_identity_has_prefix; [discriminate|].
  right. vm_compute. reflexivity.
Defined.

Lemma sip_identity_normalizes_witness :
  @normalize_phone ascii_unicode
     (extract_phone_from_identity (Some (py "sip_" ++ py "987654321")))
  = (Some (py "+51" ++ py "987654321"), None).
Proof.
  apply (@sip_identity_normalizes ascii_unicode (py "987654321") []).
  - reflexivity.
  - unfold ascii_digits. vm_compute. repeat constructor; discriminate.
Defined.

(** ** The calendar *)

Lemma is_leap_days y :
  (days_before_year (y + 1) = days_before_year y + 365 + if is_leap y then 1 else 0)%Z.
Proof.
  unfold days_before_year, is_leap.
  replace (y + 1 - 1)%Z with y by lia.
  destruct (Z.eqb_spec (y mod 4) 0); destruct (Z.eqb_spec (y mod 100) 0);
    destruct (Z.eqb_spec (y mod 400) 0); cbn [andb orb negb]; dlia.
Qed.

Lemma month_cases m : (1 <= m <= 12)%Z ->
  m = 1%Z \/ m = 2%Z \/ m = 3%Z \/ m = 4%Z \/ m = 5%Z \/ m = 6%Z \/ m = 7%Z \/ m = 8%Z
  \/ m = 9%Z \/ m = 10%Z \/ m = 11%Z \/ m = 12%Z.
Proof. lia. Qed.

Lemma days_before_next_month y m : (1 <= m <= 11)%Z ->
  (days_before_month y (m + 1) = days_before_month y m + days_in_month y m)%Z.
Proof.
  intros Hm. unfold days_before_month, days_in_month.
  destruct (month_cases m ltac:(lia)) as [H|[H|[H|[H|[H|[H|[H|[H|[H|[H|[H|H]]]]]]]]]]];
    subst m; try lia; destruct (is_leap y); reflexivity.
Qed.

Lemma days_before_december y :
  (days_before_month y 12 + 31 = 365 + if is_leap y then 1 else 0)%Z.
Proof. unfold days_before_month. destruct (is_leap y); reflexivity. Qed.

Lemma valid_date_inv d :
  valid_date d = true ->
  (1 <= d_year d <= 9999 /\ 1 <= d_month d <= 12
   /\ 1 <= d_day d <= days_in_month (d_year d) (d_month d))%Z.
Proof. unfold valid_date. rewrite !andb_true_iff, !Z.leb_le. tauto. Qed.

Lemma valid_date_intro y m d :
  (1 <= y <= 9999)%Z -> (1 <= m <= 12)%Z -> (1 <= d <= days_in_month y m)%Z ->
  valid_date (mkDate y m d) = true.
Proof.
  intros. unfold valid_date. cbn [d_year d_month d_day].
  rewrite !andb_true_iff, !Z.leb_le. tauto.
Qed.

Lemma days_in_month_pos y m : (28 <= days_in_month y m)%Z.
Proof.
  unfold days_in_month.
  repeat match goal with |- context [if ?b then _ else _] => destruct b end; lia.
Qed.

(** The day after a date of the calendar is a date of the calendar, the
    next in the count of days, and later in the order of dates. *)
Lemma tomorrow_of_next d t :
  valid_date d = true -> tomorrow_of d = Some t ->
  valid_date t = true /\ toordinal t = (toordinal d + 1)%Z /\ date_ltb d t = true
  /\ date_ltb t d = false.
Proof.
  intros Hv Ht. destruct (valid_date_inv d Hv) as (Hy & Hm & Hd).
  destruct d as [y m dd]. cbn [d_year d_month d_day] in *.
  unfold tomorrow_of in Ht. cbn [d_year d_month d_day] in Ht.
  pose proof (days_in_month_pos y m) as Hp.
  destruct (Z.ltb_spec dd (days_in_month y m)).
  { injection Ht as <-. split; [apply valid_date_intro; lia|].
    unfold toordinal, date_ltb. cbn [d_year d_month d_day].
    rewrite !Z.ltb_irrefl, !Z.eqb_refl. cbn [orb andb].
    split; [lia|]. split; [apply Z.ltb_lt; lia | apply Z.ltb_ge; lia]. }
  destruct (Z.ltb_spec m 12).
  { injection Ht as <-.
    pose proof (days_in_month_pos y (m + 1)).
    split; [apply valid_date_intro; lia|].
    unfold toordinal, date_ltb. cbn [d_year d_month d_day].
    rewrite days_before_next_month by lia.
    rewrite !Z.ltb_irrefl, !Z.eqb_refl. cbn [orb andb].
    split; [lia|].
    split; [apply orb_true_iff; left; apply Z.ltb_lt; lia|].
    apply orb_false_iff. split; [apply Z.ltb_ge; lia|].
    apply andb_false_iff. left. apply Z.eqb_neq. lia. }
  destruct (Z.ltb_spec y 9999); [|discriminate].
  injection Ht as <-. assert (m = 12%Z) as -> by lia.
  assert (Hdd : dd = 31%Z) by (unfold days_in_month in *; cbn in *; lia). subst dd.
  pose proof (days_in_month_pos (y + 1) 1).
  split; [apply valid_date_intro; lia|].
  unfold toordinal, date_ltb. cbn [d_year d_month d_day].
  rewrite is_leap_days. pose proof (days_before_december y) as H12.
  split; [change (days_before_month (y + 1) 1) with 0%Z; lia|].
  split.
  - apply orb_true_iff. left. apply Z.ltb_lt. lia.
  - apply orb_false_iff. split; [apply Z.ltb_ge; lia|].
    apply andb_false_iff. left. apply Z.eqb_neq. lia.
Qed.

(** The last day of the calendar is the only one without a next. *)
Lemma tomorrow_of_none d :
  valid_date d = true -> tomorrow_of d = None -> d = mkDate 9999 12 31.
Proof.
  intros Hv Ht. destruct (valid_date_inv d Hv) as (Hy & Hm & Hd).
  destruct d as [y m dd]. cbn [d_year d_month d_day] in *.
  unfold tomorrow_of in Ht. cbn [d_year d_month d_day] in Ht.
  destruct (Z.ltb_spec dd (days_in_month y m)); [discriminate|].
  destruct (Z.ltb_spec m 12); [discriminate|].
  destruct (Z.ltb_spec y 9999); [discriminate|].
  assert (m = 12%Z) as -> by lia. assert (y = 9999%Z) as -> by lia.
  assert (dd = 31%Z) as -> by (unfold days_in_month in *; cbn in *; lia).
  reflexivity.
Qed.

Lemma weekday_next a b : toordinal b = (toordinal a + 1)%Z -> weekday b = ((weekday a + 1) mod 7)%Z.
Proof. unfold weekday. intros ->. dlia. Qed.

(** ** What the validation of the date guarantees *)

(** The writing [DD/MM/YYYY] tells the dates of the calendar apart. *)
Lemma strftime_dmy_inj d d' :
  valid_date d = true -> valid_date d' = true -> strftime_dmy d = strftime_dmy d' -> d = d'.
Proof.
  intros Hd Hd' H. apply (f_equal (@strptime_dmy ascii_unicode)) in H.
  rewrite !(@strptime_strftime ascii_unicode) in H by assumption. congruence.
Qed.

Section DateGuarantees.
Context {U : PyUnicode}.

Lemma strptime_dmy_valid s d : strptime_dmy s = Some d -> valid_date d = true.
Proof. unfold strptime_dmy. intros H. repeat case_match; try discriminate. congruence. Qed.

(** A date [parse_relative_date] returns is written from a date of the
    calendar that is not before today and that passed the check of the
    day reference; no message comes with it. *)
Lemma parse_relative_date_returns today date_input day_reference s e :
  valid_date today = true ->
  parse_relative_date today date_input day_reference = Returned (Some s, e) ->
  e = None
  /\ exists d, valid_date d = true /\ date_ltb d today = false /\ s = strftime_dmy d
               /\ day_reference_mismatch day_reference (weekday d) = None.
Proof.
  intros Hv. unfold parse_relative_date.
  destruct (negb (truthy date_input)); [discriminate|].
  destruct (_ || _).
  - destruct (tomorrow_of today) as [t|] eqn:Et; [|discriminate].
    destruct (tomorrow_of_next today t Hv Et) as (Htv & _ & _ & Hlt).
    destruct (day_reference_mismatch day_reference (weekday t)) eqn:Em; [discriminate|].
    intros [= <- <-]. split; [reflexivity|]. exists t. repeat split; assumption.
  - destruct (strptime_dmy _) as [d|] eqn:Ed; [|discriminate].
    assert (Hdv : valid_date d = true).
    { eapply strptime_dmy_valid, Ed. }
    destruct (date_ltb d today) eqn:El; [discriminate|].
    destruct (day_reference_mismatch day_reference (weekday d)) eqn:Em; [discriminate|].
    intros [= <- <-]. split; [reflexivity|]. exists d. repeat split; assumption.
Qed.

(** X6. [parse_relative_date] gives a date or a message, never both and
    never neither. A date it gives is the writing [DD/MM/YYYY] of a day
    of the calendar that is not before today. It raises only on the
    last day of the calendar, which has no tomorrow. *)
Theorem parse_relative_date_outcome today date_input day_reference :
  valid_date today = true ->
  match parse_relative_date today date_input day_reference with
  | Returned (Some s, None) =>
    exists d, valid_date d = true /\ date_ltb d today = false /\ s = strftime_dmy d
  | Returned (None, Some e) => True
  | Returned _ => False
  | Raised _ => today = mkDate 9999 12 31
  end.
Proof.
  intros Hv.
  destruct (parse_relative_date today date_input day_reference) as [[[s|] e]|x] eqn:E.
  - destruct (parse_relative_date_returns _ _ _ _ _ Hv E) as (-> & d & H1 & H2 & H3 & _).
    exists d. repeat split; assumption.
  - destruct e; [exact I|]. unfold parse_relative_date in E.
    repeat case_match; discriminate.
  - unfold parse_relative_date in E.
    destruct (negb (truthy date_input)); [discriminate|].
    destruct (_ || _).
    + destruct (tomorrow_of today) eqn:Et; [repeat case_match; discriminate|].
      apply tomorrow_of_none; assumption.
    + repeat case_match; discriminate.
Qed.

(** X7. A date [parse_relative_date] has returned is accepted again,
    unchanged, on the same day and with the same day reference. *)
Theorem parse_relative_date_again today date_input day_reference s e :
  valid_date today = true ->
  parse_relative_date today date_input day_reference = Returned (Some s, e) ->
  parse_relative_date today (Some s) day_reference = Returned (Some s, None).
Proof.
  intros Hv E.
  destruct (parse_relative_date_returns _ _ _ _ _ Hv E) as (_ & d & Hd & Hl & -> & Hm).
  rewrite parse_written_date by exact Hd. rewrite Hl, Hm. reflexivity.
Qed.

(** X8. An input that contains [mañana] or [manana] once in lower case,
    whatever else it says, is the day after today: the next day of the
    calendar, whose weekday follows today's. *)
Theorem manana_is_next_day today date_input tomorrow :
  valid_date today = true -> tomorrow_of today = Some tomorrow ->
  date_input <> [] ->
  contains (py "mañana") (strip (uni_lower date_input))
  || contains (py "manana") (strip (uni_lower date_input)) = true ->
  parse_relative_date today (Some date_input) None
  = Returned (Some (strftime_dmy tomorrow), None)
  /\ valid_date tomorrow = true
  /\ toordinal tomorrow = (toordinal today + 1)%Z
  /\ weekday tomorrow = ((weekday today + 1) mod 7)%Z.
Proof.
  intros Hv Et Hne Hc.
  destruct (tomorrow_of_next today tomorrow Hv Et) as (Htv & Ho & _ & _).
  split; [|split; [exact Htv|split; [exact Ho | apply weekday_next, Ho]]].
  unfold parse_relative_date. destruct date_input as [|c r]; [contradiction Hne; reflexivity|].
  cbn [truthy negb from_option id]. rewrite Hc, Et. reflexivity.
Qed.

(** X9. The day reference counts only when it names a weekday, and then only
    by rejecting: for an input whose date is accepted without a day
    reference, a reference that is not a weekday name, or that names the
    weekday of the date, changes nothing, and one that names another
    weekday gives a message instead of the date. *)
Theorem day_reference_checked today date_input day_reference d :
  valid_date today = true -> valid_date d = true ->
  parse_relative_date today date_input None = Returned (Some (strftime_dmy d), None) ->
  match days_map_get (strip (uni_lower day_reference)) with
  | Some i =>
    if (i =? weekday d)%Z
    then parse_relative_date today date_input (Some day_reference)
         = Returned (Some (strftime_dmy d), None)
    else exists msg, parse_relative_date today date_input (Some day_reference)
                     = Returned (None, Some msg)
  | None => parse_relative_date today date_input (Some day_reference)
            = Returned (Some (strftime_dmy d), None)
  end.
Proof.
  intros Hv Hd E.
  assert (Hmis : forall wd,
            day_reference_mismatch (Some day_reference) wd
            = match days_map_get (strip (uni_lower day_reference)) with
              | Some i => if (i =? wd)%Z then None else Some (strip (uni_lower day_reference))
              | None => None
              end).
  { intros wd. unfold day_reference_mismatch. destruct day_reference as [|c r].
    - cbn [truthy]. rewrite (uni_lower_ascii []) by constructor.
      vm_compute. reflexivity.
    - cbn [truthy from_option id]. destruct (days_map_get _) as [i|]; [|reflexivity].
      destruct (i =? wd)%Z; reflexivity. }
  unfold parse_relative_date in *.
  destruct (negb (truthy date_input)); [discriminate|].
  destruct (_ || _).
  - destruct (tomorrow_of today) as [t|] eqn:Et; [|discriminate].
    destruct (tomorrow_of_next today t Hv Et) as (Htv & _).
    cbn [day_reference_mismatch truthy] in E.
    assert (E' : strftime_dmy t = strftime_dmy d) by congruence.
    apply strftime_dmy_inj in E'; [subst t | assumption | assumption].
    rewrite Hmis. destruct (days_map_get _) as [i|]; [|reflexivity].
    destruct (i =? weekday d)%Z; [reflexivity | eexists; reflexivity].
  - destruct (strptime_dmy _) as [d'|] eqn:Ed; [|discriminate].
    assert (Hdv : valid_date d' = true).
    { eapply strptime_dmy_valid, Ed. }
    destruct (date_ltb d' today); [discriminate|].
    cbn [day_reference_mismatch truthy] in E.
    assert (E' : strftime_dmy d' = strftime_dmy d) by congruence.
    apply strftime_dmy_inj in E'; [subst d' | assumption | assumption].
    rewrite Hmis. destruct (days_map_get _) as [i|]; [|reflexivity].
    destruct (i =? weekday d)%Z; [reflexivity | eexists; reflexivity].
Qed.

End DateGuarantees.

Lemma parse_relative_date_outcome_witness :
  valid_date (mkDate 2025 8 5) = true
  /\ match @parse_relative_date ascii_unicode (mkDate 2025 8 5) (Some (py "15/08/2025")) None with
     | Returned (Some s, None) =>
       exists d, valid_date d = true /\ date_ltb d (mkDate 2025 8 5) = false
                 /\ s = strftime_dmy d
     | Returned (None, Some e) => True
     | Returned _ => False
     | Raised _ => mkDate 2025 8 5 = mkDate 9999 12 31
     end.
Proof.
  split; [reflexivity|].
  apply (@parse_relative_date_outcome ascii_unicode (mkDate 2025 8 5)). reflexivity.
Defined.

Lemma parse_relative_date_again_witness :
  @parse_relative_date ascii_unicode (mkDate 2025 8 5) (Some (py "06/08/2025")) None
  = Returned (Some (py "06/08/2025"), None).
Proof.
  apply (@parse_relative_date_again ascii_unicode (mkDate 2025 8 5) (Some (py "mañana")) None
           _ None).
  - reflexivity.
  - vm_compute. reflexivity.
Defined.

Lemma manana_is_next_day_witness :
  @parse_relative_date ascii_unicode (mkDate 2025 12 31) (Some (py "Pasado mañana")) None
  = Returned (Some (strftime_dmy (mkDate 2026 1 1)), None)
  /\ valid_date (mkDate 2026 1 1) = true
  /\ toordinal (mkDate 2026 1 1) = (toordinal (mkDate 2025 12 31) + 1)%Z
  /\ weekday (mkDate 2026 1 1) = ((weekday (mkDate 2025 12 31) + 1) mod 7)%Z.
Proof.
  apply (@manana_is_next_day ascii_unicode).
  - reflexivity.
  - reflexivity.
  - discriminate.
  - vm_compute. reflexivity.
Defined.

Lemma day_reference_checked_witness :
  match days_map_get (strip (@uni_lower ascii_unicode (py "Jueves"))) with
  | Some i =>
    if (i =? weekday (mkDate 2025 8 6))%Z
    then @parse_relative_date ascii_unicode (mkDate 2025 8 5) (Some (py "mañana"))
           (Some (py "Jueves"))
         = Returned (Some (strftime_dmy (mkDate 2025 8 6)), None)
    else exists msg, @parse_relative_date ascii_unicode (mkDate 2025 8 5) (Some (py "mañana"))
                       (Some (py "Jueves"))
                     = Returned (None, Some msg)
  | None => @parse_relative_date ascii_unicode (mkDate 2025 8 5) (Some (py "mañana"))
              (Some (py "Jueves"))
            = Returned (Some (strftime_dmy (mkDate 2025 8 6)), None)
  end.
Proof.
  apply (@day_reference_checked ascii_unicode (mkDate 2025 8 5) (Some (py "mañana"))).
  - reflexivity.
  - reflexivity.
  - vm_compute. reflexivity.
Defined.

(** ** Greetings and connection checks *)

Lemma startswith_app_l p q : forall s, startswith s (p ++ q) = true -> startswith s p = true.
Proof.
  induction p as [|a p IH]; intros s H; [reflexivity|].
  destruct s as [|b s]; [discriminate|]. cbn [app startswith] in *.
  apply andb_true_iff in H as (-> & H). cbn [andb]. apply IH, H.
Qed.

Lemma contains_head sub s : startswith s sub = true -> contains sub s = true.
Proof. intros H. destruct s; cbn [contains]; rewrite H; reflexivity. Qed.

Lemma contains_tail sub c s : contains sub s = true -> contains sub (c :: s) = true.
Proof. intros H. cbn [contains]. rewrite H. apply orb_true_r. Qed.

Lemma startswith_app_r p q : forall s, startswith s (p ++ q) = true -> contains q s = true.
Proof.
  induction p as [|a p IH]; intros s H; [apply contains_head, H|].
  destruct s as [|b s]; [discriminate|]. cbn [app startswith] in H.
  apply andb_true_iff in H as (_ & H). apply contains_tail, IH, H.
Qed.

(** A string that contains [p ++ q] contains [p] and contains [q]. *)
Lemma contains_app p q s :
  contains (p ++ q) s = true -> contains p s = true /\ contains q s = true.
Proof.
  induction s as [|c s IH]; intros H; cbn [contains] in H;
    apply orb_true_iff in H as [H|H]; try discriminate.
  - split; [apply contains_head, (startswith_app_l p q), H | apply (startswith_app_r p q), H].
  - split; [apply contains_head, (startswith_app_l p q), H | apply (startswith_app_r p q), H].
  - destruct (IH H). split; apply contains_tail; assumption.
Qed.

Lemma tool_replies_distinct :
  msg_hello <> msg_listening /\ msg_hello <> msg_repeat /\ msg_listening <> msg_repeat.
Proof. repeat split; intros H; vm_compute in H; discriminate. Qed.

(** X24. The reply of [handle_user_greeting_or_check] is decided by four of
    the six greetings and five of the seven checks. The greeting is
    returned exactly when the message, in lower case, contains [hola],
    [hello], [buenas] or [buenos dias]; the confirmation of a check
    exactly when it contains none of these and contains one of the five
    checks without [hola]; the request to repeat otherwise. The checks
    [¿hola?] and [hola?] never decide: a message that contains one of
    them is greeted. *)
Theorem greeting_before_check {U : PyUnicode} user_message :
  let m := strip (uni_lower user_message) in
  let greeted := contains (py "hola") m || contains (py "hello") m
                 || contains (py "buenas") m || contains (py "buenos dias") m in
  let checked := contains (py "estás ahí") m || contains (py "estas ahi") m
                 || contains (py "me escuchas") m || contains (py "sí, es ahí") m
                 || contains (py "si, es ahi") m in
  handle_user_greeting_or_check user_message
  = (if greeted then msg_hello else if checked then msg_listening else msg_repeat)
  /\ (contains (py "¿hola?") m = true \/ contains (py "hola?") m = true ->
      handle_user_greeting_or_check user_message = msg_hello)
  /\ (handle_user_greeting_or_check user_message = msg_listening <->
      greeted = false /\ checked = true).
Proof.
  intros m greeted checked.
  assert (Hb : forall x, contains (py "buenas" ++ x) m = true -> contains (py "buenas") m = true)
    by (intros x H; apply (contains_app _ _ _ H)).
  assert (Hh : forall x y, contains (x ++ py "hola" ++ y) m = true -> contains (py "hola") m = true).
  { intros x y H. apply contains_app in H as (_ & H). apply (contains_app _ _ _ H). }
  pose proof (Hb (py " tardes")) as Hb1. pose proof (Hb (py " noches")) as Hb2.
  pose proof (Hh (py "¿") (py "?")) as Hh1. pose proof (Hh [] (py "?")) as Hh2.
  change (py "buenas" ++ py " tardes") with (py "buenas tardes") in Hb1.
  change (py "buenas" ++ py " noches") with (py "buenas noches") in Hb2.
  change (py "¿" ++ py "hola" ++ py "?") with (py "¿hola?") in Hh1.
  change ([] ++ py "hola" ++ py "?") with (py "hola?") in Hh2.
  assert (E : handle_user_greeting_or_check user_message
              = if greeted then msg_hello else if checked then msg_listening else msg_repeat).
  { unfold handle_user_greeting_or_check, any_in, greetings, checks. fold m.
    cbn [existsb]. subst greeted checked.
    destruct (contains (py "hola") m).
    { cbn [orb]. reflexivity. }
    destruct (contains (py "¿hola?") m); [discriminate (Hh1 eq_refl)|].
    destruct (contains (py "hola?") m); [discriminate (Hh2 eq_refl)|].
    destruct (contains (py "buenas") m).
    { destruct (contains (py "hello") m); cbn [orb]; reflexivity. }
    destruct (contains (py "buenas tardes") m); [discriminate (Hb1 eq_refl)|].
    destruct (contains (py "buenas noches") m); [discriminate (Hb2 eq_refl)|].
    rewrite !orb_false_r.
    destruct (contains (py "hello") m); cbn [orb]; [reflexivity|].
    destruct (contains (py "buenos dias") m); cbn [orb]; [reflexivity|].
    rewrite !orb_assoc. reflexivity. }
  destruct tool_replies_distinct as (D1 & D2 & D3).
  split; [exact E|]. split.
  - rewrite E. subst greeted. intros [H|H].
    + rewrite (Hh1 H). reflexivity.
    + rewrite (Hh2 H). reflexivity.
  - rewrite E. clearbody greeted checked. clear E.
    destruct greeted; [split; [intros H; contradiction (D1 H) | intros (H & _); discriminate]|].
    destruct checked; [split; [intros _; split; reflexivity | intros _; reflexivity]|].
    split; [intros H; exfalso; apply D3; symmetry; exact H | intros (_ & H); discriminate].
Qed.

(** ** What a transition changes *)

Lemma same_liveness_refl l : same_liveness l l.
Proof. split; [reflexivity|]. intros f tk H. exists tk. split; [exact H | reflexivity]. Qed.

(** [cancel()] ends no feedback task by itself. *)
Lemma cancel_ticker_liveness f w : same_liveness (tickers w) (tickers (cancel_ticker f w)).
Proof.
  unfold cancel_ticker. destruct (tickers w !! f) as [tk|] eqn:E; [|apply same_liveness_refl].
  destruct (ticker_done tk) eqn:Ed; [apply same_liveness_refl|].
  cbn [set_ticker with_tickers tickers]. split; [apply length_insert|].
  intros f' tk' H. destruct (decide (f = f')) as [<-|Hne].
  - rewrite list_lookup_insert_eq in H by (eapply lookup_lt_Some, E).
    injection H as <-. exists tk. split; [exact E | reflexivity].
  - rewrite list_lookup_insert_ne in H by exact Hne. exists tk'. split; [exact H | reflexivity].
Qed.

Lemma start_operation_eq a w :
  start_operation a w
  = (with_backends (backends w ++ [BCreated (args_coro a)])
       (with_tickers (tickers w ++ [new_ticker (args_op a)])
          (with_cs (started_state a (now w) (length (backends w)) (length (tickers w))
                      (last_completed (cs w))) w)),
     CAwaiting a (length (backends w))).
Proof. reflexivity. Qed.

(** A tool call, from the test of [is_active] to its first suspension:
    it either joins the operation it found, touching the query and the
    type of the operation only, or starts one. *)
Lemma enter_operation_effect a w w' st :
  enter_operation a w = Some (w', st) ->
  posts w' = posts w /\ callers w' = callers w /\ now w' = now w /\ spoken w' = spoken w
  /\ mon w' = mon w
  /\ exists l, same_liveness (tickers w) l
     /\ ((is_active (cs w) = true /\ cs w' = supersede a (cs w)
          /\ backends w' = backends w /\ tickers w' = l
          /\ exists t, task (cs w) = Some t
               /\ ((exists bst, backends w !! t = Some bst /\ backend_done bst = false
                                /\ st = CJoined a t)
                   \/ (exists r, backends w !! t = Some (BDone r)
                                 /\ r <> Raised CancelledError /\ st = CFinished r)))
         \/ ((is_active (cs w) = false \/ task (cs w) = None
              \/ exists t, task (cs w) = Some t
                   /\ backends w !! t = Some (BDone (Raised CancelledError)))
             /\ cs w' = started_state a (now w) (length (backends w)) (length (tickers w))
                          (last_completed (cs w))
             /\ backends w' = backends w ++ [BCreated (args_coro a)]
             /\ tickers w' = l ++ [new_ticker (args_op a)]
             /\ st = CAwaiting a (length (backends w)))).
Proof.
  intros He.
  destruct (enter_operation_frame _ _ _ _ He) as (Hm & Hn & Hs & Hc & Hp).
  repeat (split; [assumption|]).
  unfold enter_operation in He.
  destruct (is_active (cs w)) eqn:Ea.
  2:{ rewrite start_operation_eq in He. injection He as <- <-.
      exists (tickers w). split; [apply same_liveness_refl|]. right.
      split; [left; reflexivity|]. repeat split; reflexivity. }
  set (w1 := match running_feedback w with Some f => cancel_ticker f w | None => w end) in *.
  assert (H1 : backends w1 = backends w /\ cs w1 = cs w /\ now w1 = now w
               /\ same_liveness (tickers w) (tickers w1)).
  { subst w1. destruct (running_feedback w) as [f|].
    - destruct (cancel_ticker_frame f w) as (_ & ? & _ & _ & _ & ? & ?).
      repeat split; try assumption; apply cancel_ticker_liveness.
    - repeat split; try reflexivity; apply same_liveness_refl. }
  destruct H1 as (Hb1 & Hs1 & Hn1 & Hl1).
  exists (tickers w1). split; [exact Hl1|].
  cbn [with_cs cs supersede task backends] in He. rewrite Hs1, Hb1 in He.
  assert (Hstart : start_operation a (with_cs (supersede a (cs w)) w1) = (w', st) ->
            cs w' = started_state a (now w) (length (backends w)) (length (tickers w))
                      (last_completed (cs w))
            /\ backends w' = backends w ++ [BCreated (args_coro a)]
            /\ tickers w' = tickers w1 ++ [new_ticker (args_op a)]
            /\ st = CAwaiting a (length (backends w))).
  { rewrite start_operation_eq. intros [= <- <-].
    cbn [with_cs with_backends with_tickers cs backends tickers now supersede last_completed].
    rewrite Hb1, Hn1, (proj1 Hl1). repeat split; reflexivity. }
  destruct (task (cs w)) as [t|] eqn:Et.
  - destruct (backends w !! t) as [bst|] eqn:Eb; cbn [mbind option_bind] in He; [|discriminate].
    assert (Hjoin : forall x, Some (with_cs (supersede a (cs w)) w1, x) = Some (w', st) ->
              cs w' = supersede a (cs w) /\ backends w' = backends w
              /\ tickers w' = tickers w1 /\ st = x).
    { intros x [= <- <-]. cbn [with_cs cs backends tickers]. auto. }
    destruct bst as [co|co p|[v|e]].
    + apply Hjoin in He as (? & ? & ? & ->). left. split; [reflexivity|]. repeat (split; [assumption|]).
      exists t. split; [reflexivity|]. left. eexists. repeat split; first [eassumption | reflexivity].
    + apply Hjoin in He as (? & ? & ? & ->). left. split; [reflexivity|]. repeat (split; [assumption|]).
      exists t. split; [reflexivity|]. left. eexists. repeat split; first [eassumption | reflexivity].
    + apply Hjoin in He as (? & ? & ? & ->). left. split; [reflexivity|]. repeat (split; [assumption|]).
      exists t. split; [reflexivity|]. right. eexists. repeat split; first [eassumption | discriminate | reflexivity].
    + destruct e; cbn [join_outcome] in He.
      1:{ right. split; [|apply Hstart; congruence].
          right. right. exists t. split; [reflexivity | exact Eb]. }
      all: apply Hjoin in He as (? & ? & ? & ->); left; (split; [reflexivity|]); repeat (split; [assumption|]);
        exists t; (split; [reflexivity|]); right; eexists;
        repeat split; first [eassumption | discriminate | reflexivity].
  - right. split; [right; left; reflexivity|]. apply Hstart. congruence.
Qed.

(** A suspended call resumes: a joined call returns the result of the
    task or, on a cancellation, starts an operation; the call that
    started the operation goes through its [finally]. *)
Lemma caller_resume_effect c w w' :
  caller_resume c w = Some w' ->
  posts w' = posts w /\ now w' = now w /\ spoken w' = spoken w /\ mon w' = mon w
  /\ exists st0 st', callers w !! c = Some st0 /\ callers w' = <[c := st']> (callers w)
     /\ ((exists a t r, st0 = CJoined a t /\ backends w !! t = Some (BDone r)
            /\ r <> Raised CancelledError /\ st' = CFinished r
            /\ cs w' = cs w /\ backends w' = backends w /\ tickers w' = tickers w)
         \/ (exists a t, st0 = CJoined a t
               /\ backends w !! t = Some (BDone (Raised CancelledError))
               /\ st' = CAwaiting a (length (backends w))
               /\ cs w' = started_state a (now w) (length (backends w)) (length (tickers w))
                            (last_completed (cs w))
               /\ backends w' = backends w ++ [BCreated (args_coro a)]
               /\ tickers w' = tickers w ++ [new_ticker (args_op a)])
         \/ (exists a t r f, st0 = CAwaiting a t /\ backends w !! t = Some (BDone r)
               /\ running_feedback w = Some f
               /\ st' = CCleaning f (outcome_utterance (args_op a)
                                       (is_some_time (start_time (cs w))) r)
               /\ cs w' = cs w /\ backends w' = backends w
               /\ same_liveness (tickers w) (tickers w'))
         \/ (exists a t r, st0 = CAwaiting a t /\ backends w !! t = Some (BDone r)
               /\ running_feedback w = None
               /\ st' = CFinished (Returned (outcome_utterance (args_op a)
                                               (is_some_time (start_time (cs w))) r))
               /\ cs w' = idle_state (Some (now w)) /\ backends w' = backends w
               /\ tickers w' = tickers w)
         \/ (exists f ret tk, st0 = CCleaning f ret /\ tickers w !! f = Some tk
               /\ ticker_done tk = true /\ st' = CFinished (Returned ret)
               /\ cs w' = idle_state (Some (now w)) /\ backends w' = backends w
               /\ tickers w' = tickers w)).
Proof.
  intros H.
  destruct (caller_resume_frame _ _ _ H) as (Hm & Hn & Hs & Hp & _).
  repeat (split; [assumption|]).
  unfold caller_resume in H.
  destruct (callers w !! c) as [[a|a t|a t|f ret|r]|] eqn:Ec; cbn [mbind option_bind] in H;
    try discriminate.
  - destruct (backends w !! t) as [[co|co p|r]|] eqn:Eb; cbn [mbind option_bind] in H;
      try discriminate.
    destruct r as [v|e]; [|destruct e]; cbn [join_outcome] in H.
    2:{ rewrite start_operation_eq in H. injection H as <-.
        exists (CJoined a t), (CAwaiting a (length (backends w))).
        split; [reflexivity|]. split; [reflexivity|]. right. left.
        exists a, t. repeat split; first [assumption | reflexivity]. }
    all: injection H as <-; eexists (CJoined a t), _;
      (split; [reflexivity|]); (split; [reflexivity|]); left;
      eexists a, t, _; repeat split; first [eassumption | discriminate | reflexivity].
  - destruct (backends w !! t) as [[co|co p|r]|] eqn:Eb; cbn [mbind option_bind] in H;
      try discriminate.
    unfold teardown, finish_teardown in H.
    destruct (running_feedback w) as [f|] eqn:Ef; injection H as <-.
    + destruct (cancel_ticker_frame f w) as (_ & _ & _ & Hc1 & _ & Hb1 & Hs1).
      eexists _, _. split; [reflexivity|].
      split; [cbn [set_caller with_callers callers]; rewrite Hc1; reflexivity|].
      right. right. left. exists a, t, r, f.
      cbn [set_caller with_callers cs backends tickers].
      repeat split; first [eassumption | reflexivity | apply cancel_ticker_liveness].
    + eexists _, _. split; [reflexivity|]. split; [reflexivity|].
      right. right. right. left. exists a, t, r.
      repeat split; first [eassumption | reflexivity].
  - destruct (tickers w !! f) as [tk|] eqn:Et; cbn [mbind option_bind] in H; try discriminate.
    destruct (ticker_done tk) eqn:Ed; [|discriminate].
    unfold finish_teardown in H. injection H as <-.
    eexists _, _. split; [reflexivity|]. split; [reflexivity|].
    right. right. right. right. exists f, ret, tk.
    repeat split; first [eassumption | reflexivity].
Qed.

(** A feedback task resumes: it alone changes, and of the shared state
    the record of the stages spoken. *)
Lemma ticker_resume_effect f ok pick w w' :
  ticker_resume f ok pick w = Some w' ->
  (cs w' = cs w \/ exists st, cs w' = append_feedback_sent st (cs w))
  /\ exists tk tk', tickers w !! f = Some tk /\ ticker_done tk = false
       /\ tickers w' = <[f := tk']> (tickers w).
Proof.
  unfold ticker_resume. intros H.
  destruct (tickers w !! f) as [tk|] eqn:Etk; cbn [mbind option_bind] in H; [|discriminate].
  assert (Hact : forall tk0 act w0, tickers w0 = tickers w ->
            (cs w0 = cs w \/ exists st, cs w0 = append_feedback_sent st (cs w)) ->
            Some (ticker_act f tk0 act w0) = Some w' ->
            (cs w' = cs w \/ exists st, cs w' = append_feedback_sent st (cs w))
            /\ exists tk', tickers w' = <[f := tk']> (tickers w)).
  { intros tk0 act w0 Ht Hc [= <-].
    destruct act; cbn [ticker_act say set_ticker with_tickers cs tickers]; rewrite Ht;
      (split; [exact Hc | eexists; reflexivity]). }
  assert (Hgo : forall tk0 act w0, tickers w0 = tickers w ->
            (cs w0 = cs w \/ exists st, cs w0 = append_feedback_sent st (cs w)) ->
            ticker_done tk = false ->
            Some (ticker_act f tk0 act w0) = Some w' ->
            (cs w' = cs w \/ exists st, cs w' = append_feedback_sent st (cs w))
            /\ exists tk1 tk', Some tk = Some tk1 /\ ticker_done tk1 = false
                 /\ tickers w' = <[f := tk']> (tickers w)).
  { intros tk0 act w0 Ht Hc Hd Hw.
    destruct (Hact tk0 act w0 Ht Hc Hw) as (H1 & tk' & H2).
    split; [exact H1|]. exists tk, tk'. auto. }
  assert (Hd : tk_pc tk <> TkDone -> ticker_done tk = false)
    by (unfold ticker_done; destruct (tk_pc tk); congruence).
  assert (Hsame : cs w = cs w \/ exists st, cs w = append_feedback_sent st (cs w))
    by (left; reflexivity).
  destruct (tk_pc tk) as [|st d|st|] eqn:Hpc; try discriminate;
    specialize (Hd ltac:(discriminate)).
  - destruct (tk_cancel tk); exact (Hgo _ _ w eq_refl Hsame Hd H).
  - destruct (tk_cancel tk); [exact (Hgo _ _ w eq_refl Hsame Hd H)|].
    destruct (now w <? d)%Z; [discriminate|].
    exact (Hgo _ _ w eq_refl Hsame Hd H).
  - destruct (tk_cancel tk); [exact (Hgo _ _ w eq_refl Hsame Hd H)|].
    destruct ok; [|exact (Hgo _ _ w eq_refl Hsame Hd H)].
    cbv zeta in H.
    refine (Hgo _ _ (with_cs (append_feedback_sent st (cs w)) w) eq_refl _ Hd H).
    right. exists st. reflexivity.
Qed.

Section Effects.
Context {U : PyUnicode}.

(** The shared state changes in four ways only: a stage is recorded, a
    call that joins replaces the query and the type of the operation, a
    call starts an operation, a call ends its [finally]. And the clock
    does not go back. *)
Lemma step_cs_effect w ev w' :
  step w ev = Some w' ->
  (now w <= now w')%Z
  /\ (cs w' = cs w
      \/ (exists st, cs w' = append_feedback_sent st (cs w))
      \/ (now w' = now w /\ is_active (cs w) = true /\ exists a, cs w' = supersede a (cs w))
      \/ (now w' = now w
          /\ exists a b f, cs w' = started_state a (now w) b f (last_completed (cs w)))
      \/ (now w' = now w /\ cs w' = idle_state (Some (now w)))).
Proof.
  intros H. split; [eapply step_now_mono, H|].
  assert (Henter : forall a w1 st, enter_operation a w = Some (w1, st) ->
            now w1 = now w
            /\ ((is_active (cs w) = true /\ cs w1 = supersede a (cs w))
                \/ cs w1 = started_state a (now w) (length (backends w)) (length (tickers w))
                             (last_completed (cs w)))).
  { intros a w1 st He.
    destruct (enter_operation_effect _ _ _ _ He)
      as (_ & _ & Hn & _ & _ & l & _ & [(Ha & Hc & _)|(_ & Hc & _)]); auto. }
  destruct ev; cbn [step] in H.
  - destruct (0 <=? dt)%Z; [|discriminate]. injection H as <-. left. reflexivity.
  - unfold query_knowledge_base in H.
    destruct (enter_operation _ w) as [[w1 st]|] eqn:E; [|discriminate].
    injection H as <-. cbn [new_call with_callers cs now].
    destruct (Henter _ _ _ E) as (Hn & [(Ha & Hc)|Hc]); rewrite Hn, Hc.
    + right. right. left. eauto.
    + right. right. right. left. eauto.
  - injection H as <-.
    destruct (schedule_appointment_frame today name phone date day_reference time reason w)
      as (_ & _ & _ & Hc & _). left. exact Hc.
  - unfold confirmed in H.
    destruct (callers w !! c) as [[a|a t|a t|f ret|r]|]; cbn [mbind option_bind] in H;
      try discriminate.
    destruct say_ok; [|injection H as <-; left; reflexivity].
    destruct (enter_operation _ w) as [[w1 st]|] eqn:E; [|discriminate].
    injection H as <-. cbn [set_caller with_callers cs now].
    destruct (Henter _ _ _ E) as (Hn & [(Ha & Hc)|Hc]); rewrite Hn, Hc.
    + right. right. left. eauto.
    + right. right. right. left. eauto.
  - destruct (caller_resume_effect _ _ _ H)
      as (_ & Hn & _ & _ & st0 & st' & _ & _ & Hcase).
    destruct Hcase as [(a & t & r & _ & _ & _ & _ & Hc & _)
                      |[(a & t & _ & _ & _ & Hc & _)
                      |[(a & t & r & f & _ & _ & _ & _ & Hc & _)
                      |[(a & t & r & _ & _ & _ & _ & Hc & _)
                      |(f & ret & tk & _ & _ & _ & _ & Hc & _)]]]]; rewrite Hn, Hc; eauto 10.
  - unfold backend_run in H.
    destruct (backends w !! b) as [[co|co p|r]|]; cbn [mbind option_bind] in H;
      try discriminate.
    destruct (backend_begin _ _ _ _); injection H as <-; left; reflexivity.
  - unfold backend_reply in H.
    destruct (backends w !! b) as [[co|co p|r]|]; cbn [mbind option_bind] in H;
      try discriminate.
    injection H as <-. left. reflexivity.
  - unfold backend_cancel in H.
    destruct (backends w !! b) as [st|]; cbn [mbind option_bind] in H; [|discriminate].
    destruct (backend_done st); [discriminate|]. injection H as <-. left. reflexivity.
  - destruct (ticker_resume_effect _ _ _ _ _ H) as ([Hc|(st & Hc)] & _); eauto.
  - destruct (monitor_resume_cases _ _ _ H) as (_ & Hc & _). left. exact Hc.
  - injection H as <-. left. reflexivity.
  - injection H as <-. left. reflexivity.
  - injection H as <-. left. reflexivity.
Qed.

(** Every transition keeps [state_shape]. *)
Lemma state_shape_step w ev w' : state_shape w -> step w ev = Some w' -> state_shape w'.
Proof.
  intros Hs H. destruct (step_cs_effect _ _ _ H) as (Hn & Hcase).
  unfold state_shape in *.
  destruct Hcase as [Hc|[(st & Hc)|[(Hn' & Ha & a & Hc)|[(Hn' & a & b & f & Hc)|(Hn' & Hc)]]]];
    rewrite Hc; clear Hc;
    cbn [append_feedback_sent supersede started_state idle_state is_active start_time
         operation_type current_query task feedback_task].
  - destruct (is_active (cs w)); [|exact Hs].
    destruct Hs as ((t0 & Ht & Hle) & Hrest). split; [exists t0; split; [exact Ht | lia] | exact Hrest].
  - destruct (is_active (cs w)); [|exact Hs].
    destruct Hs as ((t0 & Ht & Hle) & Hrest). split; [exists t0; split; [exact Ht | lia] | exact Hrest].
  - rewrite Ha in *. destruct Hs as ((t0 & Ht & Hle) & _ & _ & H4 & H5).
    split; [exists t0; split; [exact Ht | lia]|]. repeat split; eauto.
  - split; [eexists; split; [reflexivity | lia]|]. repeat split; eauto.
  - repeat split; reflexivity.
Qed.

Lemma state_shape_reachable t0 sess info evs w :
  run (initial_world t0 sess info) evs = Some w -> state_shape w.
Proof.
  apply (run_invariant state_shape state_shape_step).
  unfold state_shape. cbn. repeat split; reflexivity.
Qed.

End Effects.

(** ** The shared state in every run *)

Section SharedState.
Context {U : PyUnicode}.

(** X14. In every state of every run, cancellations included, the entries of
    [consultation_state] go together: the activity flag is set exactly
    when the task handle is, when the handle of the feedback task is,
    when the start time is, when the type of the operation is, and when
    the query is; and the start time is not in the future. *)
Theorem state_entries_go_together t0 sess info evs w :
  run (initial_world t0 sess info) evs = Some w ->
  (is_active (cs w) = true <-> is_Some (task (cs w)))
  /\ (is_active (cs w) = true <-> is_Some (feedback_task (cs w)))
  /\ (is_active (cs w) = true <-> is_Some (start_time (cs w)))
  /\ (is_active (cs w) = true <-> is_Some (operation_type (cs w)))
  /\ (is_active (cs w) = true <-> is_Some (current_query (cs w)))
  /\ (forall t, start_time (cs w) = Some t -> (t <= now w)%Z).
Proof.
  intros Hrun. pose proof (state_shape_reachable _ _ _ _ _ Hrun) as Hs.
  unfold state_shape in Hs. destruct (is_active (cs w)).
  - destruct Hs as ((s & Hst & Hle) & Ho & Hq & Ht & Hf).
    assert (Hs' : is_Some (start_time (cs w))) by (rewrite Hst; eauto).
    do 5 (split; [split; auto|]).
    intros t. rewrite Hst. intros [= <-]. exact Hle.
  - destruct Hs as (Hst & Ho & Hq & Ht & Hf). rewrite Hst, Ho, Hq, Ht, Hf.
    do 5 (split; [split; [discriminate | intros (? & [=])]|]).
    discriminate.
Qed.

(** X23. In every state of every run [handle_user_impatience] returns an
    utterance, never raises: while an operation is active its start
    time is set and is not after the clock, so that the reply is the
    one of the time elapsed since the operation started; otherwise the
    reply is the offer of help. *)
Theorem impatience_never_raises t0 sess info evs w :
  run (initial_world t0 sess info) evs = Some w ->
  exists msg,
    handle_user_impatience w = Returned msg
    /\ (is_active (cs w) = false -> msg = msg_impatience_idle)
    /\ (is_active (cs w) = true ->
        exists t, start_time (cs w) = Some t /\ (0 <= now w - t)%Z
                  /\ msg = impatience_reply (operation_type (cs w)) (now w - t)%Z).
Proof.
  intros Hrun. pose proof (state_shape_reachable _ _ _ _ _ Hrun) as Hs.
  unfold state_shape in Hs. unfold handle_user_impatience.
  destruct (is_active (cs w)).
  - destruct Hs as ((s & Hst & Hle) & _). rewrite Hst. eexists. split; [reflexivity|].
    split; [discriminate|]. intros _. exists s.
    split; [reflexivity|]. split; [lia | reflexivity].
  - eexists. split; [reflexivity|]. split; [intros _; reflexivity | discriminate].
Qed.

End SharedState.

Lemma state_entries_go_together_witness :
  let w := state_after overlapping_cancelled in
  (is_active (cs w) = true <-> is_Some (task (cs w)))
  /\ (is_active (cs w) = true <-> is_Some (feedback_task (cs w)))
  /\ (is_active (cs w) = true <-> is_Some (start_time (cs w)))
  /\ (is_active (cs w) = true <-> is_Some (operation_type (cs w)))
  /\ (is_active (cs w) = true <-> is_Some (current_query (cs w)))
  /\ (forall t, start_time (cs w) = Some t -> (t <= now w)%Z).
Proof.
  apply (@state_entries_go_together ascii_unicode 0%Z true anonymous overlapping_cancelled).
  vm_compute. reflexivity.
Defined.

Lemma impatience_never_raises_witness :
  let w := state_after overlapping_questions in
  exists msg,
    handle_user_impatience w = Returned msg
    /\ (is_active (cs w) = false -> msg = msg_impatience_idle)
    /\ (is_active (cs w) = true ->
        exists t, start_time (cs w) = Some t /\ (0 <= now w - t)%Z
                  /\ msg = impatience_reply (operation_type (cs w)) (now w - t)%Z).
Proof.
  apply (@impatience_never_raises ascii_unicode 0%Z true anonymous overlapping_questions).
  vm_compute. reflexivity.
Defined.

(** ** Requests to the backend *)

Section Requests.
Context {U : PyUnicode}.

(** What a transition does to the backend tasks and to the requests
    posted: nothing, or a call creates a task, or a task that was not
    done ends, or a task that has not run yet posts its request. *)
Lemma step_backends_effect w ev w' :
  step w ev = Some w' ->
  (posts w' = posts w
   /\ (backends w' = backends w
       \/ (exists co, backends w' = backends w ++ [BCreated co])
       \/ (exists b old r, backends w !! b = Some old /\ backend_done old = false
                           /\ backends w' = <[b := BDone r]> (backends w))))
  \/ (exists b co p url,
        backends w !! b = Some (BCreated co)
        /\ backends w' = <[b := BPosting co p]> (backends w)
        /\ posts w' = posts w ++ [(b, p)]
        /\ backend_begin co url (current_query (cs w)) (participant w) = inr p).
Proof.
  intros H.
  assert (Henter : forall a w1 st, enter_operation a w = Some (w1, st) ->
            posts w1 = posts w
            /\ (backends w1 = backends w
                \/ (exists co, backends w1 = backends w ++ [BCreated co])
                \/ (exists b old r, backends w !! b = Some old /\ backend_done old = false
                                    /\ backends w1 = <[b := BDone r]> (backends w)))).
  { intros a w1 st He.
    destruct (enter_operation_effect _ _ _ _ He)
      as (Hp & _ & _ & _ & _ & l & _ & [(_ & _ & Hb & _)|(_ & _ & Hb & _)]); eauto 6. }
  destruct ev; cbn [step] in H.
  - destruct (0 <=? dt)%Z; [|discriminate]. injection H as <-. left. auto.
  - unfold query_knowledge_base in H.
    destruct (enter_operation _ w) as [[w1 st]|] eqn:E; [|discriminate].
    injection H as <-. left. exact (Henter _ _ _ E).
  - injection H as <-.
    destruct (schedule_appointment_frame today name phone date day_reference time reason w)
      as (_ & _ & Hp & _ & Hb & _). left. auto.
  - unfold confirmed in H.
    destruct (callers w !! c) as [[a|a t|a t|f ret|r]|]; cbn [mbind option_bind] in H;
      try discriminate.
    destruct say_ok; [|injection H as <-; left; auto].
    destruct (enter_operation _ w) as [[w1 st]|] eqn:E; [|discriminate].
    injection H as <-. left. exact (Henter _ _ _ E).
  - destruct (caller_resume_effect _ _ _ H)
      as (Hp & _ & _ & _ & st0 & st' & _ & _ & Hcase). left. split; [exact Hp|].
    destruct Hcase as [(a & t & r & _ & _ & _ & _ & _ & Hb & _)
                      |[(a & t & _ & _ & _ & _ & Hb & _)
                      |[(a & t & r & f & _ & _ & _ & _ & _ & Hb & _)
                      |[(a & t & r & _ & _ & _ & _ & _ & Hb & _)
                      |(f & ret & tk & _ & _ & _ & _ & _ & Hb & _)]]]]; eauto.
  - unfold backend_run in H.
    destruct (backends w !! b) as [[co|co p|r]|] eqn:Eb; cbn [mbind option_bind] in H;
      try discriminate.
    destruct (backend_begin _ _ _ _) as [r|p] eqn:Eg; injection H as <-.
    + left. split; [reflexivity|]. right. right. exists b, (BCreated co), r. auto.
    + right. exists b, co, p, url. auto.
  - unfold backend_reply in H.
    destruct (backends w !! b) as [[co|co p|r]|] eqn:Eb; cbn [mbind option_bind] in H;
      try discriminate.
    injection H as <-. left. split; [reflexivity|]. right. right.
    eexists b, (BPosting co p), _. auto.
  - unfold backend_cancel in H.
    destruct (backends w !! b) as [st|] eqn:Eb; cbn [mbind option_bind] in H; [|discriminate].
    destruct (backend_done st) eqn:Ed; [discriminate|]. injection H as <-.
    left. split; [reflexivity|]. right. right. eexists b, st, _. auto.
  - destruct (ticker_resume_frame _ _ _ _ _ H) as (_ & _ & Hp & _ & Hb & _). left. auto.
  - left. unfold monitor_resume, monitor_loop in H.
    repeat case_match; try discriminate; injection H as <-; auto.
  - injection H as <-. left. auto.
  - injection H as <-. left. auto.
  - injection H as <-. left. auto.
Qed.

Lemma posted_once_step w ev w' : posted_once w -> step w ev = Some w' -> posted_once w'.
Proof.
  intros (Hnd & Hst) H. unfold posted_once.
  destruct (step_backends_effect _ _ _ H)
    as [(Hp & [Hb|[(co & Hb)|(b & old & r & Hold & Hd & Hb)]])
       |(b & co & p & url & Hold & Hb & Hp & _)]; rewrite Hp, Hb.
  - split; assumption.
  - split; [exact Hnd|]. intros b p Hin. destruct (Hst b p Hin) as (st & Hl & Hn).
    exists st. split; [apply lookup_app_l_Some, Hl | exact Hn].
  - split; [exact Hnd|]. intros b' p Hin. destruct (Hst b' p Hin) as (st & Hl & Hn).
    destruct (decide (b = b')) as [<-|Hne].
    + exists (BDone r). split; [|discriminate].
      apply list_lookup_insert_eq. eapply lookup_lt_Some, Hold.
    + exists st. rewrite list_lookup_insert_ne by exact Hne. auto.
  - split.
    + rewrite fmap_app. cbn [fmap list_fmap fst]. apply NoDup_app. split; [exact Hnd|].
      split; [|apply NoDup_singleton].
      intros b' Hin Hin'. apply list_elem_of_singleton in Hin'. subst b'.
      apply list_elem_of_fmap in Hin as ([b' p'] & Hb' & Hin). cbn in Hb'. subst b'.
      destruct (Hst b p' Hin) as (st & Hl & Hn). rewrite Hold in Hl. injection Hl as <-.
      exact (Hn co eq_refl).
    + intros b' p' Hin.
      assert (Hnew : <[b := BPosting co p]> (backends w) !! b = Some (BPosting co p))
        by (apply list_lookup_insert_eq; eapply lookup_lt_Some, Hold).
      destruct (decide (b = b')) as [<-|Hne]; [eexists; split; [exact Hnew | discriminate]|].
      apply elem_of_app in Hin as [Hin|Hin].
      * destruct (Hst b' p' Hin) as (st & Hl & Hn).
        exists st. rewrite list_lookup_insert_ne by exact Hne. auto.
      * apply list_elem_of_singleton in Hin. congruence.
Qed.

Lemma posted_once_reachable t0 sess info evs w :
  run (initial_world t0 sess info) evs = Some w -> posted_once w.
Proof.
  apply (run_invariant posted_once posted_once_step).
  split; [constructor|]. intros b p Hin. cbn in Hin. apply elem_of_nil in Hin. contradiction.
Qed.

(** X13. In every run, cancellations included, no backend task posts twice:
    the requests posted come from different tasks, each past its first
    run, so that there are no more requests than operations started.
    Nothing retries a request. *)
Theorem no_request_twice t0 sess info evs w :
  run (initial_world t0 sess info) evs = Some w ->
  NoDup (posts w).*1
  /\ (forall b p, (b, p) ∈ posts w ->
        exists st, backends w !! b = Some st /\ forall co, st <> BCreated co)
  /\ length (posts w) <= length (backends w).
Proof.
  intros Hrun. destruct (posted_once_reachable _ _ _ _ _ Hrun) as (Hnd & Hst).
  split; [exact Hnd|]. split; [exact Hst|].
  assert (Hlen : length (seq 0 (length (backends w))) = length (backends w))
    by apply length_seq.
  rewrite <- (length_fmap fst (posts w)), <- Hlen.
  apply submseteq_length, NoDup_submseteq; [exact Hnd|].
  intros b Hb. apply list_elem_of_fmap in Hb as ([b' p] & -> & Hin).
  destruct (Hst b' p Hin) as (st & Hl & _). apply elem_of_seq.
  apply lookup_lt_Some in Hl. cbn. lia.
Qed.

End Requests.

Lemma no_request_twice_witness :
  let w := state_after overlapping_cancelled in
  NoDup (posts w).*1
  /\ (forall b p, (b, p) ∈ posts w ->
        exists st, backends w !! b = Some st /\ forall co, st <> BCreated co)
  /\ length (posts w) <= length (backends w).
Proof.
  apply (@no_request_twice ascii_unicode 0%Z true anonymous overlapping_cancelled).
  vm_compute. reflexivity.
Defined.

(** ** Appointments that reach the backend *)

Lemma truthy_msg (s : pystr) : s <> [] -> truthy (Some s) = true.
Proof. destruct s; [intros H; contradiction H; reflexivity | reflexivity]. Qed.

Lemma truthy_default (o : option pystr) : truthy o = true -> default [] o <> [].
Proof. destruct o as [[|c r]|]; discriminate. Qed.

Section ValidatedRequests.
Context {U : PyUnicode}.

Lemma peru_mobile_strip p : peru_mobile p -> strip p = p.
Proof. intros (H & _). apply strip_no_space, H. Qed.

Lemma calendar_date_strip s : calendar_date s -> strip s = s.
Proof. intros (d & Hd & ->). apply strip_dateish, strftime_dateish, Hd. Qed.

(** A phone [normalize_phone] gives with no message is a mobile number
    of Peru. *)
Lemma normalize_phone_valid phone np pe :
  normalize_phone phone = (np, pe) -> truthy pe = false ->
  exists p, np = Some p /\ peru_mobile p.
Proof.
  destruct phone as [[|c r]|].
  - intros [= <- <-] H. vm_compute in H. discriminate.
  - destruct (normalize_phone_cases (c :: r)) as (Hclean & ->); [|discriminate].
    cbv zeta in Hclean. destruct (re_match_phone _) eqn:E.
    + intros [= <- <-] _. eexists. split; [reflexivity|]. split.
      * eapply Forall_impl; [exact Hclean|]. intros x. apply phone_noise_space.
      * apply re_match_phone_shape; assumption.
    + intros [= <- <-] H. vm_compute in H. discriminate.
  - intros [= <- <-] H. vm_compute in H. discriminate.
Qed.

(** What is posted for a validated coroutine is validated. *)
Lemma backend_begin_validated co url q info p :
  validated_coro co -> backend_begin co url q info = inr p -> validated_payload p.
Proof.
  unfold backend_begin. destruct (negb (truthy url)); [discriminate|].
  destruct co as [|name phone date time reason].
  - destruct q; [|discriminate]. intros _ [= <-]. exact I.
  - intros (_ & Hp & Hd & _) [= <-]. cbn [validated_payload].
    rewrite (peru_mobile_strip _ Hp), (calendar_date_strip _ Hd). auto.
Qed.

(** [schedule_appointment] asks for a confirmation only with arguments
    that passed the validation; otherwise it returns at once. *)
Lemma schedule_appointment_effect today name phone date day_reference time reason w :
  valid_date today = true ->
  let w' := schedule_appointment today name phone date day_reference time reason w in
  exists st, callers w' = callers w ++ [st]
    /\ match st with
       | CConfirming a => validated_coro (args_coro a)
       | CFinished _ => True
       | _ => False
       end.
Proof.
  intros Hv. cbv zeta. unfold schedule_appointment.
  destruct (normalize_phone phone) as [np pe] eqn:Ep.
  destruct (truthy pe) eqn:Etp; [eexists; split; [reflexivity | exact I]|].
  destruct (normalize_phone_valid _ _ _ Ep Etp) as (p & -> & Hp).
  destruct (parse_relative_date today date day_reference) as [[fd de]|e] eqn:Ed;
    [|eexists; split; [reflexivity | exact I]].
  destruct (truthy de); [eexists; split; [reflexivity | exact I]|].
  destruct (truthy name) eqn:Etn; cbn [negb app];
    [|eexists; split; [reflexivity | exact I]].
  assert (Htp : truthy (Some p) = true).
  { apply truthy_msg. destruct Hp as (_ & ds & -> & _). rewrite py_plus51. discriminate. }
  rewrite Htp. cbn [negb app].
  destruct fd as [s|]; [|cbn [truthy negb app]; eexists; split; [reflexivity | exact I]].
  destruct (parse_relative_date_returns _ _ _ _ _ Hv Ed) as (_ & d & Hd & _ & -> & _).
  assert (Hts : truthy (Some (strftime_dmy d)) = true) by reflexivity.
  rewrite Hts. cbn [negb app].
  destruct (truthy time) eqn:Ett; cbn [negb];
    [|eexists; split; [reflexivity | exact I]].
  destruct (session w); (eexists; split; [reflexivity|]); [|exact I].
  cbn [args_coro validated_coro from_option id].
  split; [apply truthy_default, Etn|]. split; [exact Hp|].
  split; [exists d; auto | apply truthy_default, Ett].
Qed.

Lemma requests_validated_step w ev w' :
  match ev with
  | EvSchedule today _ _ _ _ _ _ => valid_date today = true
  | _ => True
  end ->
  requests_validated w -> step w ev = Some w' -> requests_validated w'.
Proof.
  intros Hday (HC & HJ & HB & HP) H.
  (* the calls change by one status that is validated *)
  assert (Hcallers : forall l : list CStatus,
            (forall c a, l !! c = Some (CConfirming a) ->
               callers w !! c = Some (CConfirming a) \/ validated_coro (args_coro a)) ->
            (forall c a t, l !! c = Some (CJoined a t) ->
               callers w !! c = Some (CJoined a t) \/ validated_coro (args_coro a)) ->
            (forall c a, l !! c = Some (CConfirming a) -> validated_coro (args_coro a))
            /\ (forall c a t, l !! c = Some (CJoined a t) -> validated_coro (args_coro a))).
  { intros l H1 H2. split.
    - intros c a Hc. destruct (H1 c a Hc) as [Hold|Hnew]; [eapply HC, Hold | exact Hnew].
    - intros c a t Hc. destruct (H2 c a t Hc) as [Hold|Hnew]; [eapply HJ, Hold | exact Hnew]. }
  assert (Hset : forall c st,
            match st with
            | CConfirming a | CJoined a _ => validated_coro (args_coro a)
            | _ => True
            end ->
            (forall c' a, <[c := st]> (callers w) !! c' = Some (CConfirming a) ->
               validated_coro (args_coro a))
            /\ (forall c' a t, <[c := st]> (callers w) !! c' = Some (CJoined a t) ->
                  validated_coro (args_coro a))).
  { intros c st Hst. apply Hcallers.
    - intros c' a Hc. destruct (decide (c = c')) as [<-|Hne].
      + apply list_lookup_insert_Some in Hc as [(_ & -> & _)|(Hx & _)]; [right; exact Hst | congruence].
      + rewrite list_lookup_insert_ne in Hc by exact Hne. left. exact Hc.
    - intros c' a t Hc. destruct (decide (c = c')) as [<-|Hne].
      + apply list_lookup_insert_Some in Hc as [(_ & -> & _)|(Hx & _)]; [right; exact Hst | congruence].
      + rewrite list_lookup_insert_ne in Hc by exact Hne. left. exact Hc. }
  assert (Hnew : forall st,
            match st with
            | CConfirming a | CJoined a _ => validated_coro (args_coro a)
            | _ => True
            end ->
            (forall c' a, (callers w ++ [st]) !! c' = Some (CConfirming a) ->
               validated_coro (args_coro a))
            /\ (forall c' a t, (callers w ++ [st]) !! c' = Some (CJoined a t) ->
                  validated_coro (args_coro a))).
  { intros st Hst. apply Hcallers.
    - intros c' a Hc. apply lookup_app_Some in Hc as [Hc|(_ & Hc)]; [left; exact Hc|].
      apply list_lookup_singleton_Some in Hc as (_ & ->). right. exact Hst.
    - intros c' a t Hc. apply lookup_app_Some in Hc as [Hc|(_ & Hc)]; [left; exact Hc|].
      apply list_lookup_singleton_Some in Hc as (_ & ->). right. exact Hst. }
  (* a task is created for a validated coroutine *)
  assert (Happ : forall co, validated_coro co ->
            forall b co', (backends w ++ [BCreated co]) !! b = Some (BCreated co') ->
                          validated_coro co').
  { intros co Hco b co' Hb. apply lookup_app_Some in Hb as [Hb|(_ & Hb)]; [eapply HB, Hb|].
    apply list_lookup_singleton_Some in Hb as (_ & [= <-]). exact Hco. }
  assert (Hins : forall b st, (forall co, st <> BCreated co) ->
            forall b' co', <[b := st]> (backends w) !! b' = Some (BCreated co') ->
                           validated_coro co').
  { intros b st Hst b' co' Hb. destruct (decide (b = b')) as [<-|Hne].
    - apply list_lookup_insert_Some in Hb as [(_ & Hx & _)|(Hx & _)]; [|congruence].
      exfalso. exact (Hst co' Hx).
    - rewrite list_lookup_insert_ne in Hb by exact Hne. eapply HB, Hb. }
  (* a tool call enters *)
  assert (Henter : forall a w1 st, validated_coro (args_coro a) ->
            enter_operation a w = Some (w1, st) ->
            posts w1 = posts w /\ callers w1 = callers w
            /\ match st with
               | CConfirming a | CJoined a _ => validated_coro (args_coro a)
               | _ => True
               end
            /\ (forall b co, backends w1 !! b = Some (BCreated co) -> validated_coro co)).
  { intros a w1 st Ha He.
    destruct (enter_operation_effect _ _ _ _ He)
      as (Hp & Hc & _ & _ & _ & l & _ & [(_ & _ & Hb & _ & t & _ & Hst)|(_ & _ & Hb & _ & ->)]).
    - repeat (split; [assumption|]). split; [|rewrite Hb; exact HB].
      destruct Hst as [(bst & _ & _ & ->)|(r & _ & _ & ->)]; [exact Ha | exact I].
    - repeat (split; [assumption|]). split; [exact I|]. rewrite Hb. apply Happ, Ha. }
  unfold requests_validated.
  destruct ev; cbn [step] in H.
  - destruct (0 <=? dt)%Z; [|discriminate]. injection H as <-. repeat split; assumption.
  - unfold query_knowledge_base in H.
    destruct (enter_operation _ w) as [[w1 st]|] eqn:E; [|discriminate].
    injection H as <-. destruct (Henter (QueryArgs question) _ _ I E) as (Hp & Hc & Hst & Hb).
    cbn [new_call with_callers callers backends posts]. rewrite Hc, Hp.
    destruct (Hnew st Hst) as (H1 & H2). repeat split; assumption.
  - injection H as <-.
    destruct (schedule_appointment_frame today name phone date day_reference time reason w)
      as (_ & _ & Hp & _ & Hb & _).
    destruct (schedule_appointment_effect today name phone date day_reference time reason w Hday)
      as (st & Hc & Hst).
    rewrite Hp, Hb, Hc.
    assert (Hst' : match st with
                   | CConfirming a | CJoined a _ => validated_coro (args_coro a)
                   | _ => True
                   end) by (destruct st; try exact I; try contradiction; exact Hst).
    destruct (Hnew st Hst') as (H1 & H2). repeat split; assumption.
  - unfold confirmed in H.
    destruct (callers w !! c) as [[a|a t|a t|f ret|r]|] eqn:Ec; cbn [mbind option_bind] in H;
      try discriminate.
    destruct say_ok.
    + destruct (enter_operation _ w) as [[w1 st]|] eqn:E; [|discriminate].
      injection H as <-. destruct (Henter _ _ _ (HC _ _ Ec) E) as (Hp & Hc & Hst & Hb).
      cbn [set_caller with_callers callers backends posts]. rewrite Hc, Hp.
      destruct (Hset c st Hst) as (H1 & H2). repeat split; assumption.
    + injection H as <-. cbn [set_caller with_callers callers backends posts].
      destruct (Hset c (CFinished (Raised (OtherException "RuntimeError"))) I) as (H1 & H2).
      repeat split; assumption.
  - destruct (caller_resume_effect _ _ _ H)
      as (Hp & _ & _ & _ & st0 & st' & Hc0 & Hc & Hcase). rewrite Hp, Hc.
    destruct Hcase as [(a & t & r & _ & _ & _ & -> & _ & Hb & _)
                      |[(a & t & -> & _ & -> & _ & Hb & _)
                      |[(a & t & r & f & _ & _ & _ & -> & _ & Hb & _)
                      |[(a & t & r & _ & _ & _ & -> & _ & Hb & _)
                      |(f & ret & tk & _ & _ & _ & -> & _ & Hb & _)]]]];
      rewrite Hb;
      match goal with |- context [<[c := ?s]> (callers w)] =>
        destruct (Hset c s I) as (H1 & H2) end;
      repeat split; try assumption.
    apply Happ. eapply HJ, Hc0.
  - unfold backend_run in H.
    destruct (backends w !! b) as [[co|co p|r]|] eqn:Eb; cbn [mbind option_bind] in H;
      try discriminate.
    destruct (backend_begin _ _ _ _) as [r|p] eqn:Eg; injection H as <-;
      cbn [post set_backend with_backends callers backends posts].
    + repeat split; try assumption. apply Hins. discriminate.
    + repeat split; try assumption; [apply Hins; discriminate|].
      intros b' p' Hin. apply elem_of_app in Hin as [Hin|Hin]; [eapply HP, Hin|].
      apply list_elem_of_singleton in Hin. injection Hin as -> ->.
      eapply backend_begin_validated; [eapply HB, Eb | exact Eg].
  - unfold backend_reply in H.
    destruct (backends w !! b) as [[co|co p|r]|] eqn:Eb; cbn [mbind option_bind] in H;
      try discriminate.
    injection H as <-. cbn [set_backend with_backends callers backends posts].
    repeat split; try assumption. apply Hins. discriminate.
  - unfold backend_cancel in H.
    destruct (backends w !! b) as [st|] eqn:Eb; cbn [mbind option_bind] in H; [|discriminate].
    destruct (backend_done st) eqn:Ed; [discriminate|]. injection H as <-.
    cbn [set_backend with_backends callers backends posts].
    repeat split; try assumption. apply Hins. discriminate.
  - destruct (ticker_resume_frame _ _ _ _ _ H) as (_ & _ & Hp & Hc & Hb & _).
    rewrite Hp, Hc, Hb. repeat split; assumption.
  - assert (Hsame : callers w' = callers w /\ backends w' = backends w /\ posts w' = posts w).
    { unfold monitor_resume, monitor_loop in H.
      repeat case_match; try discriminate; injection H as <-; auto. }
    destruct Hsame as (-> & -> & ->). repeat split; assumption.
  - injection H as <-. repeat split; assumption.
  - injection H as <-. repeat split; assumption.
  - injection H as <-. repeat split; assumption.
Qed.

Lemma requests_validated_reachable t0 sess info evs w :
  run (initial_world t0 sess info) evs = Some w -> real_days evs -> requests_validated w.
Proof.
  assert (H0 : requests_validated (initial_world t0 sess info)).
  { split; [|split; [|split]].
    - intros c a Hx. cbn in Hx. rewrite lookup_nil in Hx. discriminate.
    - intros c a t Hx. cbn in Hx. rewrite lookup_nil in Hx. discriminate.
    - intros b co Hx. cbn in Hx. rewrite lookup_nil in Hx. discriminate.
    - intros b p Hx. cbn in Hx. apply elem_of_nil in Hx. contradiction. }
  revert H0. generalize (initial_world t0 sess info) as w0.
  induction evs as [|ev evs IH]; intros w0 H0 Hrun Hd.
  - injection Hrun as <-. exact H0.
  - cbn [run] in Hrun. destruct (step w0 ev) as [w1|] eqn:E; [|discriminate].
    cbn [mbind option_bind] in Hrun. apply Forall_cons in Hd as (Hev & Hd).
    apply (IH w1); [eapply requests_validated_step; eassumption | exact Hrun | exact Hd].
Qed.

(** X12. In every run, cancellations included, in which the appointments are
    asked for on days of the calendar, every request for an appointment
    that is posted carries a phone that is [+51] and nine decimal
    digits and a date that is the writing [DD/MM/YYYY] of a day of the
    calendar. *)
Theorem appointment_requests_validated t0 sess info evs w b caller name phone date time reason :
  run (initial_world t0 sess info) evs = Some w -> real_days evs ->
  (b, AppointmentPayload caller name phone date time reason) ∈ posts w ->
  peru_mobile phone /\ calendar_date date.
Proof.
  intros Hrun Hd Hin.
  destruct (requests_validated_reachable _ _ _ _ _ Hrun Hd) as (_ & _ & _ & HP).
  exact (HP _ _ Hin).
Qed.

End ValidatedRequests.

Lemma appointment_requests_validated_witness :
  real_days appointment_timeout
  /\ @peru_mobile ascii_unicode (py "+51987654321") /\ calendar_date (py "06/08/2025").
Proof.
  assert (Hd : real_days appointment_timeout) by (repeat constructor).
  split; [exact Hd|].
  apply (@appointment_requests_validated ascii_unicode 0%Z true anonymous appointment_timeout
           (state_after appointment_timeout) 0 anonymous (py "Ana Torres") _ _ (py "10:00")
           (py "Cita con gerente comercial")).
  - vm_compute. reflexivity.
  - exact Hd.
  - vm_compute. constructor.
Defined.

(** ** One feedback task at a time *)

Lemma running_feedback_none w f :
  running_feedback w = None -> feedback_task (cs w) = Some f -> ~ ticker_alive f w.
Proof.
  unfold running_feedback. intros H Hf (tk & Htk & Hd). rewrite Hf, Htk, Hd in H.
  discriminate.
Qed.

Lemma same_liveness_alive w w' f :
  same_liveness (tickers w) (tickers w') -> ticker_alive f w' -> ticker_alive f w.
Proof.
  intros (_ & Hl) (tk' & Htk' & Hd). destruct (Hl f tk' Htk') as (tk & Htk & Heq).
  exists tk. split; [exact Htk | congruence].
Qed.

Section FeedbackTasks.
Context {U : PyUnicode}.

(** [schedule_appointment] adds a call that is asking for the
    confirmation or has returned. *)
Lemma schedule_appointment_call today name phone date day_reference time reason w :
  exists st,
    callers (schedule_appointment today name phone date day_reference time reason w)
    = callers w ++ [st]
    /\ forall f ret, st <> CCleaning f ret.
Proof.
  unfold schedule_appointment.
  repeat case_match; (eexists; split; [reflexivity | discriminate]).
Qed.

Lemma feedback_exclusive_step w ev w' :
  single_flight w -> feedback_exclusive w -> step w ev = Some w' ->
  (forall b, ev <> EvBackendCancel b) ->
  feedback_exclusive w'.
Proof.
  intros Hsf (T1 & T2 & T3) H Hnc.
  assert (Hsame : tickers w' = tickers w -> cs w' = cs w -> callers w' = callers w ->
            feedback_exclusive w').
  { intros Ht Hc Hca. unfold feedback_exclusive, ticker_alive. rewrite Ht, Hc, Hca.
    split; [exact T1 | split; [exact T2 | exact T3]]. }
  (* one call changes, not to the wait in [finally]; the rest of the state is kept
     but for the query, the type of the operation and the record of the stages *)
  assert (Hkeep : forall c st,
            same_liveness (tickers w) (tickers w') ->
            is_active (cs w') = is_active (cs w) ->
            feedback_task (cs w') = feedback_task (cs w) ->
            (is_active (cs w) = false -> feedback_sent (cs w') = feedback_sent (cs w)) ->
            (forall f ret, st <> CCleaning f ret) ->
            (callers w' = <[c := st]> (callers w) \/ callers w' = callers w ++ [st]) ->
            feedback_exclusive w').
  { intros c st Hl Ha Hf Hfs Hst Hca. unfold feedback_exclusive. rewrite Ha, Hf.
    split; [|split].
    - intros f Hal. apply T1. eapply same_liveness_alive; eassumption.
    - intros c' f ret Hc'. apply (T2 c' f ret). destruct Hca as [Hca|Hca]; rewrite Hca in Hc'.
      + apply list_lookup_insert_Some in Hc' as [(_ & Hx & _)|(_ & Hx)]; [|exact Hx].
        exfalso. exact (Hst f ret Hx).
      + apply lookup_app_Some in Hc' as [Hx|(_ & Hx)]; [exact Hx|].
        apply list_lookup_singleton_Some in Hx as (_ & Hx). exfalso. exact (Hst f ret Hx).
    - intros Hi. rewrite (Hfs Hi). apply T3, Hi. }
  (* a call ends its [finally] when no feedback task is alive *)
  assert (Hidle : forall c st0 st x,
            callers w !! c = Some st0 -> owns_operation st0 ->
            (forall f, ~ ticker_alive f w) ->
            tickers w' = tickers w -> cs w' = idle_state x ->
            callers w' = <[c := CFinished st]> (callers w) ->
            feedback_exclusive w').
  { intros c st0 st x Hc0 Ho Hdead Ht Hc Hca. unfold feedback_exclusive, ticker_alive.
    rewrite Ht, Hc, Hca. split; [|split].
    - intros f Hal. exfalso. exact (Hdead f Hal).
    - intros c' f ret Hc'.
      apply list_lookup_insert_Some in Hc' as [(_ & Hx & _)|(Hne & Hx)]; [discriminate|].
      exfalso. apply Hne. destruct Hsf as (_ & _ & _ & HD & _).
      eapply HD; [exact Hc0 | exact Hx | exact Ho | exact I].
    - reflexivity. }
  (* a tool call enters *)
  assert (Henter : forall a w1 st c,
            enter_operation a w = Some (w1, st) ->
            tickers w' = tickers w1 -> cs w' = cs w1 ->
            (callers w' = <[c := st]> (callers w) \/ callers w' = callers w ++ [st]) ->
            feedback_exclusive w').
  { intros a w1 st c He Ht Hc Hca.
    destruct (enter_operation_effect _ _ _ _ He)
      as (_ & _ & _ & _ & _ & l & Hl
          & [(Ha & Hc1 & _ & Ht1 & t & _ & Hst)|(Hpre & Hc1 & _ & Ht1 & Hst)]).
    - apply (Hkeep c st); try assumption.
      + rewrite Ht, Ht1. exact Hl.
      + rewrite Hc, Hc1. reflexivity.
      + rewrite Hc, Hc1. reflexivity.
      + rewrite Hc, Hc1. reflexivity.
      + destruct Hst as [(bst & _ & _ & ->)|(r & _ & _ & ->)]; discriminate.
    - assert (Hi : is_active (cs w) = false).
      { destruct Hsf as (_ & _ & _ & _ & HE & HG).
        destruct (is_active (cs w)) eqn:Ea; [|reflexivity]. exfalso.
        destruct (HG eq_refl) as (t & bst & Ht0 & Hb0).
        destruct Hpre as [Hx|[Hx|(t' & Hx & Hy)]];
          first [congruence | exact (HE t' Hy)]. }
      unfold feedback_exclusive, ticker_alive. rewrite Hc, Hc1, Ht, Ht1.
      cbn [started_state is_active feedback_task feedback_sent].
      split; [|split].
      + intros f (tk & Htk & Hd). split; [reflexivity|]. f_equal.
        apply lookup_app_Some in Htk as [Htk|(Hge & Htk)].
        * exfalso. destruct (proj2 Hl f tk Htk) as (tk0 & Htk0 & Heq).
          assert (Hal : ticker_alive f w) by (exists tk0; split; [exact Htk0 | congruence]).
          destruct (T1 f Hal). congruence.
        * apply list_lookup_singleton_Some in Htk as (Hz & _). rewrite (proj1 Hl) in *. lia.
      + intros c' f ret Hc'. exfalso.
        assert (Hold : callers w !! c' = Some (CCleaning f ret)).
        { subst st. destruct Hca as [Hca|Hca]; rewrite Hca in Hc'.
          - apply list_lookup_insert_Some in Hc' as [(_ & Hx & _)|(_ & Hx)];
              [discriminate | exact Hx].
          - apply lookup_app_Some in Hc' as [Hx|(_ & Hx)]; [exact Hx|].
            apply list_lookup_singleton_Some in Hx as (_ & Hx). discriminate. }
        destruct Hsf as (_ & _ & HC & _). destruct (HC _ _ _ Hold). congruence.
      + discriminate. }
  destruct ev; cbn [step] in H.
  - destruct (0 <=? dt)%Z; [|discriminate]. injection H as <-. apply Hsame; reflexivity.
  - unfold query_knowledge_base in H.
    destruct (enter_operation _ w) as [[w1 st]|] eqn:E; [|discriminate].
    injection H as <-. apply (Henter _ _ _ 0 E); try reflexivity.
    right. cbn [new_call with_callers callers].
    destruct (enter_operation_frame _ _ _ _ E) as (_ & _ & _ & -> & _). reflexivity.
  - injection H as <-.
    destruct (schedule_appointment_frame today name phone date day_reference time reason w)
      as (_ & _ & _ & Hc & _ & Ht & _).
    destruct (schedule_appointment_call today name phone date day_reference time reason w)
      as (st & Hca & Hst).
    apply (Hkeep 0 st); try assumption; try (rewrite Hc; reflexivity).
    + rewrite Ht. apply same_liveness_refl.
    + right. exact Hca.
  - unfold confirmed in H.
    destruct (callers w !! c) as [[a|a t|a t|f ret|r]|] eqn:Ec; cbn [mbind option_bind] in H;
      try discriminate.
    destruct say_ok.
    + destruct (enter_operation _ w) as [[w1 st]|] eqn:E; [|discriminate].
      injection H as <-. apply (Henter _ _ _ c E); try reflexivity.
      left. cbn [set_caller with_callers callers].
      destruct (enter_operation_frame _ _ _ _ E) as (_ & _ & _ & -> & _). reflexivity.
    + injection H as <-.
      apply (Hkeep c (CFinished (Raised (OtherException "RuntimeError"))));
        try reflexivity; try discriminate; [apply same_liveness_refl | left; reflexivity].
  - destruct (caller_resume_effect _ _ _ H)
      as (_ & _ & _ & _ & st0 & st' & Hc0 & Hca & Hcase).
    destruct Hcase as [(a & t & r & _ & _ & _ & -> & Hc & _ & Ht)
                      |[(a & t & _ & Hb & _)
                      |[(a & t & r & f & -> & _ & Hrf & -> & Hc & _ & Hl)
                      |[(a & t & r & -> & _ & Hrf & -> & Hc & _ & Ht)
                      |(f & ret & tk & -> & Htk & Hd & -> & Hc & _ & Ht)]]]].
    + apply (Hkeep c (CFinished r)); try (rewrite Hc; reflexivity); try discriminate;
        [rewrite Ht; apply same_liveness_refl | left; exact Hca].
    + exfalso. destruct Hsf as (_ & _ & _ & _ & HE & _). exact (HE t Hb).
    + destruct (running_feedback_alive w f Hrf) as (Hft & _).
      unfold feedback_exclusive. rewrite Hc, Hca. split; [|split].
      * intros f' Hal. apply T1. eapply same_liveness_alive; eassumption.
      * intros c' f' ret Hc'.
        apply list_lookup_insert_Some in Hc' as [(_ & Hx & _)|(_ & Hx)];
          [congruence | exact (T2 _ _ _ Hx)].
      * exact T3.
    + eapply (Hidle c); try eassumption; [exact I|].
      intros f Hal. destruct (T1 f Hal) as (_ & Hft).
      exact (running_feedback_none w f Hrf Hft Hal).
    + eapply (Hidle c); try eassumption; [exact I|].
      intros f' Hal. destruct (T1 f' Hal) as (_ & Hft).
      rewrite (T2 _ _ _ Hc0) in Hft. injection Hft as <-.
      destruct Hal as (tk' & Htk' & Hd'). congruence.
  - apply Hsame; unfold backend_run in H;
      (destruct (backends w !! b) as [[co|co p|r]|]; cbn [mbind option_bind] in H;
       try discriminate);
      destruct (backend_begin _ _ _ _); injection H as <-; reflexivity.
  - apply Hsame; unfold backend_reply in H;
      (destruct (backends w !! b) as [[co|co p|r]|]; cbn [mbind option_bind] in H;
       try discriminate);
      injection H as <-; reflexivity.
  - exfalso. exact (Hnc b eq_refl).
  - destruct (ticker_resume_effect _ _ _ _ _ H) as (Hc & tk & tk' & Htk & Hd & Ht).
    destruct (ticker_resume_frame _ _ _ _ _ H) as (_ & _ & _ & Hca & _).
    assert (Hal : ticker_alive f w) by (exists tk; auto).
    destruct (T1 f Hal) as (Ha & Hft).
    assert (Hcore : is_active (cs w') = is_active (cs w)
                    /\ feedback_task (cs w') = feedback_task (cs w))
      by (destruct Hc as [->|(st & ->)]; split; reflexivity).
    destruct Hcore as (Ha' & Hft').
    unfold feedback_exclusive. rewrite Ha', Hft', Hca. split; [|split].
    + intros f' (tk0 & Htk0 & Hd0). rewrite Ht in Htk0. destruct (decide (f = f')) as [<-|Hne].
      * auto.
      * rewrite list_lookup_insert_ne in Htk0 by exact Hne. apply T1. exists tk0. auto.
    + exact T2.
    + congruence.
  - apply Hsame; unfold monitor_resume, monitor_loop in H;
      repeat case_match; try discriminate; injection H as <-; reflexivity.
  - injection H as <-. apply Hsame; reflexivity.
  - injection H as <-. apply Hsame; reflexivity.
  - injection H as <-. apply Hsame; reflexivity.
Qed.

Lemma feedback_exclusive_reachable t0 sess info evs w :
  run (initial_world t0 sess info) evs = Some w -> no_cancellation evs ->
  single_flight w /\ feedback_exclusive w.
Proof.
  assert (H0 : single_flight (initial_world t0 sess info)
               /\ feedback_exclusive (initial_world t0 sess info)).
  { split; [apply single_flight_initial|]. split; [|split].
    - intros f (tk & Htk & _). cbn in Htk. rewrite lookup_nil in Htk. discriminate.
    - intros c f ret Hc. cbn in Hc. rewrite lookup_nil in Hc. discriminate.
    - reflexivity. }
  revert H0. generalize (initial_world t0 sess info) as w0.
  induction evs as [|ev evs IH]; intros w0 (Hsf & Hfe) Hrun Hnc.
  - injection Hrun as <-. auto.
  - cbn [run] in Hrun. destruct (step w0 ev) as [w1|] eqn:E; [|discriminate].
    cbn [mbind option_bind] in Hrun. apply Forall_cons in Hnc as (Hev & Hnc).
    apply (IH w1); [split | exact Hrun | exact Hnc].
    + eapply single_flight_step; eassumption.
    + eapply feedback_exclusive_step; eassumption.
Qed.

End FeedbackTasks.

Section FeedbackGuarantees.
Context {U : PyUnicode}.

(** X15. In a run in which no backend task is cancelled, at most one feedback
    task is alive at any time, and a feedback task that is alive is the
    one of the operation that is active. *)
Theorem one_feedback_task t0 sess info evs w :
  run (initial_world t0 sess info) evs = Some w -> no_cancellation evs ->
  (forall f1 f2, ticker_alive f1 w -> ticker_alive f2 w -> f1 = f2)
  /\ (forall f, ticker_alive f w ->
        is_active (cs w) = true /\ feedback_task (cs w) = Some f).
Proof.
  intros Hrun Hnc.
  destruct (feedback_exclusive_reachable _ _ _ _ _ Hrun Hnc) as (_ & T1 & _).
  split; [|exact T1]. intros f1 f2 H1 H2.
  destruct (T1 f1 H1) as (_ & E1). destruct (T1 f2 H2) as (_ & E2). congruence.
Qed.

(** X16. In a run in which no backend task is cancelled, while no operation
    is active no feedback task is alive, so that none can resume and
    speak, and the record of the stages spoken is empty. *)
Theorem no_feedback_after_completion t0 sess info evs w :
  run (initial_world t0 sess info) evs = Some w -> no_cancellation evs ->
  is_active (cs w) = false ->
  feedback_sent (cs w) = []
  /\ (forall f tk, tickers w !! f = Some tk -> ticker_done tk = true)
  /\ (forall f say_ok pick, ticker_resume f say_ok pick w = None).
Proof.
  intros Hrun Hnc Hi.
  destruct (feedback_exclusive_reachable _ _ _ _ _ Hrun Hnc) as (_ & T1 & _ & T3).
  assert (Hdone : forall f tk, tickers w !! f = Some tk -> ticker_done tk = true).
  { intros f tk Htk. destruct (ticker_done tk) eqn:Ed; [reflexivity|]. exfalso.
    destruct (T1 f) as (Ha & _); [exists tk; auto | congruence]. }
  split; [exact (T3 Hi)|]. split; [exact Hdone|].
  intros f say_ok pick. unfold ticker_resume.
  destruct (tickers w !! f) as [tk|] eqn:Htk; [|reflexivity].
  cbn [mbind option_bind]. pose proof (Hdone f tk Htk) as Hd. unfold ticker_done in Hd.
  destruct (tk_pc tk); try discriminate. reflexivity.
Qed.

(** X17. In a run in which no backend task is cancelled, the call that
    started an operation whose task returned a value returns that very
    value: it resumes into its [finally] with the value to return, the
    start time being still set when the elapsed time is computed. *)
Theorem creator_returns_the_answer t0 sess info evs w c a t v :
  run (initial_world t0 sess info) evs = Some w -> no_cancellation evs ->
  callers w !! c = Some (CAwaiting a t) ->
  backends w !! t = Some (BDone (Returned v)) ->
  exists w', step w (EvCaller c) = Some w'
    /\ (callers w' !! c = Some (CFinished (Returned v))
        \/ exists f, callers w' !! c = Some (CCleaning f v)).
Proof.
  intros Hrun Hnc Hc Hb.
  pose proof (single_flight_reachable _ _ _ _ _ Hrun Hnc) as (_ & HB & _).
  pose proof (state_shape_reachable _ _ _ _ _ Hrun) as Hs.
  destruct (HB c a t Hc) as (Ha & _). unfold state_shape in Hs. rewrite Ha in Hs.
  destruct Hs as ((s & Hst & _) & _).
  assert (Hlt : c < length (callers w)) by (eapply lookup_lt_Some, Hc).
  cbn [step]. rewrite (creator_resumes w c a t _ Hc Hb). cbv zeta.
  rewrite Hst. cbn [is_some_time outcome_utterance].
  eexists. split; [reflexivity|].
  destruct (running_feedback w) as [f|].
  - right. exists f. cbn [set_caller with_callers callers].
    destruct (cancel_ticker_frame f w) as (_ & _ & _ & -> & _).
    apply list_lookup_insert_eq, Hlt.
  - left. apply list_lookup_insert_eq, Hlt.
Qed.

End FeedbackGuarantees.

Lemma one_feedback_task_witness :
  let w := state_after overlapping_questions in
  (forall f1 f2, ticker_alive f1 w -> ticker_alive f2 w -> f1 = f2)
  /\ (forall f, ticker_alive f w ->
        is_active (cs w) = true /\ feedback_task (cs w) = Some f).
Proof.
  apply (@one_feedback_task ascii_unicode 0%Z true anonymous overlapping_questions).
  - vm_compute. reflexivity.
  - repeat constructor; discriminate.
Defined.

Lemma no_feedback_after_completion_witness :
  let w := state_after slow_speech in
  feedback_sent (cs w) = []
  /\ (forall f tk, tickers w !! f = Some tk -> ticker_done tk = true)
  /\ (forall f say_ok pick, ticker_resume f say_ok pick w = None).
Proof.
  apply (@no_feedback_after_completion ascii_unicode 0%Z true anonymous slow_speech).
  - vm_compute. reflexivity.
  - repeat constructor; discriminate.
  - vm_compute. reflexivity.
Defined.

Lemma creator_returns_the_answer_witness :
  let w := state_after (take 9 slow_speech) in
  exists w', @step ascii_unicode w (EvCaller 0) = Some w'
    /\ (callers w' !! 0 = Some (CFinished (Returned (py "Cien soles")))
        \/ exists f, callers w' !! 0 = Some (CCleaning f (py "Cien soles"))).
Proof.
  apply (@creator_returns_the_answer ascii_unicode 0%Z true anonymous (take 9 slow_speech)
           _ 0 (QueryArgs (py "precio")) 0).
  - vm_compute. reflexivity.
  - repeat constructor; discriminate.
  - vm_compute. reflexivity.
  - vm_compute. reflexivity.
Defined.

(** ** The validation phase of [schedule_appointment] *)

Section ValidationPhase.
Context {U : PyUnicode}.

(** [parse_relative_date] raises only past the last day of the
    calendar. *)
Lemma parse_relative_date_raises today date_input day_reference e :
  valid_date today = true ->
  parse_relative_date today date_input day_reference = Raised e ->
  e = OtherException "OverflowError" /\ today = mkDate 9999 12 31.
Proof.
  intros Hv. unfold parse_relative_date.
  destruct (negb (truthy date_input)); [discriminate|].
  destruct (_ || _).
  - destruct (tomorrow_of today) as [t|] eqn:Et.
    + destruct (day_reference_mismatch day_reference (weekday t)); discriminate.
    + intros [= <-]. split; [reflexivity | apply tomorrow_of_none; assumption].
  - destruct (strptime_dmy _) as [d|]; [|discriminate].
    destruct (date_ltb d today); [discriminate|].
    destruct (day_reference_mismatch day_reference (weekday d)); discriminate.
Qed.

(** X10. Whatever its arguments, a call of [schedule_appointment] on a day of
    the calendar starts nothing before the confirmation: it creates no
    task, posts nothing and leaves the shared state as it was. It ends
    in one of three ways. It returns a message at once, without a word.
    Or it raises, without a word: [AttributeError] when there is no
    session to speak the confirmation to, [OverflowError] when the day
    is the last of the calendar. Or it speaks the confirmation and
    waits, and then there is a session, the name and the time are not
    empty, the phone is [+51] and nine decimal digits and the date is
    the writing of a day of the calendar. *)
Theorem schedule_appointment_outcomes today name phone date day_reference time reason w :
  valid_date today = true ->
  let w' := schedule_appointment today name phone date day_reference time reason w in
  cs w' = cs w /\ backends w' = backends w /\ tickers w' = tickers w /\ posts w' = posts w
  /\ exists st, callers w' = callers w ++ [st]
       /\ match st with
          | CFinished (Returned _) => spoken w' = spoken w
          | CFinished (Raised e) =>
            spoken w' = spoken w
            /\ ((e = OtherException "AttributeError" /\ session w = false)
                \/ (e = OtherException "OverflowError" /\ today = mkDate 9999 12 31))
          | CConfirming (ScheduleArgs name' phone' date' time' reason') =>
            session w = true /\ reason' = reason
            /\ name' <> [] /\ peru_mobile phone' /\ calendar_date date' /\ time' <> []
            /\ spoken w' = spoken w ++ [{| u_time := now w; u_by := ByTool (length (callers w));
                                           u_text := msg_confirmation name' date' time' |}]
          | _ => False
          end.
Proof.
  intros Hv. cbv zeta.
  destruct (schedule_appointment_frame today name phone date day_reference time reason w)
    as (_ & _ & Hp & Hc & Hb & Ht & _).
  repeat (split; [assumption|]). clear Hp Hc Hb Ht.
  unfold schedule_appointment.
  destruct (normalize_phone phone) as [np pe] eqn:Ep.
  destruct (truthy pe) eqn:Etp; [eexists; split; reflexivity|].
  destruct (normalize_phone_valid _ _ _ Ep Etp) as (p & -> & Hp).
  destruct (parse_relative_date today date day_reference) as [[fd de]|e] eqn:Ed.
  2:{ destruct (parse_relative_date_raises _ _ _ _ Hv Ed) as (-> & ->).
      eexists. split; [reflexivity|]. split; [reflexivity|]. right. split; reflexivity. }
  destruct (truthy de); [eexists; split; reflexivity|].
  destruct (truthy name) eqn:Etn; cbn [negb app]; [|eexists; split; reflexivity].
  assert (Htp : truthy (Some p) = true).
  { apply truthy_msg. destruct Hp as (_ & ds & -> & _). rewrite py_plus51. discriminate. }
  rewrite Htp. cbn [negb app].
  destruct fd as [s|]; [|cbn [truthy negb app]; eexists; split; reflexivity].
  destruct (parse_relative_date_returns _ _ _ _ _ Hv Ed) as (_ & d & Hd & _ & -> & _).
  assert (Hts : truthy (Some (strftime_dmy d)) = true) by reflexivity.
  rewrite Hts. cbn [negb app].
  destruct (truthy time) eqn:Ett; cbn [negb]; [|eexists; split; reflexivity].
  destruct (session w) eqn:Es; (eexists; split; [reflexivity|]).
  - cbn [from_option id]. split; [reflexivity|]. split; [reflexivity|].
    split; [apply truthy_default, Etn|]. split; [exact Hp|].
    split; [exists d; auto|]. split; [apply truthy_default, Ett | reflexivity].
  - split; [reflexivity|]. left. split; reflexivity.
Qed.

(** X11. When the phone and the date pass the validation and the name or the
    time is missing, the call returns the message that asks for what is
    missing, the name before the time; the phone and the date are never
    asked for by that message. *)
Theorem missing_data_message today name phone date day_reference time reason w np s :
  normalize_phone phone = (Some np, None) -> np <> [] ->
  parse_relative_date today date day_reference = Returned (Some s, None) -> s <> [] ->
  truthy name && truthy time = false ->
  callers (schedule_appointment today name phone date day_reference time reason w)
  = callers w
    ++ [CFinished (Returned (msg_missing_data
          ((if truthy name then [] else [py "nombre completo"])
           ++ (if truthy time then [] else [py "hora"]))))].
Proof.
  intros Ep Hnp Ed Hs Hm. unfold schedule_appointment. rewrite Ep, Ed.
  rewrite (truthy_msg np Hnp), (truthy_msg s Hs). cbn [truthy negb app].
  destruct (truthy name), (truthy time); try discriminate; reflexivity.
Qed.

End ValidationPhase.

Lemma schedule_appointment_outcomes_witness :
  let w := initial_world 0%Z true anonymous in
  let w' := @schedule_appointment ascii_unicode (mkDate 2025 8 5) (Some (py "Ana Torres"))
              (Some (py "987 654 321")) (Some (py "mañana")) None (Some (py "10:00")) None w in
  valid_date (mkDate 2025 8 5) = true
  /\ callers w' = [CConfirming (ScheduleArgs (py "Ana Torres") (py "+51987654321")
                                  (py "06/08/2025") (py "10:00") None)]
  /\ cs w' = cs w /\ backends w' = backends w /\ tickers w' = tickers w /\ posts w' = posts w.
Proof.
  cbv zeta. split; [reflexivity|]. split; [vm_compute; reflexivity|].
  destruct (@schedule_appointment_outcomes ascii_unicode (mkDate 2025 8 5)
              (Some (py "Ana Torres")) (Some (py "987 654 321")) (Some (py "mañana")) None
              (Some (py "10:00")) None (initial_world 0%Z true anonymous) eq_refl)
    as (H1 & H2 & H3 & H4 & _).
  auto.
Defined.

Lemma missing_data_message_witness :
  callers (@schedule_appointment ascii_unicode (mkDate 2025 8 5) None
             (Some (py "987654321")) (Some (py "mañana")) None (Some (py "")) None
             (initial_world 0%Z true anonymous))
  = [CFinished (Returned (py "Por favor, proporciona los siguientes datos para agendar la cita: nombre completo, hora."))].
Proof.
  rewrite (@missing_data_message ascii_unicode (mkDate 2025 8 5) None (Some (py "987654321"))
             (Some (py "mañana")) None (Some (py "")) None (initial_world 0%Z true anonymous)
             (py "+51987654321") (py "06/08/2025")).
  - vm_compute. reflexivity.
  - vm_compute. reflexivity.
  - discriminate.
  - vm_compute. reflexivity.
  - discriminate.
  - reflexivity.
Defined.

(** ** The answer of the appointment webhook and the failures of a call *)

Lemma scheduled_not_refused name date time : msg_scheduled name date time <> msg_not_scheduled name.
Proof.
  unfold msg_scheduled, msg_not_scheduled. intros H.
  apply (f_equal (fun s => nth 0 s 0%N)) in H. vm_compute in H. discriminate.
Qed.

(** X19. For a response with a 2xx status whose body is a JSON object,
    [perform_scheduling] returns and never raises: the utterance of
    success exactly when the entry [status] is the string [success], and
    the utterance that the appointment could not be scheduled for any
    other value, another type, or no entry. *)
Theorem scheduling_answer_status (status : Z) (name phone date time : pystr)
    (reason : option pystr) (m : gmap pystr json) :
  is_success status = true ->
  exists v,
    backend_finish (PerformScheduling name phone date time reason)
      (HttpResponse status (Some (JObj m))) = Returned v
    /\ (v = msg_scheduled name date time \/ v = msg_not_scheduled name)
    /\ (v = msg_scheduled name date time <-> m !! py "status" = Some (JStr (py "success"))).
Proof.
  intros Hs. unfold backend_finish, scheduling_answer. rewrite Hs. cbn [negb].
  pose proof (scheduled_not_refused name date time) as Hne.
  destruct (m !! py "status") as [[| | |s| |]|];
    try (eexists; split; [reflexivity|]; split; [right; reflexivity|];
         split; [intros H; exfalso; apply Hne; symmetry; exact H | discriminate]).
  unfold pystr_eqb. destruct (bool_decide_reflect (s = py "success")) as [->|Hs'].
  - eexists. split; [reflexivity|]. split; [left; reflexivity|]. split; reflexivity.
  - eexists. split; [reflexivity|]. split; [right; reflexivity|].
    split; [intros H; exfalso; apply Hne; symmetry; exact H | congruence].
Qed.

(** X20. The failures of the backend call, for the call that started the
    operation: a timeout of the request gives the timeout utterance, a
    status outside 2xx the utterance of a failed connection, and a
    failure of the transport, a body that is not JSON or a body that is
    not an object the utterance of an unexpected error; and these
    utterances are told apart from one another, from the one of a
    missing configuration and from the one of a superseded call. *)
Theorem backend_failures_told_apart co :
  let op := coro_op co in
  outcome_utterance op true (backend_finish co HttpTimeout) = msg_timeout op
  /\ (forall status body, is_success status = false ->
        outcome_utterance op true (backend_finish co (HttpResponse status body)) = msg_http op)
  /\ (forall name,
        outcome_utterance op true (backend_finish co (HttpFailure name)) = msg_unexpected op)
  /\ (forall status, is_success status = true ->
        outcome_utterance op true (backend_finish co (HttpResponse status None))
        = msg_unexpected op
        /\ forall l, outcome_utterance op true
                       (backend_finish co (HttpResponse status (Some (JArr l))))
                     = msg_unexpected op)
  /\ NoDup [msg_config op; msg_superseded op; msg_timeout op; msg_http op; msg_unexpected op].
Proof.
  cbv zeta. split; [reflexivity|]. split; [|split; [|split]].
  - intros status body Hs. unfold backend_finish. rewrite Hs. reflexivity.
  - reflexivity.
  - intros status Hs. unfold backend_finish. rewrite Hs. cbn [negb].
    split; [reflexivity|]. intros l. destruct co; reflexivity.
  - destruct (coro_op co); apply (bool_decide_unpack _); vm_compute; exact I.
Qed.

Lemma scheduling_answer_status_witness :
  exists v,
    backend_finish (PerformScheduling (py "Ana") (py "+51987654321") (py "06/08/2025")
                      (py "10:00") None)
      (HttpResponse 200 (Some (JObj {[ py "status" := JStr (py "ok") ]}))) = Returned v
    /\ (v = msg_scheduled (py "Ana") (py "06/08/2025") (py "10:00")
        \/ v = msg_not_scheduled (py "Ana"))
    /\ (v = msg_scheduled (py "Ana") (py "06/08/2025") (py "10:00")
        <-> ({[ py "status" := JStr (py "ok") ]} : gmap pystr json) !! py "status"
            = Some (JStr (py "success"))).
Proof. apply scheduling_answer_status. reflexivity. Defined.

(** ** More on the silence monitor *)

Section MonitorGuarantees.
Context {U : PyUnicode}.

(** The counter of warnings moves between zero and the maximum, which
    stays one. *)
Lemma warnings_bounded_step w ev w' :
  max_silence_warnings (mon w) = 1%Z /\ (0 <= silence_warnings (mon w) <= 1)%Z ->
  step w ev = Some w' ->
  max_silence_warnings (mon w') = 1%Z /\ (0 <= silence_warnings (mon w') <= 1)%Z.
Proof.
  intros (Hmax & Hw) H. pose proof (step_frame w ev w' H) as Hf.
  destruct ev; try (destruct Hf as (-> & _); auto); cbn [step] in H.
  - destruct (0 <=? dt)%Z; [|discriminate]. injection H as <-. auto.
  - apply monitor_resume_cases in H as (_ & _ & Hm & _ & Hc). rewrite Hm.
    split; [exact Hmax|].
    destruct Hc as [(d & _ & Hp & _ & Hw' & _)
                   |[(d & _ & _ & _ & Hw' & _)
                   |[(ct & _ & _ & Hw' & _)|(_ & _ & _ & Hw' & _)]]]; rewrite Hw'; try lia.
    apply poll_check_in_inv in Hp as (_ & _ & Hlt). lia.
  - injection H as <-. cbn. split; [exact Hmax | lia].
  - injection H as <-. cbn. auto.
  - injection H as <-. cbn. auto.
Qed.

(** X21. In every state of every run the counter of warnings of the monitor
    is zero or one: it is one from a check-in until the user is heard
    again or five minutes of silence have passed. A check-in is decided
    only while it is zero, and the reset after five minutes of silence
    only while it is one. *)
Theorem warnings_zero_or_one t0 sess info evs w :
  run (initial_world t0 sess info) evs = Some w ->
  (silence_warnings (mon w) = 0%Z \/ silence_warnings (mon w) = 1%Z)
  /\ (poll_decision (now w) (cs w) (mon w) = PollCheckIn -> silence_warnings (mon w) = 0%Z)
  /\ (poll_decision (now w) (cs w) (mon w) = PollPassive -> silence_warnings (mon w) = 1%Z).
Proof.
  intros Hrun.
  assert (Hb : max_silence_warnings (mon w) = 1%Z /\ (0 <= silence_warnings (mon w) <= 1)%Z).
  { revert Hrun. apply (run_invariant
      (fun w => max_silence_warnings (mon w) = 1%Z /\ (0 <= silence_warnings (mon w) <= 1)%Z)).
    - intros w0 ev w1. apply warnings_bounded_step.
    - cbn. split; [reflexivity | lia]. }
  destruct Hb as (Hmax & Hw). split; [lia|]. split.
  - intros Hp. apply poll_check_in_inv in Hp as (_ & _ & Hlt). lia.
  - unfold poll_decision. intros Hp.
    destruct (is_active (cs w)); [discriminate|].
    destruct (_ && _); [discriminate|].
    destruct (Z.leb_spec 60000 (now w - last_user_activity (mon w)));
      destruct (Z.ltb_spec (silence_warnings (mon w)) (max_silence_warnings (mon w)));
      cbn [andb] in Hp; try discriminate; try lia.
    destruct (Z.leb_spec 300000 (now w - last_user_activity (mon w))); [lia | discriminate].
Qed.

(** A monitor that has been stopped stays stopped. *)
Lemma stopped_step w ev w' :
  mon_pc (mon w) = MonStopped -> step w ev = Some w' ->
  mon_pc (mon w') = MonStopped /\ check_ins w' = check_ins w.
Proof.
  intros Hpc H. split.
  - pose proof (step_frame w ev w' H) as Hf.
    destruct ev; try (destruct Hf as (-> & _); exact Hpc); cbn [step] in H.
    + destruct (0 <=? dt)%Z; [|discriminate]. injection H as <-. exact Hpc.
    + unfold monitor_resume in H. rewrite Hpc in H. discriminate.
    + injection H as <-. exact Hpc.
    + injection H as <-. exact Hpc.
    + injection H as <-. reflexivity.
  - destruct (decide (check_ins w' = check_ins w)) as [Heq|Hne]; [exact Heq|].
    destruct (check_in_step _ _ _ H Hne) as (ok & d & _ & Hd & _). congruence.
Qed.

(** X22. Once [stop_monitoring] has been called, the monitor never speaks a
    check-in again, whatever happens next and however long the silence
    lasts. *)
Theorem stopped_monitor_is_silent w w1 evs w2 :
  step w EvStopMonitoring = Some w1 ->
  run w1 evs = Some w2 ->
  check_ins w2 = check_ins w /\ mon_pc (mon w2) = MonStopped
  /\ mon_is_active (mon w2) = false.
Proof.
  intros H Hrun. cbn [step] in H. injection H as <-.
  assert (Hinv : (mon_pc (mon w2) = MonStopped /\ mon_is_active (mon w2) = false)
                 /\ check_ins w2 = check_ins w).
  { revert Hrun. apply (run_invariant
      (fun w0 => (mon_pc (mon w0) = MonStopped /\ mon_is_active (mon w0) = false)
                 /\ check_ins w0 = check_ins w)).
    - intros w0 ev w3 ((Hpc & Hact) & Hci) Hs.
      destruct (stopped_step _ _ _ Hpc Hs) as (Hpc' & Hci').
      split; [split; [exact Hpc'|] | congruence].
      pose proof (step_frame w0 ev w3 Hs) as Hf.
      destruct ev; try (destruct Hf as (-> & _); exact Hact); cbn [step] in Hs.
      + destruct (0 <=? dt)%Z; [|discriminate]. injection Hs as <-. exact Hact.
      + unfold monitor_resume in Hs. rewrite Hpc in Hs. discriminate.
      + injection Hs as <-. exact Hact.
      + injection Hs as <-. exact Hact.
      + injection Hs as <-. reflexivity.
    - repeat split; reflexivity. }
  destruct Hinv as ((? & ?) & ?). auto.
Qed.

End MonitorGuarantees.

Lemma warnings_zero_or_one_witness :
  let w := state_after [EvMonitor true; EvAdvance 30000; EvMonitor true; EvAdvance 30000;
                        EvMonitor true] in
  check_ins w = 1
  /\ (silence_warnings (mon w) = 0%Z \/ silence_warnings (mon w) = 1%Z)
  /\ (poll_decision (now w) (cs w) (mon w) = PollCheckIn -> silence_warnings (mon w) = 0%Z)
  /\ (poll_decision (now w) (cs w) (mon w) = PollPassive -> silence_warnings (mon w) = 1%Z).
Proof.
  split; [vm_compute; reflexivity|].
  apply (@warnings_zero_or_one ascii_unicode 0%Z true anonymous
           [EvMonitor true; EvAdvance 30000; EvMonitor true; EvAdvance 30000; EvMonitor true]).
  vm_compute. reflexivity.
Defined.

Lemma stopped_monitor_is_silent_witness :
  let w := state_after [EvMonitor true] in
  let w2 := state_after [EvMonitor true; EvStopMonitoring; EvAdvance 600000; EvUserActivity;
                         EvAdvance 600000] in
  check_ins w2 = check_ins w /\ mon_pc (mon w2) = MonStopped
  /\ mon_is_active (mon w2) = false.
Proof.
  apply (@stopped_monitor_is_silent ascii_unicode (state_after [EvMonitor true])
           (state_after [EvMonitor true; EvStopMonitoring])
           [EvAdvance 600000; EvUserActivity; EvAdvance 600000]).
  - vm_compute. reflexivity.
  - vm_compute. reflexivity.
Defined.

(** ** The earlier silence monitor *)

Lemma legacy_run_invariant (P : Legacy.State -> Prop) :
  (forall s ev s', P s -> Legacy.step s ev = Some s' -> P s') ->
  forall evs s s', P s -> Legacy.run s evs = Some s' -> P s'.
Proof.
  intros Hstep. induction evs as [|ev evs IH]; intros s s' Hs Hrun.
  - injection Hrun as <-. exact Hs.
  - cbn [Legacy.run] in Hrun. destruct (Legacy.step s ev) as [s1|] eqn:E; [|discriminate].
    cbn [mbind option_bind] in Hrun. eapply IH; [eapply Hstep; eassumption | exact Hrun].
Qed.

(** What a resumption of the monitor says: nothing, or the message of
    the warning it counts, or the final message. *)
Lemma legacy_resume_cases s s' :
  Legacy.sane s -> Legacy.resume s = Some s' ->
  Legacy.sane s'
  /\ Legacy.now s' = Legacy.now s
  /\ (Legacy.said s' = Legacy.said s
      \/ (exists k msg,
            Legacy.silence_warnings (Legacy.cm s) = Z.of_nat k
            /\ Legacy.silence_warnings (Legacy.cm s') = Z.of_nat (S k)
            /\ k < 3 /\ Legacy.messages !! k = Some msg
            /\ (15000 <= Legacy.now s - Legacy.last_user_activity (Legacy.cm s))%Z
            /\ Legacy.said s' = Legacy.said s ++ [(Legacy.now s, msg)])
      \/ (Legacy.silence_warnings (Legacy.cm s) = 3%Z
          /\ (60000 <= Legacy.now s - Legacy.last_user_activity (Legacy.cm s))%Z
          /\ Legacy.pc (Legacy.cm s') = Legacy.SayingFinal (Legacy.now s)
          /\ Legacy.said s' = Legacy.said s ++ [(Legacy.now s, Legacy.msg_final)])).
Proof.
  intros (Hmax & Hw) H. unfold Legacy.resume in H.
  assert (Hloop : forall m, Legacy.max_silence_warnings m = 3%Z ->
            (0 <= Legacy.silence_warnings m <= 3)%Z ->
            Legacy.sane (Legacy.loop m s) /\ Legacy.now (Legacy.loop m s) = Legacy.now s
            /\ Legacy.said (Legacy.loop m s) = Legacy.said s).
  { intros m H1 H2. unfold Legacy.sane. cbn. auto. }
  destruct (Legacy.pc (Legacy.cm s)) as [|d|ct|ct|] eqn:Hpc; try discriminate.
  - injection H as <-. destruct (Hloop _ Hmax Hw) as (? & ? & ?). auto.
  - destruct (Legacy.now s <? d)%Z; [discriminate|].
    destruct (negb (Legacy.is_active (Legacy.cm s)));
      [injection H as <-; destruct (Hloop _ Hmax Hw) as (? & ? & ?); auto|].
    cbv zeta in H.
    destruct (Z.leb_spec 15000 (Legacy.now s - Legacy.last_user_activity (Legacy.cm s)))
      as [H15|H15];
      destruct (Z.ltb_spec (Legacy.silence_warnings (Legacy.cm s))
                  (Legacy.max_silence_warnings (Legacy.cm s))) as [Hlt|Hge];
      cbn [andb] in H.
    + cbn [Legacy.silence_warnings] in H.
      assert (Hk : exists k, Legacy.silence_warnings (Legacy.cm s) = Z.of_nat k /\ k < 3)
        by (exists (Z.to_nat (Legacy.silence_warnings (Legacy.cm s))); lia).
      destruct Hk as (k & Hk & Hk3). rewrite Hk in H.
      assert (Hidx : py_index Legacy.messages
                       (Z.min (Z.of_nat k + 1 - 1) (Z.of_nat (length Legacy.messages) - 1))
                     = Legacy.messages !! k).
      { unfold py_index. cbn [length Legacy.messages].
        replace (Z.min (Z.of_nat k + 1 - 1) (Z.of_nat 5 - 1)) with (Z.of_nat k) by lia.
        destruct (Z.leb_spec 0 (Z.of_nat k)); [|lia]. rewrite Nat2Z.id. reflexivity. }
      rewrite Hidx in H.
      destruct (Legacy.messages !! k) as [msg|] eqn:Hm.
      * injection H as <-. split; [unfold Legacy.sane; cbn; split; [exact Hmax | lia]|].
        split; [reflexivity|]. right. left. exists k, msg. cbn.
        repeat split; try assumption; try reflexivity; lia.
      * exfalso. apply lookup_ge_None in Hm. cbn in Hm. lia.
    + destruct (Z.leb_spec 60000 (Legacy.now s - Legacy.last_user_activity (Legacy.cm s)));
        destruct (Z.leb_spec (Legacy.max_silence_warnings (Legacy.cm s))
                    (Legacy.silence_warnings (Legacy.cm s)));
        cbn [andb] in H; try lia; injection H as <-.
      * split; [unfold Legacy.sane; cbn; auto|]. split; [reflexivity|]. right. right.
        cbn. repeat split; try reflexivity; lia.
      * destruct (Hloop _ Hmax Hw) as (? & ? & ?). auto.
    + destruct (Z.leb_spec 60000 (Legacy.now s - Legacy.last_user_activity (Legacy.cm s)));
        [lia|]. cbn [andb] in H. injection H as <-.
      destruct (Hloop _ Hmax Hw) as (? & ? & ?). auto.
    + destruct (Z.leb_spec 60000 (Legacy.now s - Legacy.last_user_activity (Legacy.cm s)));
        [lia|]. cbn [andb] in H. injection H as <-.
      destruct (Hloop _ Hmax Hw) as (? & ? & ?). auto.
  - injection H as <-. destruct (Hloop
      {| Legacy.last_user_activity := ct;
         Legacy.silence_warnings := Legacy.silence_warnings (Legacy.cm s);
         Legacy.max_silence_warnings := Legacy.max_silence_warnings (Legacy.cm s);
         Legacy.is_active := Legacy.is_active (Legacy.cm s);
         Legacy.pc := Legacy.pc (Legacy.cm s) |} Hmax Hw) as (? & ? & ?). auto.
  - injection H as <-. destruct (Hloop
      {| Legacy.last_user_activity := ct;
         Legacy.silence_warnings := 0;
         Legacy.max_silence_warnings := Legacy.max_silence_warnings (Legacy.cm s);
         Legacy.is_active := Legacy.is_active (Legacy.cm s);
         Legacy.pc := Legacy.pc (Legacy.cm s) |} Hmax ltac:(cbn; lia)) as (? & ? & ?). auto.
Qed.

Lemma legacy_sane_step s ev s' :
  Legacy.sane s -> Legacy.step s ev = Some s' -> Legacy.sane s'.
Proof.
  intros Hs H. destruct ev; cbn [Legacy.step] in H.
  - destruct (0 <=? dt)%Z; [|discriminate]. injection H as <-. exact Hs.
  - apply (legacy_resume_cases s s' Hs H).
  - injection H as <-. destruct Hs as (Hmax & _). unfold Legacy.sane. cbn. split; [exact Hmax | lia].
  - injection H as <-. exact Hs.
Qed.

Lemma legacy_sane_reachable t0 evs s :
  Legacy.run (Legacy.initial t0) evs = Some s -> Legacy.sane s.
Proof.
  apply (legacy_run_invariant Legacy.sane legacy_sane_step).
  unfold Legacy.sane. cbn. split; [reflexivity | lia].
Qed.

(** X26. In every run of the earlier monitor the counter of warnings stays
    between zero and three, the index of the message is always in
    range, and what the monitor says is one of the first three of its
    five messages or the final message: the fourth and the fifth
    message are never spoken. *)
Theorem legacy_monitor_messages t0 evs s :
  Legacy.run (Legacy.initial t0) evs = Some s ->
  (0 <= Legacy.silence_warnings (Legacy.cm s) <= 3)%Z
  /\ forall t msg, (t, msg) ∈ Legacy.said s ->
       msg = Legacy.msg_final \/ msg ∈ take 3 Legacy.messages.
Proof.
  intros Hrun. split; [apply (legacy_sane_reachable _ _ _ Hrun)|].
  assert (Hinv : Legacy.sane s
                 /\ forall t msg, (t, msg) ∈ Legacy.said s ->
                      msg = Legacy.msg_final \/ msg ∈ take 3 Legacy.messages).
  { revert Hrun. apply (legacy_run_invariant
      (fun s => Legacy.sane s
                /\ forall t msg, (t, msg) ∈ Legacy.said s ->
                     msg = Legacy.msg_final \/ msg ∈ take 3 Legacy.messages)).
    - intros s0 ev s1 (Hs & Hsaid) Hstep.
      split; [eapply legacy_sane_step; eassumption|].
      destruct ev; cbn [Legacy.step] in Hstep.
      + destruct (0 <=? dt)%Z; [|discriminate]. injection Hstep as <-. exact Hsaid.
      + destruct (legacy_resume_cases _ _ Hs Hstep)
          as (_ & _ & [->|[(k & m & _ & _ & Hk & Hm & _ & ->)|(_ & _ & _ & ->)]]);
          [exact Hsaid| |].
        * intros t msg Hin. apply elem_of_app in Hin as [Hin|Hin]; [eapply Hsaid, Hin|].
          apply list_elem_of_singleton in Hin. injection Hin as -> ->. right.
          apply list_elem_of_lookup. exists k. rewrite lookup_take_lt by exact Hk. exact Hm.
        * intros t msg Hin. apply elem_of_app in Hin as [Hin|Hin]; [eapply Hsaid, Hin|].
          apply list_elem_of_singleton in Hin. injection Hin as -> ->. left. reflexivity.
      + injection Hstep as <-. exact Hsaid.
      + injection Hstep as <-. exact Hsaid.
    - split; [unfold Legacy.sane; cbn; split; [reflexivity | lia]|].
      intros t msg Hin. cbn in Hin. apply elem_of_nil in Hin. contradiction. }
  apply Hinv.
Qed.

(** X27. In every run of the earlier monitor, a resumption that speaks is a
    poll: either the silence has lasted 15 seconds, the counter is some
    [k] below three, it becomes [k + 1] and the message spoken is the
    one of index [k]; or the silence has lasted 60 seconds, the counter
    is three and the final message is spoken, after which the counter
    is set back to zero. *)
Theorem legacy_monitor_escalation t0 evs s s' :
  Legacy.run (Legacy.initial t0) evs = Some s ->
  Legacy.step s Legacy.Resume = Some s' ->
  Legacy.said s' <> Legacy.said s ->
  (exists k msg,
     Legacy.silence_warnings (Legacy.cm s) = Z.of_nat k
     /\ Legacy.silence_warnings (Legacy.cm s') = Z.of_nat (S k)
     /\ k < 3 /\ Legacy.messages !! k = Some msg
     /\ (15000 <= Legacy.now s - Legacy.last_user_activity (Legacy.cm s))%Z
     /\ Legacy.said s' = Legacy.said s ++ [(Legacy.now s, msg)])
  \/ (Legacy.silence_warnings (Legacy.cm s) = 3%Z
      /\ (60000 <= Legacy.now s - Legacy.last_user_activity (Legacy.cm s))%Z
      /\ Legacy.said s' = Legacy.said s ++ [(Legacy.now s, Legacy.msg_final)]
      /\ forall s2, Legacy.step s' Legacy.Resume = Some s2 ->
           Legacy.silence_warnings (Legacy.cm s2) = 0%Z
           /\ Legacy.last_user_activity (Legacy.cm s2) = Legacy.now s).
Proof.
  intros Hrun Hstep Hne. pose proof (legacy_sane_reachable _ _ _ Hrun) as Hs.
  cbn [Legacy.step] in Hstep.
  destruct (legacy_resume_cases _ _ Hs Hstep)
    as (_ & _ & [Heq|[Hcheck|(Hw & Hsil & Hpc & Hsaid)]]).
  - contradiction.
  - left. exact Hcheck.
  - right. repeat split; try assumption.
    all: cbn [Legacy.step] in H; unfold Legacy.resume in H; rewrite Hpc in H;
      injection H as <-; reflexivity.
Qed.

Lemma legacy_monitor_messages_witness :
  let s := Legacy.state_after
             [Legacy.Resume; Legacy.Advance 15000; Legacy.Resume; Legacy.Resume;
              Legacy.Advance 15000; Legacy.Resume] in
  length (Legacy.said s) = 2
  /\ (0 <= Legacy.silence_warnings (Legacy.cm s) <= 3)%Z
  /\ forall t msg, (t, msg) ∈ Legacy.said s ->
       msg = Legacy.msg_final \/ msg ∈ take 3 Legacy.messages.
Proof.
  split; [vm_compute; reflexivity|].
  apply (legacy_monitor_messages 0%Z
           [Legacy.Resume; Legacy.Advance 15000; Legacy.Resume; Legacy.Resume;
            Legacy.Advance 15000; Legacy.Resume]).
  vm_compute. reflexivity.
Defined.

Lemma legacy_monitor_escalation_witness :
  let s := Legacy.state_after [Legacy.Resume; Legacy.Advance 15000] in
  let s' := Legacy.state_after [Legacy.Resume; Legacy.Advance 15000; Legacy.Resume] in
  (exists k msg,
     Legacy.silence_warnings (Legacy.cm s) = Z.of_nat k
     /\ Legacy.silence_warnings (Legacy.cm s') = Z.of_nat (S k)
     /\ k < 3 /\ Legacy.messages !! k = Some msg
     /\ (15000 <= Legacy.now s - Legacy.last_user_activity (Legacy.cm s))%Z
     /\ Legacy.said s' = Legacy.said s ++ [(Legacy.now s, msg)])
  \/ (Legacy.silence_warnings (Legacy.cm s) = 3%Z
      /\ (60000 <= Legacy.now s - Legacy.last_user_activity (Legacy.cm s))%Z
      /\ Legacy.said s' = Legacy.said s ++ [(Legacy.now s, Legacy.msg_final)]
      /\ forall s2, Legacy.step s' Legacy.Resume = Some s2 ->
           Legacy.silence_warnings (Legacy.cm s2) = 0%Z
           /\ Legacy.last_user_activity (Legacy.cm s2) = Legacy.now s).
Proof.
  apply (legacy_monitor_escalation 0%Z [Legacy.Resume; Legacy.Advance 15000]).
  - vm_compute. reflexivity.
  - vm_compute. reflexivity.
  - vm_compute. discriminate.
Defined.

(** ** Greetings by the hour *)

(** X25. The greeting and the farewell go by the same parts of the day: for
    every hour both are the ones of the morning (from 5 to 11), both
    the ones of the afternoon (from 12 to 18) or both the ones of the
    night, and the hours of the night are exactly the others, so that
    the welcome of the session and the farewell message of the tool
    never disagree. *)
Theorem greeting_matches_farewell (hour : Z) :
  let welcome := py ", bienvenido a Multiservicioscall, soy Mia. ¿Cómo puedo ayudarte?" in
  let thanks := py ". Gracias por contactar a Multiservicioscall." in
  (welcome_message hour = py "Buenos días" ++ welcome
   /\ get_farewell_message hour = py "Que tenga un buen día" ++ thanks
   /\ (5 <= hour < 12)%Z)
  \/ (welcome_message hour = py "Buenas tardes" ++ welcome
      /\ get_farewell_message hour = py "Que tenga una buena tarde" ++ thanks
      /\ (12 <= hour < 19)%Z)
  \/ (welcome_message hour = py "Buenas noches" ++ welcome
      /\ get_farewell_message hour = py "Que tenga una buena noche" ++ thanks
      /\ (hour < 5 \/ 19 <= hour)%Z).
Proof.
  cbv zeta. unfold welcome_message, get_farewell_message.
  unfold get_greeting, get_farewell.
  assert (Hm : forall A (x y z : A), (5 <= hour < 12)%Z ->
            (if ((5 <=? hour) && (hour <? 12))%Z then x
             else if ((12 <=? hour) && (hour <? 19))%Z then y else z) = x).
  { intros A x y z Hh. destruct (Z.leb_spec 5 hour); [|lia].
    destruct (Z.ltb_spec hour 12); [reflexivity | lia]. }
  assert (Ha : forall A (x y z : A), (12 <= hour < 19)%Z ->
            (if ((5 <=? hour) && (hour <? 12))%Z then x
             else if ((12 <=? hour) && (hour <? 19))%Z then y else z) = y).
  { intros A x y z Hh. destruct (Z.leb_spec 5 hour); [|lia].
    destruct (Z.ltb_spec hour 12); [lia|]. cbn [andb].
    destruct (Z.leb_spec 12 hour); [|lia]. destruct (Z.ltb_spec hour 19); [reflexivity | lia]. }
  assert (Hn : forall A (x y z : A), (hour < 5 \/ 19 <= hour)%Z ->
            (if ((5 <=? hour) && (hour <? 12))%Z then x
             else if ((12 <=? hour) && (hour <? 19))%Z then y else z) = z).
  { intros A x y z Hh. destruct (Z.leb_spec 5 hour); destruct (Z.ltb_spec hour 12);
      cbn [andb]; try lia; destruct (Z.leb_spec 12 hour); destruct (Z.ltb_spec hour 19);
      cbn [andb]; try lia; reflexivity. }
  assert (Hcases : (5 <= hour < 12)%Z \/ (12 <= hour < 19)%Z \/ (hour < 5 \/ 19 <= hour)%Z)
    by lia.
  destruct Hcases as [Hh|[Hh|Hh]].
  - left. rewrite !Hm by exact Hh. auto.
  - right. left. rewrite !Ha by exact Hh. auto.
  - right. right. rewrite !Hn by exact Hh. auto.
Qed.

(** ** Failures seen by a call that joined *)

Section JoinedFailures.
Context {U : PyUnicode}.

(** X18. A call that joined an operation whose task ends with an exception
    other than a cancellation (a timeout, an HTTP status, any other
    failure) resumes by raising that exception: it returns no
    utterance, speaks nothing, and leaves the shared state, the tasks
    and the requests as they are; the reset of the state is left to the
    call that started the operation. *)
Theorem joined_call_lets_failures_out w c a t e :
  callers w !! c = Some (CJoined a t) ->
  backends w !! t = Some (BDone (Raised e)) ->
  e <> CancelledError ->
  exists w', step w (EvCaller c) = Some w'
    /\ callers w' !! c = Some (CFinished (Raised e))
    /\ cs w' = cs w /\ backends w' = backends w /\ tickers w' = tickers w
    /\ posts w' = posts w /\ spoken w' = spoken w.
Proof.
  intros Hc Hb Hne. cbn [step].
  destruct (joined_call_propagates w c a t e Hc Hb Hne) as (w' & Hw' & Hc').
  exists w'. split; [exact Hw'|]. split; [exact Hc'|].
  destruct (caller_resume_effect _ _ _ Hw')
    as (Hp & _ & Hs & _ & st0 & st' & Hc0 & _ & Hcase).
  rewrite Hc in Hc0. injection Hc0 as <-.
  destruct Hcase as [(a0 & t0 & r & _ & _ & _ & _ & Hcs & Hbs & Hts)
                    |[(a0 & t0 & [= <- <-] & Hb0 & _)
                    |[(a0 & t0 & r & f & [=] & _)
                    |[(a0 & t0 & r & [=] & _)
                    |(f & ret & tk & [=] & _)]]]].
  - auto 10.
  - congruence.
Qed.

End JoinedFailures.

Lemma joined_call_lets_failures_out_witness :
  let w := state_after (overlapping_questions
                        ++ [EvTicker 0 true 0; EvAdvance 15000; EvBackendReply 0 HttpTimeout]) in
  exists w', @step ascii_unicode w (EvCaller 1) = Some w'
    /\ callers w' !! 1 = Some (CFinished (Raised TimeoutException))
    /\ cs w' = cs w /\ backends w' = backends w /\ tickers w' = tickers w
    /\ posts w' = posts w /\ spoken w' = spoken w.
Proof.
  apply (@joined_call_lets_failures_out ascii_unicode _ 1 (QueryArgs (py "horario")) 0).
  - vm_compute. reflexivity.
  - vm_compute. reflexivity.
  - discriminate.
Defined.

(** ** The answer, cleaned *)

Lemma lstrip_Forall (P : N -> Prop) s : Forall P s -> Forall P (lstrip s).
Proof.
  induction 1 as [|c r Hc Hr IH]; cbn [lstrip]; [constructor|].
  destruct (is_space c); [exact IH | constructor; assumption].
Qed.

Lemma strip_Forall (P : N -> Prop) s : Forall P s -> Forall P (strip s).
Proof.
  intros H. unfold strip, rstrip. apply Forall_rev, lstrip_Forall, Forall_rev, lstrip_Forall, H.
Qed.

Lemma lstrip_idempotent s : lstrip (lstrip s) = lstrip s.
Proof.
  induction s as [|c r IH]; [reflexivity|]. cbn [lstrip].
  destruct (is_space c) eqn:E; [exact IH|]. cbn [lstrip]. rewrite E. reflexivity.
Qed.

Lemma rstrip_idempotent s : rstrip (rstrip s) = rstrip s.
Proof. unfold rstrip. rewrite rev_involutive, lstrip_idempotent. reflexivity. Qed.

(** Stripping on the right keeps a string stripped on the left. *)
Lemma lstrip_rstrip s : lstrip s = s -> lstrip (rstrip s) = rstrip s.
Proof.
  destruct s as [|c r]; [reflexivity|]. cbn [lstrip].
  destruct (is_space c) eqn:E.
  - intros H. exfalso. apply (f_equal (@length N)) in H. cbn [length] in H.
    assert (Hle : forall l, length (lstrip l) <= length l).
    { induction l as [|x l IH]; [reflexivity|]. cbn [lstrip].
      destruct (is_space x); cbn [length]; lia. }
    specialize (Hle r). lia.
  - intros _. unfold rstrip. cbn [rev]. rewrite lstrip_app_keep by exact E.
    rewrite rev_app_distr. cbn [rev app lstrip]. rewrite E. reflexivity.
Qed.

Lemma strip_idempotent s : strip (strip s) = strip s.
Proof.
  unfold strip. rewrite (lstrip_rstrip (lstrip s)) by apply lstrip_idempotent.
  apply rstrip_idempotent.
Qed.

(** X30. The answer [perform_query] returns is clean: it holds no
    asterisk and no telephone sign, has no white space at either end,
    and cleaning it again changes nothing. *)
Theorem clean_answer_idempotent answer :
  Forall (fun c => c <> 42%N /\ c <> 128222%N) (clean_answer answer)
  /\ strip (clean_answer answer) = clean_answer answer
  /\ clean_answer (clean_answer answer) = clean_answer answer.
Proof.
  rewrite !clean_answer_spec.
  assert (Hm : Forall (fun c => c <> 42%N /\ c <> 128222%N) (strip (without_marks answer))).
  { apply strip_Forall. unfold without_marks. apply Forall_forall. intros c Hc.
    apply list_elem_of_filter in Hc as (H1 & Hc).
    apply list_elem_of_filter in Hc as (H2 & _). auto. }
  split; [exact Hm|]. split; [apply strip_idempotent|].
  assert (Hid : without_marks (strip (without_marks answer)) = strip (without_marks answer)).
  { revert Hm. generalize (strip (without_marks answer)) as l. intros l Hl.
    unfold without_marks. induction Hl as [|c r (H1 & H2) Hr IH]; [reflexivity|].
    rewrite (filter_cons_True (λ c, c ≠ 42%N)) by exact H1.
    rewrite (filter_cons_True (λ c, c ≠ 128222%N)) by exact H2.
    rewrite IH. reflexivity. }
  rewrite Hid. apply strip_idempotent.
Qed.

(** ** Two races *)

Lemma enter_operation_participant a w w' st :
  enter_operation a w = Some (w', st) -> participant w' = participant w.
Proof.
  unfold enter_operation. intros H.
  destruct (is_active (cs w)); [|injection H as <- <-; reflexivity].
  set (w1 := match running_feedback w with Some f => cancel_ticker f w | None => w end) in *.
  assert (H1 : participant w1 = participant w).
  { subst w1. destruct (running_feedback w) as [f|]; [|reflexivity].
    unfold cancel_ticker. repeat case_match; reflexivity. }
  destruct (task (cs (with_cs (supersede a (cs w1)) w1))) as [t|].
  - destruct (backends (with_cs (supersede a (cs w1)) w1) !! t) as [[co|co p|[v|e]]|];
      cbn [mbind option_bind] in H; try discriminate;
      try destruct e; cbn [join_outcome] in H; injection H as <- <-; exact H1.
  - injection H as <- <-. exact H1.
Qed.

Section Races.
Context {U : PyUnicode}.

(** X28. What the user does while the check-in is being spoken is
    overwritten: the activity sets the last user activity to its own
    time and the counter of warnings to zero, and when the [say] of the
    check-in has ended the monitor sets the last user activity back to
    the time of its poll, the counter staying at zero. *)
Theorem activity_during_check_in w ct say_ok :
  mon_pc (mon w) = MonSaying ct ->
  exists w1 w2,
    step w EvUserActivity = Some w1 /\ step w1 (EvMonitor say_ok) = Some w2
    /\ last_user_activity (mon w1) = now w /\ silence_warnings (mon w1) = 0%Z
    /\ last_user_activity (mon w2) = ct /\ silence_warnings (mon w2) = 0%Z
    /\ spoken w2 = spoken w.
Proof.
  intros Hpc. eexists _, _. cbn [step]. split; [reflexivity|].
  unfold monitor_resume.
  cbn [with_mon mon update_user_activity mon_pc]. rewrite Hpc.
  split; [reflexivity|]. unfold monitor_loop.
  destruct say_ok; cbn; destruct (mon_is_active (mon w)); cbn; auto.
Qed.

(** X29. The question that is posted is the one current when the
    backend task first runs: when a second question arrives while the
    operation is active and its task has not run yet, the second call
    joins the operation, creating no task, and the task then posts the
    second question, stripped, not the one the operation was started
    for. *)
Theorem late_question_is_posted w b url question :
  is_active (cs w) = true -> task (cs w) = Some b ->
  backends w !! b = Some (BCreated PerformQuery) -> truthy url = true ->
  exists w1 w2,
    step w (EvQuery question) = Some w1
    /\ callers w1 = callers w ++ [CJoined (QueryArgs question) b]
    /\ backends w1 = backends w
    /\ step w1 (EvBackendRun b url) = Some w2
    /\ posts w2 = posts w ++ [(b, RagPayload (strip question) (participant w))].
Proof.
  intros Ha Ht Hb Hu.
  destruct (enter_operation_active (QueryArgs question) w b _ Ha Ht Hb)
    as (w0 & Hb0 & Hp0 & Hc0 & _ & _ & Hq0 & _ & _ & He).
  pose proof (enter_operation_participant _ _ _ _ He) as Hpart.
  exists (new_call (CJoined (QueryArgs question) b) w0).
  assert (Hrun : backend_run b url (new_call (CJoined (QueryArgs question) b) w0)
                 = Some (post b (RagPayload (strip question) (participant w))
                           (set_backend b (BPosting PerformQuery
                                             (RagPayload (strip question) (participant w)))
                              (new_call (CJoined (QueryArgs question) b) w0)))).
  { unfold backend_run. cbn [new_call with_callers backends cs participant].
    rewrite Hb0, Hb. cbn [mbind option_bind]. unfold backend_begin.
    rewrite Hu, Hq0, Hpart. reflexivity. }
  eexists. cbn [step]. unfold query_knowledge_base. rewrite He.
  cbn [mbind option_bind]. split; [reflexivity|].
  split; [cbn [new_call with_callers callers]; rewrite Hc0; reflexivity|].
  split; [exact Hb0|]. split; [exact Hrun|].
  cbn [post set_backend with_backends new_call with_callers posts]. rewrite Hp0. reflexivity.
Qed.

End Races.

Lemma activity_during_check_in_witness :
  let w := state_after [EvMonitor true; EvAdvance 30000; EvMonitor true; EvAdvance 30000;
                        EvMonitor true; EvAdvance 3000] in
  exists w1 w2,
    @step ascii_unicode w EvUserActivity = Some w1
    /\ @step ascii_unicode w1 (EvMonitor true) = Some w2
    /\ last_user_activity (mon w1) = now w /\ silence_warnings (mon w1) = 0%Z
    /\ last_user_activity (mon w2) = 60000%Z /\ silence_warnings (mon w2) = 0%Z
    /\ spoken w2 = spoken w.
Proof.
  apply (@activity_during_check_in ascii_unicode). vm_compute. reflexivity.
Defined.

Lemma late_question_is_posted_witness :
  let w := state_after [EvQuery (py "precio")] in
  exists w1 w2,
    @step ascii_unicode w (EvQuery (py " horario ")) = Some w1
    /\ callers w1 = callers w ++ [CJoined (QueryArgs (py " horario ")) 0]
    /\ backends w1 = backends w
    /\ @step ascii_unicode w1 (EvBackendRun 0 webhook_url) = Some w2
    /\ posts w2 = posts w ++ [(0, RagPayload (strip (py " horario ")) (participant w))].
Proof.
  apply (@late_question_is_posted ascii_unicode); vm_compute; reflexivity.
Defined.
(** ** Teardown *)

Section Teardown.
Context {U : PyUnicode}.






End Teardown.


(** ** The answer of the knowledge base *)

Section Answer.
Context {U : PyUnicode}.






End Answer.


